(** * CV certificates of STB 34.101.79 (btok): a shallow embedding of
    [btok_cvc.c] and the properties of its validators, body codec,
    wrap / unwrap and issue operations. *)

From Stdlib Require Import String.
From Stdlib Require Import List Arith ZArith Lia Bool.
From Stdlib Require Import Strings.Byte.
Import ListNotations.

Set Implicit Arguments.

(** ** Octets, error codes, assertions *)

(** [octet] of bee2/defs.h: an 8-bit unsigned value. *)
Definition octet : Type := byte.

Definition oct (b : octet) : nat := Byte.to_nat b.

(** Truncation of an [int] result to an octet ([y = 10 * date[0] + ...]). *)
Definition to_octet (n : nat) : nat := n mod 256.

Definition octet_of_nat (n : nat) : octet :=
  match Byte.of_nat (n mod 256) with
  | Some b => b
  | None => x00
  end.

Definition octet_eqb (a b : octet) : bool := Byte.eqb a b.

Fixpoint octets_eqb (a b : list octet) : bool :=
  match a, b with
  | [], [] => true
  | x :: a', y :: b' => octet_eqb x y && octets_eqb a' b'
  | _, _ => false
  end.

(** The error codes of bee2/core/err.h that the certificate engine returns
    or lets through from its collaborators. *)
Inductive err_t : Type :=
| ERR_OK
| ERR_BAD_INPUT
| ERR_OUTOFMEMORY
| ERR_BAD_NAME
| ERR_BAD_DATE
| ERR_BAD_FORMAT
| ERR_BAD_PUBKEY
| ERR_BAD_KEYPAIR
| ERR_BAD_SIG
| ERR_BAD_PARAMS
| ERR_OTHER (code : N).

Definition err_eqb (a b : err_t) : bool :=
  match a, b with
  | ERR_OK, ERR_OK | ERR_BAD_INPUT, ERR_BAD_INPUT
  | ERR_OUTOFMEMORY, ERR_OUTOFMEMORY | ERR_BAD_NAME, ERR_BAD_NAME
  | ERR_BAD_DATE, ERR_BAD_DATE | ERR_BAD_FORMAT, ERR_BAD_FORMAT
  | ERR_BAD_PUBKEY, ERR_BAD_PUBKEY | ERR_BAD_KEYPAIR, ERR_BAD_KEYPAIR
  | ERR_BAD_SIG, ERR_BAD_SIG | ERR_BAD_PARAMS, ERR_BAD_PARAMS => true
  | ERR_OTHER x, ERR_OTHER y => N.eqb x y
  | _, _ => false
  end.

Definition is_ok (e : err_t) : bool := err_eqb e ERR_OK.

(** A run of a C function either returns a value or stops at a failed
    [ASSERT]. *)
Inductive outcome (A : Type) : Type :=
| Ret (a : A)
| AssertFailed.
Arguments AssertFailed {A}.

Definition bind {A B : Type} (c : outcome A) (k : A -> outcome B) : outcome B :=
  match c with
  | Ret a => k a
  | AssertFailed => AssertFailed
  end.

Declare Scope run_scope.
Delimit Scope run_scope with run.
Notation "x <- c ;; k" := (bind c (fun x => k))
  (at level 61, c at next level, right associativity) : run_scope.
Notation "c ;;; k" := (bind c (fun _ => k))
  (at level 61, right associativity) : run_scope.
Local Open Scope run_scope.

Lemma bind_Ret {A B : Type} (a : A) (k : A -> outcome B) : bind (Ret a) k = k a.
Proof. reflexivity. Qed.

Definition ASSERT (b : bool) : outcome unit :=
  if b then Ret tt else AssertFailed.

(** C's short-circuit [&&] and [||] over operands that may assert: the right
    operand runs only when the left one does not decide. *)
Definition and_then (a b : outcome bool) : outcome bool :=
  x <- a ;; if x then b else Ret false.
Definition or_else (a b : outcome bool) : outcome bool :=
  x <- a ;; if x then Ret true else b.
Infix "&&&" := and_then (at level 40, left associativity) : run_scope.
Infix "|||" := or_else (at level 50, left associativity) : run_scope.

(** ** Memory and string utilities *)

Module Mem.

(** Modelled from the spec: [memCmp] of bee2/core/mem.h, which is not among
    the sources; the spec's [leq] is a "byte-wise lexicographic comparison"
    over the first [count] octets.  The result is negative, zero or
    positive. *)
Fixpoint memCmp (buf1 buf2 : list octet) (count : nat) : Z :=
  match count with
  | O => 0%Z
  | S n =>
      let a := oct (hd x00 buf1) in
      let b := oct (hd x00 buf2) in
      if a <? b then (-1)%Z
      else if b <? a then 1%Z
      else memCmp (tl buf1) (tl buf2) n
  end.

(** Modelled from the spec: [memIsZero], "all-zero" over the first [count]
    octets. *)
Definition memIsZero (buf : list octet) (count : nat) : bool :=
  forallb (fun b => oct b =? 0) (firstn count buf).

(** [memSetZero(buf + from, size - from)] on a buffer of [size] octets. *)
Definition memSetZeroFrom (buf : list octet) (from size : nat) : list octet :=
  firstn from buf ++ repeat x00 (size - from).

(** A callee writes [src] at the start of the buffer [buf]. *)
Definition memWrite (buf src : list octet) : list octet :=
  src ++ skipn (length src) buf.

End Mem.

Module Str.

(** Modelled from the spec: [strIsPrintable] of bee2/core/str.h, "the
    restricted ASN.1 PrintableString alphabet": letters, digits, space and
    the marks ' ( ) + , - . / : = ? *)
Definition isPrintableChar (c : octet) : bool :=
  let n := oct c in
  ((65 <=? n) && (n <=? 90)) || ((97 <=? n) && (n <=? 122)) ||
  ((48 <=? n) && (n <=? 57)) ||
  (n =? 32) || (n =? 39) || (n =? 40) || (n =? 41) || (n =? 43) ||
  (n =? 44) || (n =? 45) || (n =? 46) || (n =? 47) || (n =? 58) ||
  (n =? 61) || (n =? 63).

Definition strIsPrintable (s : list octet) : bool := forallb isPrintableChar s.

(** A C string is kept as its characters up to the terminating zero. *)
Definition strLen (s : list octet) : nat := length s.
Definition strEq (s1 s2 : list octet) : bool := octets_eqb s1 s2.

End Str.

(** ** The certificate record *)

(** [btok_cvc_t] of bee2/crypto/btok.h.  The names are C strings; the other
    arrays are kept with their full capacity, [pubkey_len] and [sig_len]
    saying how much of [pubkey] and [sig] is in use. *)
Record btok_cvc_t : Type := mk_cvc {
  authority : list octet;
  holder : list octet;
  pubkey : list octet;
  pubkey_len : nat;
  hat_eid : list octet;
  hat_esign : list octet;
  from : list octet;
  until : list octet;
  sig : list octet;
  sig_len : nat
}.

(** Modelled from the spec: the capacities of the arrays of [btok_cvc_t]
    (the header is not among the sources): the largest public key has 128
    octets and the largest signature 96; the HATs have 5 and 2 octets and a
    date 6. *)
Definition sizeof_pubkey : nat := 128.
Definition sizeof_sig : nat := 96.

Definition body_layout (c : btok_cvc_t) : bool :=
  (length (pubkey c) =? sizeof_pubkey) && (length (hat_eid c) =? 5) &&
  (length (hat_esign c) =? 2) && (length (from c) =? 6) &&
  (length (until c) =? 6).

Definition cvc_layout (c : btok_cvc_t) : bool :=
  body_layout c && (length (sig c) =? sizeof_sig).

(** [memSetZero(cvc, sizeof(btok_cvc_t))] *)
Definition cvc_zero : btok_cvc_t :=
  mk_cvc [] [] (repeat x00 sizeof_pubkey) 0 (repeat x00 5) (repeat x00 2)
         (repeat x00 6) (repeat x00 6) (repeat x00 sizeof_sig) 0.

Definition set_pubkey (c : btok_cvc_t) (k : list octet) : btok_cvc_t :=
  mk_cvc (authority c) (holder c) k (pubkey_len c) (hat_eid c) (hat_esign c)
         (from c) (until c) (sig c) (sig_len c).
Definition set_pubkey_len (c : btok_cvc_t) (n : nat) : btok_cvc_t :=
  mk_cvc (authority c) (holder c) (pubkey c) n (hat_eid c) (hat_esign c)
         (from c) (until c) (sig c) (sig_len c).
Definition set_sig (c : btok_cvc_t) (s : list octet) : btok_cvc_t :=
  mk_cvc (authority c) (holder c) (pubkey c) (pubkey_len c) (hat_eid c)
         (hat_esign c) (from c) (until c) s (sig_len c).
Definition set_sig_len (c : btok_cvc_t) (n : nat) : btok_cvc_t :=
  mk_cvc (authority c) (holder c) (pubkey c) (pubkey_len c) (hat_eid c)
         (hat_esign c) (from c) (until c) (sig c) n.
Definition set_authority (c : btok_cvc_t) (s : list octet) : btok_cvc_t :=
  mk_cvc s (holder c) (pubkey c) (pubkey_len c) (hat_eid c)
         (hat_esign c) (from c) (until c) (sig c) (sig_len c).
Definition set_holder (c : btok_cvc_t) (s : list octet) : btok_cvc_t :=
  mk_cvc (authority c) s (pubkey c) (pubkey_len c) (hat_eid c)
         (hat_esign c) (from c) (until c) (sig c) (sig_len c).
Definition set_hat_eid (c : btok_cvc_t) (h : list octet) : btok_cvc_t :=
  mk_cvc (authority c) (holder c) (pubkey c) (pubkey_len c) h
         (hat_esign c) (from c) (until c) (sig c) (sig_len c).
Definition set_hat_esign (c : btok_cvc_t) (h : list octet) : btok_cvc_t :=
  mk_cvc (authority c) (holder c) (pubkey c) (pubkey_len c) (hat_eid c)
         h (from c) (until c) (sig c) (sig_len c).
Definition set_from (c : btok_cvc_t) (d : list octet) : btok_cvc_t :=
  mk_cvc (authority c) (holder c) (pubkey c) (pubkey_len c) (hat_eid c)
         (hat_esign c) d (until c) (sig c) (sig_len c).
Definition set_until (c : btok_cvc_t) (d : list octet) : btok_cvc_t :=
  mk_cvc (authority c) (holder c) (pubkey c) (pubkey_len c) (hat_eid c)
         (hat_esign c) (from c) d (sig c) (sig_len c).

(** ** Dates and names *)

Definition at_ (buf : list octet) (i : nat) : nat := oct (nth i buf x00).

(** [btokCVCDateIsValid] *)
Definition btokCVCDateIsValid (date : list octet) : bool :=
  if (9 <? at_ date 0) || (9 <? at_ date 1) || (9 <? at_ date 2) ||
     (9 <? at_ date 3) || (9 <? at_ date 4) || (9 <? at_ date 5)
  then false
  else
    let y := to_octet (10 * at_ date 0 + at_ date 1) in
    let m := to_octet (10 * at_ date 2 + at_ date 3) in
    let d := to_octet (10 * at_ date 4 + at_ date 5) in
    (19 <=? y) &&
    (1 <=? m) && (m <=? 12) &&
    (1 <=? d) && (d <=? 31) &&
    negb ((d =? 31) && ((m =? 4) || (m =? 6) || (m =? 9) || (m =? 11))) &&
    negb ((m =? 2) && ((29 <? d) || ((d =? 29) && negb (y mod 4 =? 0)))).

(** [btokCVCDateLeq] *)
Definition btokCVCDateLeq (left right : list octet) : outcome bool :=
  ASSERT (btokCVCDateIsValid left) ;;;
  ASSERT (btokCVCDateIsValid right) ;;;
  Ret (Mem.memCmp left right 6 <=? 0)%Z.

(** [btokCVCNameIsValid] *)
Definition btokCVCNameIsValid (name : list octet) : bool :=
  (8 <=? Str.strLen name) && (Str.strLen name <=? 12) &&
  Str.strIsPrintable name.

(** ** DER primitives

    bee2/core/der.c is not among the sources.  The primitives below follow the
    wire format the certificate engine relies on: definite lengths in their
    minimal form, tags given by their octets, BIT STRING with an unused-bits
    octet, raw OCTET STRING contents.  A decoder returns the number of octets
    it consumed, [None] standing for the sentinel [SIZE_MAX]. *)

Module Der.

Fixpoint starts_with (prefix der : list octet) : bool :=
  match prefix, der with
  | [], _ => true
  | p :: prefix', d :: der' => octet_eqb p d && starts_with prefix' der'
  | _ :: _, [] => false
  end.

(** Big-endian base-256 digits of a [size_t] (8 octets at most), without
    leading zeros. *)
Fixpoint be_octets_aux (fuel n : nat) (acc : list octet) : list octet :=
  match fuel with
  | O => acc
  | S f =>
      if n =? 0 then acc
      else be_octets_aux f (n / 256) (octet_of_nat n :: acc)
  end.
Definition be_octets (n : nat) : list octet := be_octets_aux 8 n [].

Fixpoint be_value (ds : list octet) (acc : nat) : nat :=
  match ds with
  | [] => acc
  | d :: ds' => be_value ds' (256 * acc + oct d)
  end.

(** Modelled from the spec: a tag is a 32-bit word holding the octets of the
    identifier, most significant first ([0x7F4E] is [7F 4E], [0x42] is
    [42]). *)
Fixpoint tag_octets (fuel : nat) (tag : N) (acc : list octet) : list octet :=
  match fuel with
  | O => acc
  | S f =>
      if (tag =? 0)%N then acc
      else tag_octets f (tag / 256)%N
             (octet_of_nat (N.to_nat (tag mod 256)%N) :: acc)
  end.
Definition derTEnc (tag : N) : list octet := tag_octets 4 tag [].

(** Bit 6 of the first identifier octet marks a constructed type. *)
Definition derTIsConstructed (tag : N) : bool :=
  match derTEnc tag with
  | b :: _ => 32 <=? oct b mod 64
  | [] => false
  end.
Definition derTIsValid (tag : N) : bool :=
  match derTEnc tag with
  | [] => false
  | [b] => negb (oct b mod 32 =? 31)
  | b :: rest =>
      (oct b mod 32 =? 31) &&
      forallb (fun c => 128 <=? oct c) (removelast rest) &&
      (oct (last rest x00) <? 128)
  end.

Definition derTDec2 (der : list octet) (tag : N) : option nat :=
  if derTIsValid tag && starts_with (derTEnc tag) der
  then Some (length (derTEnc tag)) else None.

(** Modelled from the spec: "optional blocks are recognized by peeking the
    next tag". *)
Definition derStartsWith (der : list octet) (tag : N) : bool :=
  match derTDec2 der tag with Some _ => true | None => false end.

(** Modelled from the spec: "all lengths are definite", "minimal length
    encoding". *)
Definition derLEnc (len : nat) : list octet :=
  if len <? 128 then [octet_of_nat len]
  else let ds := be_octets len in octet_of_nat (128 + length ds) :: ds.

Definition derLDec (der : list octet) : option (nat * nat) :=
  match der with
  | [] => None
  | b :: rest =>
      if oct b <? 128 then Some (oct b, 1)
      else
        let k := oct b - 128 in
        if (k =? 0) || (8 <? k) || (length rest <? k) then None
        else
          let ds := firstn k rest in
          let len := be_value ds 0 in
          if (oct (hd x00 ds) =? 0) || (len <? 128) then None
          else Some (len, 1 + k)
  end.

(** [derEnc]: tag, length, value. *)
Definition derEnc (tag : N) (val : list octet) : list octet :=
  derTEnc tag ++ derLEnc (length val) ++ val.

(** [derDec2]: a value under the expected tag; truncated input is refused.
    Returns the value and the octets consumed. *)
Definition derDec2 (der : list octet) (tag : N) : option (list octet * nat) :=
  match derTDec2 der tag with
  | None => None
  | Some t =>
      match derLDec (skipn t der) with
      | None => None
      | Some (len, l) =>
          if length der - t - l <? len then None
          else Some (firstn len (skipn (t + l) der), t + l + len)
      end
  end.

(** [derDec3]: a value under the expected tag and of the expected length. *)
Definition derDec3 (der : list octet) (tag : N) (len : nat)
  : option (list octet * nat) :=
  match derDec2 der tag with
  | Some (val, t) => if length val =? len then Some (val, t) else None
  | None => None
  end.

(** *** SIZE: a small non-negative integer under a tag *)

Definition size_content (val : nat) : list octet :=
  match be_octets val with
  | [] => [x00]
  | d :: ds => if 128 <=? oct d then x00 :: d :: ds else d :: ds
  end.

Definition derTSIZEEnc (tag : N) (val : nat) : option (list octet) :=
  if derTIsValid tag && negb (derTIsConstructed tag)
  then Some (derEnc tag (size_content val)) else None.

Definition derTSIZEDec (der : list octet) (tag : N) : option (nat * nat) :=
  match derDec2 der tag with
  | Some (d :: ds, t) =>
      if (128 <=? oct d) ||
         ((oct d =? 0) && match ds with
                          | [] => false
                          | e :: _ => oct e <? 128
                          end) ||
         (9 <? length (d :: ds))
      then None
      else Some (be_value (d :: ds) 0, t)
  | _ => None
  end.

(** [derTSIZEDec2]: decode and compare with the expected value. *)
Definition derTSIZEDec2 (der : list octet) (tag : N) (val : nat) : option nat :=
  match derTSIZEDec der tag with
  | Some (v, t) => if v =? val then Some t else None
  | None => None
  end.

(** *** PrintableString under a tag *)

Definition derTPSTREnc (tag : N) (val : list octet) : option (list octet) :=
  if derTIsValid tag && negb (derTIsConstructed tag) && Str.strIsPrintable val
  then Some (derEnc tag val) else None.

(** Returns the string, its length and the octets consumed. *)
Definition derTPSTRDec (der : list octet) (tag : N)
  : option (list octet * nat * nat) :=
  match derDec2 der tag with
  | Some (val, t) =>
      if Str.strIsPrintable val then Some (val, length val, t) else None
  | None => None
  end.

(** *** OCTET STRING, plain and under a tag *)

Definition derTOCTEnc (tag : N) (val : list octet) (len : nat)
  : option (list octet) :=
  if derTIsValid tag && negb (derTIsConstructed tag)
  then Some (derEnc tag (firstn len val)) else None.
Definition derOCTEnc (val : list octet) (len : nat) : option (list octet) :=
  derTOCTEnc 0x04 val len.

Definition derTOCTDec2 (der : list octet) (tag : N) (len : nat)
  : option (list octet * nat) := derDec3 der tag len.
Definition derOCTDec2 (der : list octet) (len : nat)
  : option (list octet * nat) := derTOCTDec2 der 0x04 len.

(** *** BIT STRING: [len] is a number of bits *)

Definition derBITEnc (val : list octet) (len : nat) : option (list octet) :=
  Some (derEnc 0x03
          (octet_of_nat ((8 - len mod 8) mod 8) :: firstn ((len + 7) / 8) val)).

(** Returns the octets, the length in bits and the octets consumed. *)
Definition derBITDec (der : list octet) : option (list octet * nat * nat) :=
  match derDec2 der 0x03 with
  | Some (u :: val, t) =>
      if (7 <? oct u) || ((length val =? 0) && negb (oct u =? 0)) then None
      else Some (val, 8 * length val - oct u, t)
  | _ => None
  end.

(** *** OBJECT IDENTIFIER, given in dotted decimal notation *)

Definition digit_of (c : Ascii.ascii) : option nat :=
  let n := Ascii.nat_of_ascii c in
  if (48 <=? n) && (n <=? 57) then Some (n - 48) else None.

(** The arcs of a dotted string; [cur] is the arc being read, if any. *)
Fixpoint oid_arcs (s : String.string) (cur : option nat) : option (list nat) :=
  match s with
  | String.EmptyString =>
      match cur with Some a => Some [a] | None => None end
  | String.String c s' =>
      if Ascii.nat_of_ascii c =? 46 then
        match cur, oid_arcs s' None with
        | Some a, Some rest => Some (a :: rest)
        | _, _ => None
        end
      else
        match digit_of c with
        | Some d =>
            oid_arcs s' (Some (10 * match cur with Some a => a | None => 0 end + d))
        | None => None
        end
  end.

(** Base-128 digits of an arc, all but the last with the top bit set. *)
Fixpoint arc_octets (fuel n : nat) (acc : list octet) : list octet :=
  match fuel with
  | O => acc
  | S f =>
      if n =? 0 then acc
      else arc_octets f (n / 128) (octet_of_nat (128 + n mod 128) :: acc)
  end.
Definition arc_enc (a : nat) : list octet :=
  arc_octets 9 (a / 128) [octet_of_nat (a mod 128)].

Definition oid_content (oid : String.string) : option (list octet) :=
  match oid_arcs oid None with
  | Some (a :: b :: rest) =>
      if (a <=? 2) && ((a =? 2) || (b <? 40))
      then Some (arc_enc (40 * a + b) ++ flat_map arc_enc rest)
      else None
  | _ => None
  end.

Definition derOIDEnc (oid : String.string) : option (list octet) :=
  match oid_content oid with
  | Some c => Some (derEnc 0x06 c)
  | None => None
  end.

(** [derOIDDec2]: an OBJECT IDENTIFIER that must be the expected one. *)
Definition derOIDDec2 (der : list octet) (oid : String.string) : option nat :=
  match derOIDEnc oid with
  | Some e => if starts_with e der then Some (length e) else None
  | None => None
  end.

(** *** Constructed types: start and stop *)

(** [der_anchor_t]: where the element starts, its tag and (when decoding)
    the length its header announces. *)
Record der_anchor_t : Type := mk_anchor {
  a_pos : nat;
  a_tag : N;
  a_len : nat
}.

(** An encoding step sees the octets written so far ([None] for a null
    buffer) and the running count; it returns the buffer and the number of
    octets it added, or [None] for [SIZE_MAX]. *)
Definition enc_step : Type :=
  option (list octet) -> nat -> option (option (list octet) * nat).

Definition emit (code : option (list octet)) : enc_step :=
  fun buf _ =>
    match code with
    | Some bs => Some (option_map (fun b => b ++ bs) buf, length bs)
    | None => None
    end.

(** [derTSEQEncStart]: the tag and a one-octet length to be fixed up by
    [derTSEQEncStop]. *)
Definition derTSEQEncStart (pos : nat) (tag : N) : der_anchor_t * enc_step :=
  (mk_anchor pos tag 0,
   emit (if derTIsValid tag && derTIsConstructed tag
         then Some (derTEnc tag ++ [x00]) else None)).

(** [derTSEQEncStop]: writes the definite length of what was encoded since
    the anchor, moving the contents when the length needs more than one
    octet; returns the number of octets added. *)
Definition derTSEQEncStop (anchor : der_anchor_t) : enc_step :=
  fun buf pos =>
    let t_count := length (derTEnc (a_tag anchor)) in
    if pos <? a_pos anchor + t_count + 1 then None
    else
      let len := pos - a_pos anchor - t_count - 1 in
      let l := derLEnc len in
      Some (option_map
              (fun b => firstn (a_pos anchor + t_count) b ++ l ++
                        skipn (a_pos anchor + t_count + 1) b) buf,
            length l - 1).

(** The decoding cursor: the offset of the pointer in the input and the
    [count] octets that remain. *)
Record cursor : Type := mk_cursor {
  c_pos : nat;
  c_rest : list octet
}.

Definition derTSEQDecStart (cur : cursor) (tag : N)
  : der_anchor_t * option nat :=
  if derTIsValid tag && derTIsConstructed tag then
    match derTDec2 (c_rest cur) tag with
    | None => (mk_anchor (c_pos cur) tag 0, None)
    | Some t =>
        match derLDec (skipn t (c_rest cur)) with
        | None => (mk_anchor (c_pos cur) tag 0, None)
        | Some (len, l) => (mk_anchor (c_pos cur) tag len, Some (t + l))
        end
    end
  else (mk_anchor (c_pos cur) tag 0, None).

(** [ptr += t, count -= t] *)
Definition advance (cur : cursor) (t : nat) : cursor :=
  mk_cursor (c_pos cur + t) (skipn t (c_rest cur)).

(** [derTSEQDecStop]: the contents must end exactly where the header said. *)
Definition derTSEQDecStop (cur : cursor) (anchor : der_anchor_t) : option nat :=
  if a_pos anchor + length (derTEnc (a_tag anchor)) +
     length (derLEnc (a_len anchor)) + a_len anchor =? c_pos cur
  then Some 0 else None.

End Der.

Import Der.

(** ** Collaborators

    The signature scheme (bign), the hashes (belt, bash), the random number
    generator and the allocator are outside the certificate engine.  They are
    taken as an interface; an output parameter of a C function is a component
    of the result. *)

Class Collab : Type := {
  bign_params : Type;
  sizeof_bign_params : nat;
  sizeof_btok_cvc_t : nat;
  (** [blobCreate n] tells whether [n] octets can be allocated. *)
  blobCreate : nat -> bool;
  bignStdParams : string -> err_t * bign_params;
  bignCalcPubkey : bign_params -> list octet -> err_t * list octet;
  bignValPubkey : bign_params -> list octet -> err_t;
  bignValKeypair : bign_params -> list octet -> list octet -> err_t;
  beltHash : list octet -> err_t * list octet;
  bashHash : nat -> list octet -> err_t * list octet;
  rngIsValid : bool;
  rngStepR : nat -> list octet;
  bignSign2 : bign_params -> list octet -> list octet -> list octet ->
              list octet -> err_t * list octet;
  bignVerify : bign_params -> list octet -> list octet -> list octet ->
               list octet -> err_t
}.

(** What a round trip asks of the collaborators: an allocator that served a
    request serves a smaller one; a derived public key has twice the length
    of the private key and is valid; a signature has one and a half times
    the length of the private key and verifies under the derived key. *)
Class CollabLaws (collab : Collab) : Prop := {
  alloc_mono : forall n m, blobCreate n = true -> m <= n -> blobCreate m = true;
  calc_len : forall params priv pub,
    bignCalcPubkey params priv = (ERR_OK, pub) -> length pub = 2 * length priv;
  calc_valid : forall params priv pub,
    bignCalcPubkey params priv = (ERR_OK, pub) ->
    bignValPubkey params pub = ERR_OK;
  sign_len : forall params oid_der hash priv t s,
    bignSign2 params oid_der hash priv t = (ERR_OK, s) ->
    length s = length priv + length priv / 2;
  sign_verify : forall params oid_der hash priv t s pub,
    bignSign2 params oid_der hash priv t = (ERR_OK, s) ->
    bignCalcPubkey params priv = (ERR_OK, pub) ->
    bignVerify params oid_der hash s pub = ERR_OK
}.

(** Modelled from the spec: [bignOidToDER] of bee2/crypto/bign.h, "DER-encode
    the hash-OID (expected length 11 octets)". *)
Definition bignOidToDER (oid : string) : err_t * list octet :=
  match derOIDEnc oid with
  | Some der => (ERR_OK, der)
  | None => (ERR_BAD_PARAMS, [])
  end.

(** What the engine hands to the signer, in order. *)
Inductive event : Type :=
| EvSign (body privkey : list octet).

Section Btok.

Context {collab : Collab}.

Definition oid_bign_pubkey : string := "1.2.112.0.2.0.34.101.45.2.1".
Definition oid_eid_access : string := "1.2.112.0.2.0.34.101.79.6.1".
Definition oid_esign_access : string := "1.2.112.0.2.0.34.101.79.6.2".

(** *** Basic cryptography *)

(** [btokPubkeyCalc]: the second component is what [bignCalcPubkey] writes
    to [pubkey], if it is reached. *)
Definition btokPubkeyCalc (privkey : list octet)
  : err_t * option (list octet) :=
  let privkey_len := length privkey in
  if negb (privkey_len =? 32) && negb (privkey_len =? 48) &&
     negb (privkey_len =? 64)
  then (ERR_BAD_INPUT, None)
  else
    let (code, params) :=
      bignStdParams
        (if privkey_len =? 32 then "1.2.112.0.2.0.34.101.45.3.1"
         else if privkey_len =? 48 then "1.2.112.0.2.0.34.101.45.3.2"
         else "1.2.112.0.2.0.34.101.45.3.3") in
    if negb (is_ok code) then (code, None)
    else
      let (code, pub) := bignCalcPubkey params privkey in
      (code, Some pub).

(** [btokPubkeyVal]: the level is selected by [pubkey_len], and
    [bignValPubkey] reads the [pubkey_len] octets of a key of that level. *)
Definition btokPubkeyVal (pubkey : list octet) (pubkey_len : nat) : err_t :=
  if negb (pubkey_len =? 64) && negb (pubkey_len =? 96) &&
     negb (pubkey_len =? 128)
  then ERR_BAD_INPUT
  else
    let (code, params) :=
      bignStdParams
        (if pubkey_len =? 64 then "1.2.112.0.2.0.34.101.45.3.1"
         else if pubkey_len =? 96 then "1.2.112.0.2.0.34.101.45.3.2"
         else "1.2.112.0.2.0.34.101.45.3.3") in
    if negb (is_ok code) then code
    else bignValPubkey params (firstn pubkey_len pubkey).

(** [btokKeypairVal] *)
Definition btokKeypairVal (privkey : list octet) (pubkey : list octet)
           (pubkey_len : nat) : err_t :=
  let privkey_len := length privkey in
  if negb (privkey_len =? 32) && negb (privkey_len =? 48) &&
     negb (privkey_len =? 64)
  then ERR_BAD_INPUT
  else if negb (pubkey_len =? 2 * privkey_len) then ERR_BAD_KEYPAIR
  else
    let (code, params) :=
      bignStdParams
        (if privkey_len =? 32 then "1.2.112.0.2.0.34.101.45.3.1"
         else if privkey_len =? 48 then "1.2.112.0.2.0.34.101.45.3.2"
         else "1.2.112.0.2.0.34.101.45.3.3") in
    if negb (is_ok code) then code
    else bignValKeypair params privkey (firstn pubkey_len pubkey).

(** One branch of "load the parameters and hash" in [btokSign] and
    [btokVerify]: [bignStdParams], the hash, [bignOidToDER], each followed
    by [ERR_CALL_HANDLE], then [ASSERT(oid_len == 11)].  On success it
    yields the parameters, the encoded identifier and the hash. *)
Definition load_and_hash (curve : string) (hashed : err_t * list octet)
           (hash_id : string)
  : outcome (err_t * option (bign_params * list octet * list octet)) :=
  let (code, params) := bignStdParams curve in
  if negb (is_ok code) then Ret (code, None)
  else
    let (code, hash) := hashed in
    if negb (is_ok code) then Ret (code, None)
    else
      let (code, oid_der) := bignOidToDER hash_id in
      if negb (is_ok code) then Ret (code, None)
      else
        ASSERT (length oid_der =? 11) ;;;
        Ret (ERR_OK, Some (params, oid_der, hash)).

(** [btokSign]: the second component is what is written to [sig], if
    [bignSign2] is reached. *)
Definition btokSign (buf privkey : list octet)
  : outcome (err_t * option (list octet)) :=
  let privkey_len := length privkey in
  ASSERT ((privkey_len =? 32) || (privkey_len =? 48) || (privkey_len =? 64)) ;;;
  if negb (blobCreate (sizeof_bign_params + 16 + 2 * privkey_len))
  then Ret (ERR_OUTOFMEMORY, None)
  else
    r <- (if privkey_len =? 32 then
            load_and_hash "1.2.112.0.2.0.34.101.45.3.1" (beltHash buf)
                          "1.2.112.0.2.0.34.101.31.81"
          else if privkey_len =? 48 then
            load_and_hash "1.2.112.0.2.0.34.101.45.3.2" (bashHash 192 buf)
                          "1.2.112.0.2.0.34.101.77.12"
          else
            load_and_hash "1.2.112.0.2.0.34.101.45.3.3" (bashHash 256 buf)
                          "1.2.112.0.2.0.34.101.77.13") ;;
    match r with
    | (_, Some (params, oid_der, hash)) =>
        let t := if rngIsValid then rngStepR privkey_len else [] in
        let (code, s) := bignSign2 params oid_der hash privkey t in
        Ret (code, Some s)
    | (code, None) => Ret (code, None)
    end.

(** [btokVerify]: [bignVerify] reads the signature of the level selected by
    [pubkey_len], that is [pubkey_len - pubkey_len / 4] octets. *)
Definition btokVerify (buf sig pubkey : list octet) (pubkey_len : nat)
  : outcome err_t :=
  ASSERT ((pubkey_len =? 64) || (pubkey_len =? 96) || (pubkey_len =? 128)) ;;;
  if negb (blobCreate (sizeof_bign_params + 16 + pubkey_len / 2))
  then Ret ERR_OUTOFMEMORY
  else
    r <- (if pubkey_len =? 64 then
            load_and_hash "1.2.112.0.2.0.34.101.45.3.1" (beltHash buf)
                          "1.2.112.0.2.0.34.101.31.81"
          else if pubkey_len =? 96 then
            load_and_hash "1.2.112.0.2.0.34.101.45.3.2" (bashHash 192 buf)
                          "1.2.112.0.2.0.34.101.77.12"
          else
            load_and_hash "1.2.112.0.2.0.34.101.45.3.3" (bashHash 256 buf)
                          "1.2.112.0.2.0.34.101.77.13") ;;
    match r with
    | (_, Some (params, oid_der, hash)) =>
        let code := bignValPubkey params (firstn pubkey_len pubkey) in
        if negb (is_ok code) then Ret code
        else Ret (bignVerify params oid_der hash
                    (firstn (pubkey_len - pubkey_len / 4) sig)
                    (firstn pubkey_len pubkey))
    | (code, None) => Ret code
    end.

(** *** Contents of a certificate *)

(** [btokCVCInfoSeemsValid] *)
Definition btokCVCInfoSeemsValid (cvc : btok_cvc_t) : outcome bool :=
  Ret (btokCVCNameIsValid (authority cvc)) &&&
  Ret (btokCVCNameIsValid (holder cvc)) &&&
  Ret (btokCVCDateIsValid (from cvc)) &&&
  Ret (btokCVCDateIsValid (until cvc)) &&&
  btokCVCDateLeq (from cvc) (until cvc) &&&
  Ret ((pubkey_len cvc =? 64) || (pubkey_len cvc =? 96) ||
       (pubkey_len cvc =? 128)).

(** [btokCVCCheck] *)
Definition btokCVCCheck (cvc : btok_cvc_t) : outcome err_t :=
  if negb (btokCVCNameIsValid (authority cvc)) ||
     negb (btokCVCNameIsValid (holder cvc))
  then Ret ERR_BAD_NAME
  else
    bad <- (Ret (negb (btokCVCDateIsValid (from cvc))) |||
            Ret (negb (btokCVCDateIsValid (until cvc))) |||
            (leq <- btokCVCDateLeq (from cvc) (until cvc) ;; Ret (negb leq))) ;;
    if bad then Ret ERR_BAD_DATE
    else Ret (btokPubkeyVal (pubkey cvc) (pubkey_len cvc)).

(** [btokCVCCheck2] *)
Definition btokCVCCheck2 (cvc cvca : btok_cvc_t) : outcome err_t :=
  code <- btokCVCCheck cvc ;;
  if negb (is_ok code) then Ret code
  else if negb (Str.strEq (authority cvc) (holder cvca)) then Ret ERR_BAD_NAME
  else
    bad <- (Ret (negb (btokCVCDateIsValid (from cvca))) |||
            Ret (negb (btokCVCDateIsValid (until cvca))) |||
            (leq <- btokCVCDateLeq (from cvca) (from cvc) ;; Ret (negb leq)) |||
            (leq <- btokCVCDateLeq (from cvc) (until cvca) ;; Ret (negb leq))) ;;
    if bad then Ret ERR_BAD_DATE else Ret ERR_OK.

(** *** The body of a certificate *)

Record enc_state : Type := mk_enc {
  e_buf : option (list octet);
  e_count : nat
}.

(** The macro [derEncStep]: [t = step; ASSERT(t != SIZE_MAX);
    ptr = ptr ? ptr + t : 0; count += t]. *)
Definition derEncStep (step : enc_step) (st : enc_state) : outcome enc_state :=
  match step (e_buf st) (e_count st) with
  | None => AssertFailed
  | Some (buf, t) => Ret (mk_enc buf (e_count st + t))
  end.

(** The block "CertHAT" of [btokCVCBodyEnc], taken only when [hat_eid] is
    not all-zero. *)
Definition BodyEnc_CertHAT (cvc : btok_cvc_t) (st : enc_state)
  : outcome enc_state :=
  if negb (Mem.memIsZero (hat_eid cvc) 5) then
    let (CertHAT, start) := derTSEQEncStart (e_count st) 0x7F4C in
    st <- derEncStep start st ;;
    st <- derEncStep (emit (derOIDEnc oid_eid_access)) st ;;
    st <- derEncStep (emit (derOCTEnc (hat_eid cvc) 5)) st ;;
    derEncStep (derTSEQEncStop CertHAT) st
  else Ret st.

(** The block "CVExt" of [btokCVCBodyEnc], taken only when [hat_esign] is
    not all-zero. *)
Definition BodyEnc_CVExt (cvc : btok_cvc_t) (st : enc_state)
  : outcome enc_state :=
  if negb (Mem.memIsZero (hat_esign cvc) 2) then
    let (CVExt, start) := derTSEQEncStart (e_count st) 0x65 in
    st <- derEncStep start st ;;
    let (DDT, start) := derTSEQEncStart (e_count st) 0x73 in
    st <- derEncStep start st ;;
    st <- derEncStep (emit (derOIDEnc oid_esign_access)) st ;;
    st <- derEncStep (emit (derOCTEnc (hat_esign cvc) 2)) st ;;
    st <- derEncStep (derTSEQEncStop DDT) st ;;
    derEncStep (derTSEQEncStop CVExt) st
  else Ret st.

(** [btokCVCBodyEnc]: [body] tells whether a buffer is given; the result
    is what was written to it and the length of the code. *)
Definition btokCVCBodyEnc (body : bool) (cvc : btok_cvc_t)
  : outcome (option (list octet) * nat) :=
  let st := mk_enc (if body then Some [] else None) 0 in
  valid <- btokCVCInfoSeemsValid cvc ;;
  ASSERT valid ;;;
  let (CertBody, start) := derTSEQEncStart (e_count st) 0x7F4E in
  st <- derEncStep start st ;;
  st <- derEncStep (emit (derTSIZEEnc 0x5F29 0)) st ;;
  (* authority *)
  st <- derEncStep (emit (derTPSTREnc 0x42 (authority cvc))) st ;;
  (* PubKey *)
  let (PubKey, start) := derTSEQEncStart (e_count st) 0x7F49 in
  st <- derEncStep start st ;;
  st <- derEncStep (emit (derOIDEnc oid_bign_pubkey)) st ;;
  st <- derEncStep (emit (derBITEnc (pubkey cvc) (8 * pubkey_len cvc))) st ;;
  st <- derEncStep (derTSEQEncStop PubKey) st ;;
  (* holder *)
  st <- derEncStep (emit (derTPSTREnc 0x5F20 (holder cvc))) st ;;
  (* CertHAT *)
  st <- BodyEnc_CertHAT cvc st ;;
  (* from / until *)
  st <- derEncStep (emit (derTOCTEnc 0x5F25 (from cvc) 6)) st ;;
  st <- derEncStep (emit (derTOCTEnc 0x5F24 (until cvc) 6)) st ;;
  (* CVExt *)
  st <- BodyEnc_CVExt cvc st ;;
  st <- derEncStep (derTSEQEncStop CertBody) st ;;
  Ret (e_buf st, e_count st).

(** Decoding writes to the target record as it goes and may stop with
    [SIZE_MAX] ([None]), leaving the record as it is then. *)
Definition dec (A : Type) : Type := btok_cvc_t -> btok_cvc_t * option A.

Definition dret {A : Type} (a : A) : dec A := fun cvc => (cvc, Some a).
Definition dbind {A B : Type} (c : dec A) (k : A -> dec B) : dec B :=
  fun cvc =>
    match c cvc with
    | (cvc', Some a) => k a cvc'
    | (cvc', None) => (cvc', None)
    end.
Definition dlift {A : Type} (o : option A) : dec A := fun cvc => (cvc, o).
Definition dguard (b : bool) : dec unit :=
  fun cvc => (cvc, if b then Some tt else None).
Definition dmodify (f : btok_cvc_t -> btok_cvc_t) : dec unit :=
  fun cvc => (f cvc, Some tt).

(** The macro [derDecStep]: [t = step; if (t == SIZE_MAX) return SIZE_MAX;
    ptr += t, count -= t]. *)
Definition derDecStep (step : option nat) (cur : cursor) : dec cursor :=
  dlift (option_map (advance cur) step).

Notation "x <-- c ;; k" := (dbind c (fun x => k))
  (at level 61, c at next level, right associativity).
Notation "c ;;- k" := (dbind c (fun _ => k))
  (at level 61, right associativity).

(** The block "CertHAT" of [btokCVCBodyDec], taken only when the next tag
    is [0x7F4C]. *)
Definition BodyDec_CertHAT (cur : cursor) : dec cursor :=
  if derStartsWith (c_rest cur) 0x7F4C then
    let (CertHAT, t) := derTSEQDecStart cur 0x7F4C in
    cur <-- derDecStep t cur ;;
    cur <-- derDecStep (derOIDDec2 (c_rest cur) oid_eid_access) cur ;;
    r <-- dlift (derOCTDec2 (c_rest cur) 5) ;;
    dmodify (fun cvc => set_hat_eid cvc (Mem.memWrite (hat_eid cvc) (fst r))) ;;-
    cur <-- derDecStep (Some (snd r)) cur ;;
    derDecStep (derTSEQDecStop cur CertHAT) cur
  else dret cur.

(** The block "CVExt" of [btokCVCBodyDec], taken only when the next tag is
    [0x65]. *)
Definition BodyDec_CVExt (cur : cursor) : dec cursor :=
  if derStartsWith (c_rest cur) 0x65 then
    let (CVExt, t) := derTSEQDecStart cur 0x65 in
    cur <-- derDecStep t cur ;;
    let (DDT, t) := derTSEQDecStart cur 0x73 in
    cur <-- derDecStep t cur ;;
    cur <-- derDecStep (derOIDDec2 (c_rest cur) oid_esign_access) cur ;;
    r <-- dlift (derOCTDec2 (c_rest cur) 2) ;;
    dmodify (fun cvc => set_hat_esign cvc (Mem.memWrite (hat_esign cvc) (fst r))) ;;-
    cur <-- derDecStep (Some (snd r)) cur ;;
    cur <-- derDecStep (derTSEQDecStop cur DDT) cur ;;
    derDecStep (derTSEQDecStop cur CVExt) cur
  else dret cur.

(** The head of [btokCVCBodyDec]: the opening of the body, the version,
    the authority, the public key and the holder. *)
Definition BodyDec_head (cur : cursor) : dec (der_anchor_t * cursor) :=
  let (CertBody, t) := derTSEQDecStart cur 0x7F4E in
  cur <-- derDecStep t cur ;;
  cur <-- derDecStep (derTSIZEDec2 (c_rest cur) 0x5F29 0) cur ;;
  (* authority *)
  r <-- dlift (derTPSTRDec (c_rest cur) 0x42) ;;
  dguard (negb ((snd (fst r) <? 8) || (12 <? snd (fst r)))) ;;-
  r <-- dlift (derTPSTRDec (c_rest cur) 0x42) ;;
  dmodify (fun cvc => set_authority cvc (fst (fst r))) ;;-
  cur <-- derDecStep (Some (snd r)) cur ;;
  (* PubKey *)
  let (PubKey, t) := derTSEQDecStart cur 0x7F49 in
  cur <-- derDecStep t cur ;;
  cur <-- derDecStep (derOIDDec2 (c_rest cur) oid_bign_pubkey) cur ;;
  r <-- dlift (derBITDec (c_rest cur)) ;;
  dguard (negb (negb (snd (fst r) =? 512) && negb (snd (fst r) =? 768) &&
                negb (snd (fst r) =? 1024))) ;;-
  dmodify (fun cvc => set_pubkey_len cvc (snd (fst r) / 8)) ;;-
  r <-- dlift (derBITDec (c_rest cur)) ;;
  dmodify (fun cvc => set_pubkey cvc (Mem.memWrite (pubkey cvc) (fst (fst r)))) ;;-
  cur <-- derDecStep (Some (snd r)) cur ;;
  cur <-- derDecStep (derTSEQDecStop cur PubKey) cur ;;
  (* holder *)
  r <-- dlift (derTPSTRDec (c_rest cur) 0x5F20) ;;
  dguard (negb ((snd (fst r) <? 8) || (12 <? snd (fst r)))) ;;-
  r <-- dlift (derTPSTRDec (c_rest cur) 0x5F20) ;;
  dmodify (fun cvc => set_holder cvc (fst (fst r))) ;;-
  cur <-- derDecStep (Some (snd r)) cur ;;
  dret (CertBody, cur).

(** [btokCVCBodyDec]: the octets consumed, measured from the start of
    [body]. *)
Definition btokCVCBodyDec (body : list octet) : dec nat :=
  let cur := mk_cursor 0 body in
  dmodify (fun _ => cvc_zero) ;;-
  h <-- BodyDec_head cur ;;
  let (CertBody, cur) := h in
  (* CertHAT *)
  cur <-- BodyDec_CertHAT cur ;;
  (* from / until *)
  r <-- dlift (derTOCTDec2 (c_rest cur) 0x5F25 6) ;;
  dmodify (fun cvc => set_from cvc (Mem.memWrite (from cvc) (fst r))) ;;-
  cur <-- derDecStep (Some (snd r)) cur ;;
  r <-- dlift (derTOCTDec2 (c_rest cur) 0x5F24 6) ;;
  dmodify (fun cvc => set_until cvc (Mem.memWrite (until cvc) (fst r))) ;;-
  cur <-- derDecStep (Some (snd r)) cur ;;
  (* CVExt *)
  cur <-- BodyDec_CVExt cur ;;
  cur <-- derDecStep (derTSEQDecStop cur CertBody) cur ;;
  dret (c_pos cur).

(** *** Wrapping and unwrapping a certificate *)

(** What [btokCVCWrap] leaves behind: the returned code, the octets written
    to [cert] ([None] for a null buffer), the value stored in [*cert_len]
    if any, the record, and the calls to the signer. *)
Record wrap_result : Type := mk_wrap {
  w_code : err_t;
  w_cert : option (list octet);
  w_cert_len : option nat;
  w_cvc : btok_cvc_t;
  w_trace : list event
}.

(** The block "build the public key" of [btokCVCWrap]: when [pubkey_len]
    is 0 the key is derived from [privkey], [pubkey_len] is set and the
    unused tail of [pubkey] is zeroed. *)
Definition Wrap_build_pubkey (cvc : btok_cvc_t) (privkey : list octet)
  : err_t * btok_cvc_t :=
  let privkey_len := length privkey in
  if pubkey_len cvc =? 0 then
    let (code, written) := btokPubkeyCalc privkey in
    let cvc :=
      match written with
      | Some pub => set_pubkey cvc (Mem.memWrite (pubkey cvc) pub)
      | None => cvc
      end in
    if negb (is_ok code) then (code, cvc)
    else
      let cvc := set_pubkey_len cvc (2 * privkey_len) in
      (ERR_OK,
       set_pubkey cvc
         (Mem.memSetZeroFrom (pubkey cvc) (pubkey_len cvc) sizeof_pubkey))
  else (ERR_OK, cvc).

(** The block "encode and sign the body" of [btokCVCWrap]: the signer runs
    only when a buffer is given; the result is the code of [btokSign] (or
    [ERR_OK]), the record with the signature written, and the trace. *)
Definition Wrap_sign (body : option (list octet)) (cvc : btok_cvc_t)
           (privkey : list octet)
  : outcome (err_t * btok_cvc_t * list event) :=
  match body with
  | Some b =>
      r <- btokSign b privkey ;;
      let (code, written) := r in
      Ret (code,
           match written with
           | Some s => set_sig cvc (Mem.memWrite (sig cvc) s)
           | None => cvc
           end,
           [EvSign b privkey])
  | None => Ret (ERR_OK, cvc, [])
  end.

(** [btokCVCWrap]: [cert] and [cert_len] tell whether the pointers are
    non-null; [privkey_len] is the length of [privkey]. *)
Definition btokCVCWrap (cert cert_len : bool) (cvc : btok_cvc_t)
           (privkey : list octet) : outcome wrap_result :=
  let privkey_len := length privkey in
  let st := mk_enc (if cert then Some [] else None) 0 in
  if negb (privkey_len =? 32) && negb (privkey_len =? 48) &&
     negb (privkey_len =? 64)
  then Ret (mk_wrap ERR_BAD_INPUT (e_buf st) None cvc [])
  else
    (* build the public key *)
    let (code, cvc) := Wrap_build_pubkey cvc privkey in
    if negb (is_ok code) then Ret (mk_wrap code (e_buf st) None cvc [])
    else
      (* check the contents *)
      code <- btokCVCCheck cvc ;;
      if negb (is_ok code) then Ret (mk_wrap code (e_buf st) None cvc [])
      else
        (* start encoding *)
        let (CVCert, start) := derTSEQEncStart (e_count st) 0x7F21 in
        st <- derEncStep start st ;;
        (* encode and sign the body *)
        r <- btokCVCBodyEnc cert cvc ;;
        let (body, t) := r in
        r <- Wrap_sign body cvc privkey ;;
        let '(code, cvc, trace) := r in
        let st := mk_enc (match e_buf st, body with
                          | Some w, Some b => Some (w ++ b)
                          | _, _ => None
                          end) (e_count st) in
        if negb (is_ok code) then Ret (mk_wrap code (e_buf st) None cvc trace)
        else
          let st := mk_enc (e_buf st) (e_count st + t) in
          let cvc := set_sig_len cvc (privkey_len + privkey_len / 2) in
          (* encode the signature *)
          st <- derEncStep (emit (derTOCTEnc 0x5F37 (sig cvc) (sig_len cvc))) st ;;
          (* stop encoding *)
          st <- derEncStep (derTSEQEncStop CVCert) st ;;
          Ret (mk_wrap ERR_OK (e_buf st)
                       (if cert_len then Some (e_count st) else None)
                       cvc trace).

Definition is_SIZE_MAX {A : Type} (t : option A) : bool :=
  match t with None => true | Some _ => false end.

(** The signature length by trial, as [btokCVCUnwrap] finds it when no key
    is given: the operands of [&&] run in order, each first storing its
    candidate in [sig_len]; the result tells whether all three failed and
    what [sig_len] holds then. *)
Definition sig_len_by_trial (cert : list octet) : bool * nat :=
  if negb (is_SIZE_MAX (derDec3 cert 0x5F37 48)) then (false, 48)
  else if negb (is_SIZE_MAX (derDec3 cert 0x5F37 72)) then (false, 72)
  else (is_SIZE_MAX (derDec3 cert 0x5F37 96), 96).

(** [btokCVCUnwrap]: [cvc] is the target record as it is on entry;
    [pubkey_len] is the length of [pubkey], empty for a null key. *)
Definition btokCVCUnwrap (cvc : btok_cvc_t) (cert pubkey : list octet)
  : outcome (err_t * btok_cvc_t) :=
  let pubkey_len := length pubkey in
  if negb (pubkey_len =? 0) && negb (pubkey_len =? 64) &&
     negb (pubkey_len =? 96) && negb (pubkey_len =? 128)
  then Ret (ERR_BAD_INPUT, cvc)
  else
    (* prepare cvc *)
    let cvc := cvc_zero in
    (* start decoding *)
    let cur := mk_cursor 0 cert in
    match derTSEQDecStart cur 0x7F21 with
    | (_, None) => Ret (ERR_BAD_FORMAT, cvc)
    | (CVCert, Some t) =>
        let cur := advance cur t in
        (* decode the body *)
        match btokCVCBodyDec (c_rest cur) cvc with
        | (cvc, None) => Ret (ERR_BAD_FORMAT, cvc)
        | (cvc, Some t) =>
            let body := firstn t (c_rest cur) in
            let cur := advance cur t in
            (* find the length of the signature *)
            let (bad, cvc) :=
              if pubkey_len =? 0 then
                let (bad, sig_len) := sig_len_by_trial (c_rest cur) in
                if bad then (true, cvc) else (false, set_sig_len cvc sig_len)
              else (false, set_sig_len cvc (pubkey_len - pubkey_len / 4)) in
            if bad then Ret (ERR_BAD_FORMAT, cvc)
            else
              (* decode the signature *)
              match derTOCTDec2 (c_rest cur) 0x5F37 (sig_len cvc) with
              | None => Ret (ERR_BAD_FORMAT, cvc)
              | Some (s, t) =>
                  let cvc := set_sig cvc (Mem.memWrite (sig cvc) s) in
                  let cur := advance cur t in
                  (* verify the signature *)
                  code <- (if negb (pubkey_len =? 0)
                           then btokVerify body (sig cvc) pubkey pubkey_len
                           else Ret ERR_OK) ;;
                  if negb (is_ok code) then Ret (code, cvc)
                  else
                    (* stop decoding *)
                    match derTSEQDecStop cur CVCert with
                    | None => Ret (ERR_BAD_FORMAT, cvc)
                    | Some _ =>
                        (* the final check of cvc *)
                        code <- btokCVCCheck cvc ;;
                        Ret (code, cvc)
                    end
              end
        end
    end.

(** *** Issuing a certificate *)

(** [btokCVCIss] *)
Definition btokCVCIss (cert cert_len : bool) (cvc : btok_cvc_t)
           (certa privkeya : list octet) : outcome wrap_result :=
  let untouched code :=
    mk_wrap code (if cert then Some [] else None) None cvc [] in
  (* parse the certificate of the issuer *)
  if negb (blobCreate sizeof_btok_cvc_t) then Ret (untouched ERR_OUTOFMEMORY)
  else
    r <- btokCVCUnwrap cvc_zero certa [] ;;
    let (code, cvca) := r in
    if negb (is_ok code) then Ret (untouched code)
    else
      (* check the keys of the issuer *)
      let code := btokKeypairVal privkeya (pubkey cvca) (pubkey_len cvca) in
      if negb (is_ok code) then Ret (untouched code)
      else
        (* check the contents of the certificate to issue *)
        code <- btokCVCCheck2 cvc cvca ;;
        if negb (is_ok code) then Ret (untouched code)
        else
          (* create the certificate *)
          btokCVCWrap cert cert_len cvc privkeya.

End Btok.

(** ** A toy instance of the collaborators, for concrete runs *)

Module Toy.

Definition xor_fold (l : list octet) : nat :=
  fold_left (fun a b => (a + oct b) mod 251) l 0.

(** The first [n] octets of [l], padded with zeros. *)
Definition take_pad (n : nat) (l : list octet) : list octet :=
  firstn n (l ++ repeat x00 n).

(** The public key repeats the private key; the signature is the hash
    followed by the first half of the private key. *)
#[export] Instance collab : Collab := {|
  bign_params := nat;
  sizeof_bign_params := 64;
  sizeof_btok_cvc_t := 288;
  blobCreate := fun _ => true;
  bignStdParams := fun oid => (ERR_OK, String.length oid);
  bignCalcPubkey := fun _ priv => (ERR_OK, priv ++ priv);
  bignValPubkey := fun _ pub =>
    if octets_eqb (firstn (length pub / 2) pub) (skipn (length pub / 2) pub)
    then ERR_OK else ERR_BAD_PUBKEY;
  bignValKeypair := fun _ priv pub =>
    if octets_eqb (priv ++ priv) pub then ERR_OK else ERR_BAD_KEYPAIR;
  beltHash := fun buf => (ERR_OK, repeat (octet_of_nat (xor_fold buf)) 32);
  bashHash := fun l buf => (ERR_OK, repeat (octet_of_nat (xor_fold buf)) (l / 4));
  rngIsValid := false;
  rngStepR := fun n => repeat x00 n;
  bignSign2 := fun _ _ hash priv _ =>
    (ERR_OK, take_pad (length priv) hash ++ take_pad (length priv / 2) priv);
  bignVerify := fun _ _ hash sig pub =>
    if octets_eqb sig (take_pad (length pub / 2) hash ++
                       take_pad (length pub / 4) pub)
    then ERR_OK else ERR_BAD_SIG
|}.

Definition name1 : list octet := ["B"; "Y"; "C"; "A"; "0"; "0"; "0"; "0"]%byte.
Definition name2 : list octet := ["B"; "Y"; "C"; "A"; "1"; "0"; "0"; "0"]%byte.
Definition date (y1 y0 m1 m0 d1 d0 : nat) : list octet :=
  map octet_of_nat [y1; y0; m1; m0; d1; d0].
Definition priv32 : list octet := map octet_of_nat (seq 1 32).
Definition priv48 : list octet := map octet_of_nat (seq 1 48).
Definition priv64 : list octet := map octet_of_nat (seq 1 64).

(** A root certificate to be: no public key yet, both HATs given. *)
Definition cvc0 : btok_cvc_t :=
  mk_cvc name1 name1 (repeat x00 128) 0
         (map octet_of_nat [1; 2; 3; 4; 5]) (map octet_of_nat [170; 187])
         (date 2 2 0 7 0 7) (date 2 3 0 7 0 7) (repeat x00 96) 0.

End Toy.


(** ** Properties of the validators *)

Ltac bool_to_prop :=
  repeat rewrite ?andb_true_iff, ?orb_true_iff, ?negb_true_iff,
    ?andb_false_iff, ?orb_false_iff, ?negb_false_iff,
    ?Nat.eqb_eq, ?Nat.eqb_neq, ?Nat.leb_le, ?Nat.leb_gt,
    ?Nat.ltb_lt, ?Nat.ltb_ge in *.

Lemma oct_bounded (b : octet) : oct b <= 255.
Proof. apply Byte.to_nat_bounded. Qed.

Lemma oct_octet_of_nat (n : nat) : oct (octet_of_nat n) = n mod 256.
Proof.
  unfold oct, octet_of_nat.
  destruct (Byte.of_nat (n mod 256)) eqn:E.
  - now apply Byte.to_of_nat.
  - apply Byte.of_nat_None_iff in E.
    pose proof (Nat.mod_upper_bound n 256). lia.
Qed.

Lemma octet_of_nat_oct (b : octet) : octet_of_nat (oct b) = b.
Proof.
  unfold octet_of_nat, oct.
  rewrite Nat.mod_small by (pose proof (Byte.to_nat_bounded b); lia).
  now rewrite Byte.of_to_nat.
Qed.

Lemma oct_inj (a b : octet) : oct a = oct b -> a = b.
Proof.
  intros H. rewrite <- (octet_of_nat_oct a), <- (octet_of_nat_oct b).
  now rewrite H.
Qed.

(** The calendar rule in the words of the specification, on the digits of a
    date [YYMMDD]. *)
Definition date_rule (d0 d1 d2 d3 d4 d5 : nat) : Prop :=
  d0 <= 9 /\ d1 <= 9 /\ d2 <= 9 /\ d3 <= 9 /\ d4 <= 9 /\ d5 <= 9 /\
  let y := 10 * d0 + d1 in
  let m := 10 * d2 + d3 in
  let d := 10 * d4 + d5 in
  19 <= y /\ 1 <= m <= 12 /\ 1 <= d <= 31 /\
  ~ (d = 31 /\ (m = 4 \/ m = 6 \/ m = 9 \/ m = 11)) /\
  (m = 2 -> d <= 29 /\ (d = 29 -> y mod 4 = 0)).

Lemma btokCVCDateIsValid_rule (d0 d1 d2 d3 d4 d5 : octet) :
  btokCVCDateIsValid [d0; d1; d2; d3; d4; d5] = true <->
  date_rule (oct d0) (oct d1) (oct d2) (oct d3) (oct d4) (oct d5).
Proof.
  unfold btokCVCDateIsValid, date_rule, at_, to_octet. cbn [nth].
  generalize (oct d0) (oct d1) (oct d2) (oct d3) (oct d4) (oct d5).
  intros n0 n1 n2 n3 n4 n5.
  destruct ((9 <? n0) || (9 <? n1) || (9 <? n2) ||
            (9 <? n3) || (9 <? n4) || (9 <? n5)) eqn:E.
  - bool_to_prop. split; [discriminate | lia].
  - bool_to_prop.
    rewrite !Nat.mod_small by lia.
    cbv zeta. bool_to_prop. split; intros H.
    + repeat split; try lia.
    + lia.
Qed.

(** C5: the date validator accepts six octets exactly when each is a digit,
    the year is at least 19, the month is in 1..12, the day is in 1..31, the
    day is not 31 in months 4, 6, 9, 11, and in February the day is at most
    29, with 29 only in a year divisible by 4; 20-02-29 and 24-02-29 are
    valid and 21-02-29 is not. *)
Theorem C5_date_validator :
  (forall d0 d1 d2 d3 d4 d5 : octet,
      btokCVCDateIsValid [d0; d1; d2; d3; d4; d5] = true <->
      date_rule (oct d0) (oct d1) (oct d2) (oct d3) (oct d4) (oct d5)) /\
  btokCVCDateIsValid (Toy.date 2 0 0 2 2 9) = true /\
  btokCVCDateIsValid (Toy.date 2 4 0 2 2 9) = true /\
  btokCVCDateIsValid (Toy.date 2 1 0 2 2 9) = false.
Proof.
  split; [exact btokCVCDateIsValid_rule | repeat split; reflexivity].
Qed.

(** [a] comes strictly before [b] in the lexicographic order of their first
    [n] octets: they agree up to some position, where [a] is smaller. *)
Definition lex_lt (a b : list octet) (n : nat) : Prop :=
  exists i, i < n /\ (forall j, j < i -> at_ a j = at_ b j) /\ at_ a i < at_ b i.

Lemma at_0 (l : list octet) : at_ l 0 = oct (hd x00 l).
Proof. now destruct l. Qed.

Lemma at_S (l : list octet) (i : nat) : at_ l (S i) = at_ (tl l) i.
Proof. unfold at_. destruct l; [now destruct i | reflexivity]. Qed.

Lemma memCmp_gt_lex (a b : list octet) (n : nat) :
  (Mem.memCmp a b n <=? 0)%Z = false <-> lex_lt b a n.
Proof.
  revert a b. induction n as [|n IH]; intros a b; cbn [Mem.memCmp].
  - split; [discriminate | intros (i & Hi & _); lia].
  - destruct (oct (hd x00 a) <? oct (hd x00 b)) eqn:E1; bool_to_prop.
    + split; [discriminate |].
      intros (i & Hi & Heq & Hlt). destruct i as [|i].
      * rewrite !at_0 in Hlt. lia.
      * specialize (Heq 0 ltac:(lia)). rewrite !at_0 in Heq. lia.
    + destruct (oct (hd x00 b) <? oct (hd x00 a)) eqn:E2; bool_to_prop.
      * split; [intros _ | reflexivity].
        exists 0. rewrite !at_0. repeat split; [lia | intros j Hj; lia | lia].
      * rewrite IH. split.
        -- intros (i & Hi & Heq & Hlt). exists (S i). rewrite !at_S.
           repeat split; [lia | | exact Hlt].
           intros [|j] Hj; [rewrite !at_0; lia | rewrite !at_S; apply Heq; lia].
        -- intros (i & Hi & Heq & Hlt). destruct i as [|i].
           ++ rewrite !at_0 in Hlt. lia.
           ++ exists i. rewrite !at_S in Hlt. repeat split; [lia | | exact Hlt].
              intros j Hj. specialize (Heq (S j) ltac:(lia)).
              now rewrite !at_S in Heq.
Qed.

Arguments Mem.memCmp : simpl never.
Arguments btokCVCDateIsValid : simpl never.
Arguments btokCVCNameIsValid : simpl never.
Arguments btokPubkeyVal : simpl never.
Arguments Str.strEq : simpl never.

Section Validators.

Context {collab : Collab}.

Lemma btokCVCDateLeq_valid (left right : list octet) :
  btokCVCDateIsValid left = true -> btokCVCDateIsValid right = true ->
  btokCVCDateLeq left right = Ret (Mem.memCmp left right 6 <=? 0)%Z.
Proof. intros Hl Hr. unfold btokCVCDateLeq. now rewrite Hl, Hr. Qed.

(** The dates of a record are in order: both valid and [from <= until]. *)
Definition dates_ok (cvc : btok_cvc_t) : bool :=
  btokCVCDateIsValid (from cvc) && btokCVCDateIsValid (until cvc) &&
  (Mem.memCmp (from cvc) (until cvc) 6 <=? 0)%Z.

Definition names_ok (cvc : btok_cvc_t) : bool :=
  btokCVCNameIsValid (authority cvc) && btokCVCNameIsValid (holder cvc).

(** [btokCVCCheck] without the assertions, which never fail. *)
Definition check_code (cvc : btok_cvc_t) : err_t :=
  if negb (names_ok cvc) then ERR_BAD_NAME
  else if negb (dates_ok cvc) then ERR_BAD_DATE
  else btokPubkeyVal (pubkey cvc) (pubkey_len cvc).

Lemma btokCVCCheck_code (cvc : btok_cvc_t) :
  btokCVCCheck cvc = Ret (check_code cvc).
Proof.
  unfold btokCVCCheck, check_code, names_ok, dates_ok.
  destruct (btokCVCNameIsValid (authority cvc)),
           (btokCVCNameIsValid (holder cvc)); cbn; try reflexivity.
  destruct (btokCVCDateIsValid (from cvc)) eqn:Hf; cbn; [| reflexivity].
  destruct (btokCVCDateIsValid (until cvc)) eqn:Hu; cbn; [| reflexivity].
  rewrite (btokCVCDateLeq_valid _ _ Hf Hu). cbn.
  now destruct (Mem.memCmp (from cvc) (until cvc) 6 <=? 0)%Z.
Qed.

Lemma btokCVCInfoSeemsValid_code (cvc : btok_cvc_t) :
  btokCVCInfoSeemsValid cvc =
  Ret (names_ok cvc && dates_ok cvc &&
       ((pubkey_len cvc =? 64) || (pubkey_len cvc =? 96) ||
        (pubkey_len cvc =? 128))).
Proof.
  unfold btokCVCInfoSeemsValid, names_ok, dates_ok.
  destruct (btokCVCNameIsValid (authority cvc)),
           (btokCVCNameIsValid (holder cvc)); cbn; try reflexivity.
  destruct (btokCVCDateIsValid (from cvc)) eqn:Hf; cbn; [| reflexivity].
  destruct (btokCVCDateIsValid (until cvc)) eqn:Hu; cbn; [| reflexivity].
  rewrite (btokCVCDateLeq_valid _ _ Hf Hu). cbn.
  now destruct (Mem.memCmp (from cvc) (until cvc) 6 <=? 0)%Z.
Qed.

Lemma is_ok_true (e : err_t) : is_ok e = true <-> e = ERR_OK.
Proof. destruct e; cbn; split; intros H; (reflexivity || discriminate). Qed.

Lemma btokPubkeyVal_ok_len (pubkey : list octet) (n : nat) :
  btokPubkeyVal pubkey n = ERR_OK -> n = 64 \/ n = 96 \/ n = 128.
Proof.
  unfold btokPubkeyVal.
  destruct (negb (n =? 64) && negb (n =? 96) && negb (n =? 128)) eqn:E;
    [discriminate |].
  intros _. bool_to_prop. lia.
Qed.

Lemma check_code_ok (cvc : btok_cvc_t) :
  check_code cvc = ERR_OK ->
  names_ok cvc = true /\ dates_ok cvc = true /\
  btokPubkeyVal (pubkey cvc) (pubkey_len cvc) = ERR_OK.
Proof.
  unfold check_code.
  destruct (names_ok cvc); cbn; [| discriminate].
  destruct (dates_ok cvc); cbn; [| discriminate]. auto.
Qed.

(** A record that passes [btokCVCCheck] also seems valid. *)
Lemma check_ok_seems_valid (cvc : btok_cvc_t) :
  btokCVCCheck cvc = Ret ERR_OK -> btokCVCInfoSeemsValid cvc = Ret true.
Proof.
  rewrite btokCVCCheck_code, btokCVCInfoSeemsValid_code.
  intros H. injection H as H. apply check_code_ok in H.
  destruct H as (Hn & Hd & Hp). rewrite Hn, Hd. cbn.
  apply btokPubkeyVal_ok_len in Hp. f_equal. bool_to_prop. lia.
Qed.

Lemma btokCVCCheck2_code (cvc cvca : btok_cvc_t) :
  btokCVCCheck2 cvc cvca =
  Ret (if negb (is_ok (check_code cvc)) then check_code cvc
       else if negb (Str.strEq (authority cvc) (holder cvca)) then ERR_BAD_NAME
       else if negb (btokCVCDateIsValid (from cvca) &&
                     btokCVCDateIsValid (until cvca) &&
                     (Mem.memCmp (from cvca) (from cvc) 6 <=? 0)%Z &&
                     (Mem.memCmp (from cvc) (until cvca) 6 <=? 0)%Z)
       then ERR_BAD_DATE else ERR_OK).
Proof.
  unfold btokCVCCheck2. rewrite btokCVCCheck_code. cbn [bind].
  destruct (is_ok (check_code cvc)) eqn:Hok; cbn [negb]; [| reflexivity].
  apply is_ok_true, check_code_ok in Hok. destruct Hok as (_ & Hd & _).
  unfold dates_ok in Hd. bool_to_prop. destruct Hd as ((Hf & _) & _).
  destruct (Str.strEq (authority cvc) (holder cvca)); cbn [negb]; [| reflexivity].
  destruct (btokCVCDateIsValid (from cvca)) eqn:Hfa; cbn; [| reflexivity].
  destruct (btokCVCDateIsValid (until cvca)) eqn:Hua; cbn; [| reflexivity].
  rewrite (btokCVCDateLeq_valid _ _ Hfa Hf). cbn.
  destruct (Mem.memCmp (from cvca) (from cvc) 6 <=? 0)%Z; cbn; [| reflexivity].
  rewrite (btokCVCDateLeq_valid _ _ Hf Hua). cbn.
  now destruct (Mem.memCmp (from cvc) (until cvca) 6 <=? 0)%Z.
Qed.

End Validators.

Section CheckClaims.

Context {collab : Collab}.

Lemma dates_ok_false (cvc : btok_cvc_t) :
  dates_ok cvc = false <->
  btokCVCDateIsValid (from cvc) = false \/
  btokCVCDateIsValid (until cvc) = false \/
  lex_lt (until cvc) (from cvc) 6.
Proof.
  unfold dates_ok. rewrite <- memCmp_gt_lex.
  destruct (btokCVCDateIsValid (from cvc)), (btokCVCDateIsValid (until cvc)),
    (Mem.memCmp (from cvc) (until cvc) 6 <=? 0)%Z; cbn; intuition congruence.
Qed.

Lemma names_ok_false (cvc : btok_cvc_t) :
  names_ok cvc = false <->
  btokCVCNameIsValid (authority cvc) = false \/
  btokCVCNameIsValid (holder cvc) = false.
Proof.
  unfold names_ok.
  destruct (btokCVCNameIsValid (authority cvc)),
    (btokCVCNameIsValid (holder cvc)); cbn; intuition congruence.
Qed.

(** The parameters [btokPubkeyVal] loads for a key of [pubkey_len] octets. *)
Definition params_for (pubkey_len : nat) : err_t * bign_params :=
  bignStdParams
    (if pubkey_len =? 64 then "1.2.112.0.2.0.34.101.45.3.1"
     else if pubkey_len =? 96 then "1.2.112.0.2.0.34.101.45.3.2"
     else "1.2.112.0.2.0.34.101.45.3.3").

Lemma btokPubkeyVal_bad_len (pubkey : list octet) (n : nat) :
  n <> 64 -> n <> 96 -> n <> 128 -> btokPubkeyVal pubkey n = ERR_BAD_INPUT.
Proof.
  intros H1 H2 H3. unfold btokPubkeyVal.
  apply Nat.eqb_neq in H1, H2, H3. now rewrite H1, H2, H3.
Qed.

Lemma btokPubkeyVal_good_len (pubkey : list octet) (n : nat) :
  n = 64 \/ n = 96 \/ n = 128 ->
  btokPubkeyVal pubkey n =
  (if negb (is_ok (fst (params_for n))) then fst (params_for n)
   else bignValPubkey (snd (params_for n)) (firstn n pubkey)).
Proof.
  intros H. unfold btokPubkeyVal, params_for.
  replace (negb (n =? 64) && negb (n =? 96) && negb (n =? 128)) with false
    by (destruct H as [-> | [-> | ->]]; reflexivity).
  now destruct (bignStdParams _).
Qed.

(** C6, as amended: [btokCVCCheck] returns [ERR_BAD_NAME] when a name fails
    its test, otherwise [ERR_BAD_DATE] when a date is malformed or [from]
    comes after [until] in the lexicographic order of the six octets, and
    otherwise the result of [btokPubkeyVal]: [ERR_BAD_INPUT] when
    [pubkey_len] is none of 64, 96, 128, else the failure of loading the
    standard parameters, else what the group-membership validation of the
    first [pubkey_len] octets returns.  The first failing check decides;
    the first two codes come from nowhere else unless the validation of the
    key itself returns them. *)
Theorem C6_check_first_failure (cvc : btok_cvc_t) :
  ((btokCVCNameIsValid (authority cvc) = false \/
    btokCVCNameIsValid (holder cvc) = false) ->
   btokCVCCheck cvc = Ret ERR_BAD_NAME) /\
  (names_ok cvc = true ->
   (btokCVCDateIsValid (from cvc) = false \/
    btokCVCDateIsValid (until cvc) = false \/
    lex_lt (until cvc) (from cvc) 6) ->
   btokCVCCheck cvc = Ret ERR_BAD_DATE) /\
  (names_ok cvc = true -> dates_ok cvc = true ->
   btokCVCCheck cvc = Ret (btokPubkeyVal (pubkey cvc) (pubkey_len cvc)) /\
   (pubkey_len cvc <> 64 -> pubkey_len cvc <> 96 -> pubkey_len cvc <> 128 ->
    btokCVCCheck cvc = Ret ERR_BAD_INPUT) /\
   (pubkey_len cvc = 64 \/ pubkey_len cvc = 96 \/ pubkey_len cvc = 128 ->
    btokCVCCheck cvc =
    Ret (if negb (is_ok (fst (params_for (pubkey_len cvc))))
         then fst (params_for (pubkey_len cvc))
         else bignValPubkey (snd (params_for (pubkey_len cvc)))
                            (firstn (pubkey_len cvc) (pubkey cvc))))) /\
  (btokPubkeyVal (pubkey cvc) (pubkey_len cvc) <> ERR_BAD_NAME ->
   (btokCVCCheck cvc = Ret ERR_BAD_NAME <-> names_ok cvc = false)) /\
  (btokPubkeyVal (pubkey cvc) (pubkey_len cvc) <> ERR_BAD_DATE ->
   (btokCVCCheck cvc = Ret ERR_BAD_DATE <->
    names_ok cvc = true /\ dates_ok cvc = false)).
Proof.
  rewrite btokCVCCheck_code. unfold check_code.
  split; [| split; [| split; [| split]]].
  - intros H. apply names_ok_false in H. now rewrite H.
  - intros Hn H. apply dates_ok_false in H. now rewrite Hn, H.
  - intros Hn Hd. rewrite Hn, Hd. cbn [negb].
    split; [reflexivity | split].
    + intros H1 H2 H3. now rewrite btokPubkeyVal_bad_len.
    + intros Hl. now rewrite btokPubkeyVal_good_len.
  - intros Hp. destruct (names_ok cvc); cbn [negb].
    + split; [| discriminate].
      destruct (dates_ok cvc); cbn [negb]; congruence.
    + split; reflexivity.
  - intros Hp. destruct (names_ok cvc); cbn [negb].
    + destruct (dates_ok cvc); cbn [negb].
      * split; [congruence | intros (_ & H); discriminate].
      * split; auto.
    + split; [discriminate | intros (H & _); discriminate].
Qed.

End CheckClaims.

(** C6, the claim as stated fails: a record with valid names and dates whose
    [pubkey_len] is 0 is answered [ERR_BAD_INPUT], which is neither success
    nor [ERR_BAD_PUBKEY]; the group-membership validation is not reached. *)
Lemma C6_check_bad_input_counterexample :
  names_ok Toy.cvc0 = true /\ dates_ok Toy.cvc0 = true /\
  pubkey_len Toy.cvc0 = 0 /\
  @btokCVCCheck Toy.collab Toy.cvc0 = Ret ERR_BAD_INPUT /\
  @btokCVCCheck Toy.collab Toy.cvc0 <> Ret ERR_OK /\
  @btokCVCCheck Toy.collab Toy.cvc0 <> Ret ERR_BAD_PUBKEY.
Proof. repeat split; (reflexivity || discriminate). Qed.

(** ** Properties of the DER primitives *)

Module DerFacts.

Lemma octet_eqb_refl (a : octet) : octet_eqb a a = true.
Proof. apply Byte.byte_dec_lb. reflexivity. Qed.

Lemma octet_eqb_eq (a b : octet) : octet_eqb a b = true <-> a = b.
Proof.
  split; [apply Byte.byte_dec_bl | intros ->; apply octet_eqb_refl].
Qed.

Lemma octets_eqb_eq (a b : list octet) : octets_eqb a b = true <-> a = b.
Proof.
  revert b. induction a as [|x a IH]; intros [|y b]; cbn;
    try (split; (reflexivity || discriminate)).
  rewrite andb_true_iff, octet_eqb_eq, IH.
  split; [intros (-> & ->); reflexivity | intros H; injection H; auto].
Qed.

Lemma starts_with_app (p rest : list octet) : starts_with p (p ++ rest) = true.
Proof.
  induction p as [|x p IH]; cbn; [reflexivity |].
  now rewrite octet_eqb_refl, IH.
Qed.

Lemma starts_with_split (p der : list octet) :
  starts_with p der = true -> exists rest, der = p ++ rest.
Proof.
  revert der. induction p as [|x p IH]; intros der H; cbn in *.
  - now exists der.
  - destruct der as [|y der]; [discriminate |].
    apply andb_true_iff in H as (Hxy & H).
    apply octet_eqb_eq in Hxy as ->.
    destruct (IH _ H) as (rest & ->). now exists rest.
Qed.

Lemma skipn_length_app {A : Type} (a b : list A) : skipn (length a) (a ++ b) = b.
Proof. induction a; cbn; auto. Qed.

Lemma firstn_length_app {A : Type} (a b : list A) : firstn (length a) (a ++ b) = a.
Proof. induction a; cbn; [now destruct b | now f_equal]. Qed.

Lemma be_octets_aux_S (f n : nat) (acc : list octet) :
  be_octets_aux (S f) n acc =
  if n =? 0 then acc else be_octets_aux f (n / 256) (octet_of_nat n :: acc).
Proof. reflexivity. Qed.

Lemma be_octets_one (n : nat) :
  0 < n < 256 -> be_octets n = [octet_of_nat n].
Proof.
  intros H. unfold be_octets. rewrite 2 be_octets_aux_S.
  replace (n =? 0) with false by (symmetry; apply Nat.eqb_neq; lia).
  now rewrite Nat.div_small by lia.
Qed.

Lemma be_octets_two (n : nat) :
  256 <= n < 256 * 256 ->
  be_octets n = [octet_of_nat (n / 256); octet_of_nat n].
Proof.
  intros H. unfold be_octets. rewrite 3 be_octets_aux_S.
  assert (H1 : 0 < n / 256 < 256).
  { split; [apply Nat.div_str_pos; lia | apply Nat.Div0.div_lt_upper_bound; lia]. }
  replace (n =? 0) with false by (symmetry; apply Nat.eqb_neq; lia).
  replace (n / 256 =? 0) with false by (symmetry; apply Nat.eqb_neq; lia).
  now rewrite (Nat.div_small (n / 256)) by lia.
Qed.

(** The length octets of contents shorter than 2^16. *)
Lemma derLEnc_cases (n : nat) :
  n < 256 * 256 ->
  (n < 128 /\ derLEnc n = [octet_of_nat n]) \/
  (128 <= n < 256 /\ derLEnc n = [octet_of_nat 129; octet_of_nat n]) \/
  (256 <= n /\
   derLEnc n = [octet_of_nat 130; octet_of_nat (n / 256); octet_of_nat n]).
Proof.
  intros H. unfold derLEnc.
  destruct (n <? 128) eqn:E; bool_to_prop; [left; split; [lia | reflexivity] |].
  right. destruct (Nat.lt_ge_cases n 256) as [Hlt | Hge].
  - left. split; [lia |]. now rewrite be_octets_one by lia.
  - right. split; [lia |]. now rewrite be_octets_two by lia.
Qed.

Lemma derLEnc_length (n : nat) :
  n < 256 * 256 -> 1 <= length (derLEnc n) <= 3.
Proof.
  intros H. destruct (derLEnc_cases H) as [(_ & ->) | [(_ & ->) | (_ & ->)]];
    cbn; lia.
Qed.

Lemma derLDec_derLEnc (n : nat) (rest : list octet) :
  n < 256 * 256 ->
  derLDec (derLEnc n ++ rest) = Some (n, length (derLEnc n)).
Proof.
  intros H.
  assert (H1 : n / 256 < 256) by (apply Nat.Div0.div_lt_upper_bound; lia).
  pose proof (Nat.div_mod_eq n 256) as Hdm.
  pose proof (Nat.mod_upper_bound n 256 ltac:(lia)) as Hm.
  destruct (derLEnc_cases H) as [(Hn & ->) | [(Hn & ->) | (Hn & ->)]];
    cbn [app derLDec length].
  - rewrite oct_octet_of_nat, Nat.mod_small by lia.
    now replace (n <? 128) with true by (symmetry; apply Nat.ltb_lt; lia).
  - change (oct (octet_of_nat 129)) with 129.
    change (129 <? 128) with false. change (129 - 128) with 1.
    cbn [Nat.eqb Nat.ltb Nat.leb orb firstn hd length be_value].
    rewrite oct_octet_of_nat, (Nat.mod_small n) by lia.
    replace (n =? 0) with false by (symmetry; apply Nat.eqb_neq; lia).
    replace (256 * 0 + n) with n by lia.
    replace (n <=? 127) with false by (symmetry; apply Nat.leb_gt; lia).
    reflexivity.
  - change (oct (octet_of_nat 130)) with 130.
    change (130 <? 128) with false. change (130 - 128) with 2.
    cbn [Nat.eqb Nat.ltb Nat.leb orb firstn hd length be_value].
    rewrite !oct_octet_of_nat, (Nat.mod_small (n / 256)) by lia.
    replace (n / 256 =? 0) with false by (symmetry; apply Nat.eqb_neq; lia).
    replace (256 * (256 * 0 + n / 256) + n mod 256) with n by lia.
    replace (n <=? 127) with false by (symmetry; apply Nat.leb_gt; lia).
    reflexivity.
Qed.

Lemma derEnc_length (tag : N) (val : list octet) :
  length (derEnc tag val) =
  length (derTEnc tag) + length (derLEnc (length val)) + length val.
Proof. unfold derEnc. rewrite !length_app. lia. Qed.

Lemma derEnc_length_bound (tag : N) (val : list octet) :
  length val < 256 * 256 ->
  length (derEnc tag val) <= length (derTEnc tag) + 3 + length val.
Proof.
  intros H. rewrite derEnc_length. pose proof (derLEnc_length H). lia.
Qed.

Lemma derTDec2_derTEnc (tag : N) (rest : list octet) :
  derTIsValid tag = true ->
  derTDec2 (derTEnc tag ++ rest) tag = Some (length (derTEnc tag)).
Proof. intros H. unfold derTDec2. now rewrite H, starts_with_app. Qed.

Lemma derDec2_derEnc (tag : N) (val rest : list octet) :
  derTIsValid tag = true -> length val < 256 * 256 ->
  derDec2 (derEnc tag val ++ rest) tag = Some (val, length (derEnc tag val)).
Proof.
  intros Ht Hl. unfold derDec2, derEnc. rewrite <- !app_assoc.
  rewrite derTDec2_derTEnc by assumption.
  rewrite skipn_length_app, derLDec_derLEnc by assumption.
  rewrite !length_app.
  replace (_ <? _) with false by (symmetry; apply Nat.ltb_ge; lia).
  rewrite (app_assoc (derTEnc tag)), <- length_app, skipn_length_app.
  rewrite firstn_length_app. do 2 f_equal. rewrite length_app. lia.
Qed.

Lemma derDec3_derEnc (tag : N) (val rest : list octet) :
  derTIsValid tag = true -> length val < 256 * 256 ->
  derDec3 (derEnc tag val ++ rest) tag (length val) =
  Some (val, length (derEnc tag val)).
Proof.
  intros Ht Hl. unfold derDec3. rewrite derDec2_derEnc by assumption.
  now rewrite Nat.eqb_refl.
Qed.

(** A value of one length is not taken for a value of another. *)
Lemma derDec3_other_length (tag : N) (val rest : list octet) (len : nat) :
  derTIsValid tag = true -> length val < 256 * 256 -> length val <> len ->
  derDec3 (derEnc tag val ++ rest) tag len = None.
Proof.
  intros Ht Hl Hne. unfold derDec3. rewrite derDec2_derEnc by assumption.
  now replace (length val =? len) with false
    by (symmetry; apply Nat.eqb_neq; exact Hne).
Qed.

Lemma derTPSTRDec_derEnc (tag : N) (val rest : list octet) :
  derTIsValid tag = true -> length val < 256 * 256 ->
  Str.strIsPrintable val = true ->
  derTPSTRDec (derEnc tag val ++ rest) tag =
  Some (val, length val, length (derEnc tag val)).
Proof.
  intros Ht Hl Hp. unfold derTPSTRDec.
  now rewrite derDec2_derEnc, Hp by assumption.
Qed.

Lemma derBITDec_derEnc (val rest : list octet) :
  0 < length val < 256 * 255 ->
  derBITDec (derEnc 0x03 (x00 :: val) ++ rest) =
  Some (val, 8 * length val, length (derEnc 0x03 (x00 :: val))).
Proof.
  intros Hl. unfold derBITDec.
  rewrite derDec2_derEnc by (reflexivity || (cbn [length]; lia)).
  change (oct x00) with 0. cbn [Nat.ltb Nat.leb Nat.eqb negb orb andb].
  rewrite andb_false_r. cbn [orb]. do 3 f_equal. lia.
Qed.

Lemma derStartsWith_derEnc (tag : N) (val rest : list octet) :
  derTIsValid tag = true ->
  derStartsWith (derEnc tag val ++ rest) tag = true.
Proof.
  intros Ht. unfold derStartsWith, derEnc. rewrite <- app_assoc.
  now rewrite derTDec2_derTEnc.
Qed.

Lemma derTSEQDecStart_derEnc (pos : nat) (tag : N) (val rest : list octet) :
  derTIsValid tag = true -> derTIsConstructed tag = true ->
  length val < 256 * 256 ->
  derTSEQDecStart (mk_cursor pos (derEnc tag val ++ rest)) tag =
  (mk_anchor pos tag (length val),
   Some (length (derTEnc tag) + length (derLEnc (length val)))).
Proof.
  intros Hv Hc Hl. unfold derTSEQDecStart, derEnc. cbn [c_rest c_pos].
  rewrite Hv, Hc. cbn [andb]. rewrite <- !app_assoc.
  rewrite derTDec2_derTEnc, skipn_length_app, derLDec_derLEnc by assumption.
  reflexivity.
Qed.

Lemma derTSEQDecStop_at (pos : nat) (rest : list octet) (a : der_anchor_t) :
  pos = a_pos a + length (derTEnc (a_tag a)) +
        length (derLEnc (a_len a)) + a_len a ->
  derTSEQDecStop (mk_cursor pos rest) a = Some 0.
Proof.
  intros ->. unfold derTSEQDecStop. cbn [c_pos]. now rewrite Nat.eqb_refl.
Qed.

End DerFacts.

Import DerFacts.

(** ** The body encoder *)

(** The DER code of a certificate body laid out as the schema of the
    standard reads: version, authority, public key, holder, the optional
    CertHAT, the two dates and the optional CVExt. *)
Definition oid_code (oid : string) : list octet :=
  match derOIDEnc oid with Some e => e | None => [] end.

Definition pubkey_code (cvc : btok_cvc_t) : list octet :=
  derEnc 0x7F49
    (oid_code oid_bign_pubkey ++
     derEnc 0x03 (x00 :: firstn (pubkey_len cvc) (pubkey cvc))).

Definition hat_eid_code (cvc : btok_cvc_t) : list octet :=
  if Mem.memIsZero (hat_eid cvc) 5 then []
  else derEnc 0x7F4C
         (oid_code oid_eid_access ++ derEnc 0x04 (firstn 5 (hat_eid cvc))).

Definition hat_esign_code (cvc : btok_cvc_t) : list octet :=
  if Mem.memIsZero (hat_esign cvc) 2 then []
  else derEnc 0x65
         (derEnc 0x73
            (oid_code oid_esign_access ++
             derEnc 0x04 (firstn 2 (hat_esign cvc)))).

Definition body_content (cvc : btok_cvc_t) : list octet :=
  derEnc 0x5F29 [x00] ++
  derEnc 0x42 (authority cvc) ++
  pubkey_code cvc ++
  derEnc 0x5F20 (holder cvc) ++
  hat_eid_code cvc ++
  derEnc 0x5F25 (firstn 6 (from cvc)) ++
  derEnc 0x5F24 (firstn 6 (until cvc)) ++
  hat_esign_code cvc.

Definition body_code (cvc : btok_cvc_t) : list octet :=
  derEnc 0x7F4E (body_content cvc).

Section Encoding.

(** The state of an encoder that has produced [w], into a buffer
    ([body = true]) or only counting. *)
Definition vstate (body : bool) (w : list octet) : enc_state :=
  mk_enc (if body then Some w else None) (length w).

Lemma e_count_vstate (body : bool) (w : list octet) :
  e_count (vstate body w) = length w.
Proof. reflexivity. Qed.

Lemma derEncStep_emit (body : bool) (w bs : list octet) :
  derEncStep (emit (Some bs)) (vstate body w) = Ret (vstate body (w ++ bs)).
Proof.
  unfold derEncStep, emit, vstate. cbn [e_buf e_count].
  rewrite length_app. now destruct body.
Qed.

Lemma derTSEQEncStart_ok (pos : nat) (tag : N) :
  derTIsValid tag && derTIsConstructed tag = true ->
  derTSEQEncStart pos tag =
  (mk_anchor pos tag 0, emit (Some (derTEnc tag ++ [x00]))).
Proof. intros H. unfold derTSEQEncStart. now rewrite H. Qed.

Lemma derEncStep_stop (body : bool) (w pre content : list octet) (tag : N) :
  w = pre ++ derTEnc tag ++ x00 :: content ->
  derEncStep (derTSEQEncStop (mk_anchor (length pre) tag 0)) (vstate body w) =
  Ret (vstate body (pre ++ derEnc tag content)).
Proof.
  intros ->. unfold derEncStep, derTSEQEncStop, vstate.
  cbn [e_buf e_count a_pos a_tag].
  rewrite !length_app. cbn [length].
  replace (_ <? _) with false by (symmetry; apply Nat.ltb_ge; lia).
  replace (length pre + (length (derTEnc tag) + S (length content)) -
           length pre - length (derTEnc tag) - 1) with (length content) by lia.
  pose proof (derEnc_length tag content) as Hlen.
  assert (Hl : 1 <= length (derLEnc (length content))).
  { unfold derLEnc. destruct (_ <? _); cbn [length]; lia. }
  destruct body; cbn [option_map]; f_equal; unfold derEnc in *.
  - f_equal; [f_equal | rewrite !length_app in *; lia].
    rewrite (app_assoc pre), <- length_app, firstn_length_app.
    change (x00 :: content) with ([x00] ++ content).
    rewrite (app_assoc (pre ++ derTEnc tag) [x00]).
    replace (length (pre ++ derTEnc tag) + 1)
      with (length ((pre ++ derTEnc tag) ++ [x00]))
      by (rewrite (length_app _ [x00]); reflexivity).
    rewrite skipn_length_app.
    now rewrite <- !app_assoc.
  - f_equal. rewrite !length_app in *. lia.
Qed.

End Encoding.

Section BodyEnc.

Lemma seems_valid_inv (cvc : btok_cvc_t) :
  btokCVCInfoSeemsValid cvc = Ret true ->
  names_ok cvc = true /\ dates_ok cvc = true /\
  (pubkey_len cvc = 64 \/ pubkey_len cvc = 96 \/ pubkey_len cvc = 128).
Proof.
  rewrite btokCVCInfoSeemsValid_code. intros H. injection H as H.
  bool_to_prop. intuition.
Qed.

Lemma names_ok_inv (cvc : btok_cvc_t) :
  names_ok cvc = true ->
  (8 <= length (authority cvc) <= 12 /\
   Str.strIsPrintable (authority cvc) = true) /\
  (8 <= length (holder cvc) <= 12 /\
   Str.strIsPrintable (holder cvc) = true).
Proof.
  unfold names_ok, btokCVCNameIsValid, Str.strLen. bool_to_prop. intuition.
Qed.

Lemma derTPSTREnc_ok (tag : N) (val : list octet) :
  derTIsValid tag && negb (derTIsConstructed tag) = true ->
  Str.strIsPrintable val = true ->
  derTPSTREnc tag val = Some (derEnc tag val).
Proof. intros Ht Hp. unfold derTPSTREnc. now rewrite Ht, Hp. Qed.

Lemma derBITEnc_octets (val : list octet) (n : nat) :
  n = 64 \/ n = 96 \/ n = 128 ->
  derBITEnc val (8 * n) = Some (derEnc 0x03 (x00 :: firstn n val)).
Proof. intros [-> | [-> | ->]]; reflexivity. Qed.

Ltac enc_step :=
  first
    [ rewrite derEncStep_emit
    | rewrite derTSEQEncStart_ok by reflexivity
    | erewrite derEncStep_stop
        by (rewrite <- ?app_assoc; cbn [app]; reflexivity) ];
  cbn [bind]; rewrite ?e_count_vstate.

Lemma BodyEnc_CertHAT_code (body : bool) (cvc : btok_cvc_t) (w : list octet) :
  BodyEnc_CertHAT cvc (vstate body w) =
  Ret (vstate body (w ++ hat_eid_code cvc)).
Proof.
  unfold BodyEnc_CertHAT, hat_eid_code.
  destruct (Mem.memIsZero (hat_eid cvc) 5); cbn [negb].
  - now rewrite app_nil_r.
  - rewrite e_count_vstate.
    change (derOIDEnc oid_eid_access) with (Some (oid_code oid_eid_access)).
    change (derOCTEnc (hat_eid cvc) 5)
      with (Some (derEnc 0x04 (firstn 5 (hat_eid cvc)))).
    repeat enc_step. reflexivity.
Qed.

Lemma BodyEnc_CVExt_code (body : bool) (cvc : btok_cvc_t) (w : list octet) :
  BodyEnc_CVExt cvc (vstate body w) =
  Ret (vstate body (w ++ hat_esign_code cvc)).
Proof.
  unfold BodyEnc_CVExt, hat_esign_code.
  destruct (Mem.memIsZero (hat_esign cvc) 2); cbn [negb].
  - now rewrite app_nil_r.
  - rewrite e_count_vstate.
    change (derOIDEnc oid_esign_access) with (Some (oid_code oid_esign_access)).
    change (derOCTEnc (hat_esign cvc) 2)
      with (Some (derEnc 0x04 (firstn 2 (hat_esign cvc)))).
    repeat enc_step. reflexivity.
Qed.

(** The body encoder produces the code of the schema, and its length is
    the same with and without a buffer. *)
Lemma btokCVCBodyEnc_code (body : bool) (cvc : btok_cvc_t) :
  btokCVCInfoSeemsValid cvc = Ret true ->
  btokCVCBodyEnc body cvc =
  Ret (if body then Some (body_code cvc) else None, length (body_code cvc)).
Proof.
  intros Hv. unfold btokCVCBodyEnc. rewrite Hv. cbn [bind ASSERT].
  apply seems_valid_inv in Hv. destruct Hv as (Hn & _ & Hlen).
  apply names_ok_inv in Hn. destruct Hn as ((_ & Hpa) & (_ & Hph)).
  change (mk_enc (if body then Some [] else None) 0) with (vstate body []).
  rewrite e_count_vstate.
  change (derTSIZEEnc 0x5F29 0) with (Some (derEnc 0x5F29 [x00])).
  rewrite (derTPSTREnc_ok 0x42 _ eq_refl Hpa).
  rewrite (derTPSTREnc_ok 0x5F20 _ eq_refl Hph).
  change (derOIDEnc oid_bign_pubkey) with (Some (oid_code oid_bign_pubkey)).
  rewrite (derBITEnc_octets _ Hlen).
  change (derTOCTEnc 0x5F25 (from cvc) 6)
    with (Some (derEnc 0x5F25 (firstn 6 (from cvc)))).
  change (derTOCTEnc 0x5F24 (until cvc) 6)
    with (Some (derEnc 0x5F24 (firstn 6 (until cvc)))).
  repeat enc_step.
  rewrite BodyEnc_CertHAT_code. cbn [bind]. repeat enc_step.
  rewrite BodyEnc_CVExt_code. cbn [bind]. repeat enc_step.
  unfold body_code, body_content, pubkey_code. cbn [e_buf e_count vstate].
  rewrite <- ?app_assoc. reflexivity.
Qed.

End BodyEnc.

(** ** The body decoder *)

Section BodyDec.

Lemma derTEnc_length_le (tag : N) : length (derTEnc tag) <= 4.
Proof.
  unfold derTEnc. cbn [tag_octets].
  repeat match goal with
         | |- context [if ?c then _ else _] => destruct c
         end; cbn [length]; lia.
Qed.

Lemma derEnc_le (tag : N) (val : list octet) (n : nat) :
  length val <= n -> n < 256 * 250 -> length (derEnc tag val) <= n + 7.
Proof.
  intros H Hn. rewrite derEnc_length.
  pose proof (derTEnc_length_le tag).
  pose proof (@derLEnc_length (length val) ltac:(lia)). lia.
Qed.

Lemma advance_app (pos : nat) (a rest : list octet) :
  advance (mk_cursor pos (a ++ rest)) (length a) =
  mk_cursor (pos + length a) rest.
Proof. unfold advance. cbn [c_pos c_rest]. now rewrite skipn_length_app. Qed.

Lemma advance_header (pos : nat) (tag : N) (val rest : list octet) :
  advance (mk_cursor pos (derEnc tag val ++ rest))
          (length (derTEnc tag) + length (derLEnc (length val))) =
  mk_cursor (pos + (length (derTEnc tag) + length (derLEnc (length val))))
            (val ++ rest).
Proof.
  unfold advance, derEnc. cbn [c_pos c_rest]. f_equal.
  rewrite <- length_app, <- !app_assoc, (app_assoc (derTEnc tag)).
  apply skipn_length_app.
Qed.

Lemma advance_0 (cur : cursor) : advance cur 0 = mk_cursor (c_pos cur + 0) (c_rest cur).
Proof. reflexivity. Qed.

Lemma derTSIZEDec2_version (rest : list octet) :
  derTSIZEDec2 (derEnc 0x5F29 [x00] ++ rest) 0x5F29 0 =
  Some (length (derEnc 0x5F29 [x00])).
Proof.
  unfold derTSIZEDec2, derTSIZEDec.
  rewrite derDec2_derEnc by (reflexivity || (cbn [length]; lia)). reflexivity.
Qed.

Lemma derOIDDec2_code (oid : string) (rest : list octet) :
  derOIDEnc oid = Some (oid_code oid) ->
  derOIDDec2 (oid_code oid ++ rest) oid = Some (length (oid_code oid)).
Proof.
  intros H. unfold derOIDDec2. rewrite H. now rewrite starts_with_app.
Qed.

Lemma memIsZero_repeat (l : list octet) (n : nat) :
  Mem.memIsZero l n = true -> length l = n -> l = repeat x00 n.
Proof.
  unfold Mem.memIsZero. revert n.
  induction l as [|x l IH]; intros [|n]; cbn; try discriminate; auto.
  intros H Hl. apply andb_true_iff in H as (Hx & H).
  apply Nat.eqb_eq in Hx. f_equal; [now apply oct_inj | apply IH; auto].
Qed.

Lemma memWrite_full (buf src : list octet) :
  length src = length buf -> Mem.memWrite buf src = src.
Proof.
  intros H. unfold Mem.memWrite. rewrite H, skipn_all. apply app_nil_r.
Qed.

Lemma memWrite_zeros (src : list octet) (n : nat) :
  length src <= n ->
  Mem.memWrite (repeat x00 n) src = src ++ repeat x00 (n - length src).
Proof.
  intros H. unfold Mem.memWrite. f_equal.
  replace n with (length src + (n - length src)) at 1 by lia.
  rewrite repeat_app. rewrite <- (repeat_length x00 (length src)) at 1.
  apply skipn_length_app.
Qed.

(** What decoding the body of [cvc] yields: the fields of the body, the
    unused tail of the key zeroed, no signature yet. *)
Definition decoded (cvc : btok_cvc_t) : btok_cvc_t :=
  mk_cvc (authority cvc) (holder cvc)
         (firstn (pubkey_len cvc) (pubkey cvc) ++
          repeat x00 (sizeof_pubkey - pubkey_len cvc))
         (pubkey_len cvc) (hat_eid cvc) (hat_esign cvc)
         (from cvc) (until cvc) (repeat x00 sizeof_sig) 0.

Lemma body_layout_inv (cvc : btok_cvc_t) :
  body_layout cvc = true ->
  length (pubkey cvc) = 128 /\ length (hat_eid cvc) = 5 /\
  length (hat_esign cvc) = 2 /\ length (from cvc) = 6 /\
  length (until cvc) = 6.
Proof. unfold body_layout. bool_to_prop. intuition. Qed.

Lemma cvc_layout_inv (cvc : btok_cvc_t) :
  cvc_layout cvc = true ->
  body_layout cvc = true /\ length (sig cvc) = 96.
Proof. unfold cvc_layout. bool_to_prop. intuition. Qed.

Lemma derDec3_exact (tag : N) (val rest : list octet) (len : nat) :
  derTIsValid tag = true -> length val = len -> len < 256 * 256 ->
  derDec3 (derEnc tag val ++ rest) tag len =
  Some (val, length (derEnc tag val)).
Proof. intros Ht <- Hl. now apply derDec3_derEnc. Qed.

Lemma bit_guard (n : nat) :
  n = 64 \/ n = 96 \/ n = 128 ->
  negb (negb (8 * n =? 512) && negb (8 * n =? 768) && negb (8 * n =? 1024)) =
  true /\ 8 * n / 8 = n.
Proof. intros [-> | [-> | ->]]; split; reflexivity. Qed.

Lemma name_guard (n : nat) :
  8 <= n <= 12 -> negb ((n <? 8) || (12 <? n)) = true.
Proof. intros H. bool_to_prop. lia. Qed.

Lemma dbind_assoc {A B C : Type} (c : dec A) (k1 : A -> dec B)
      (k2 : B -> dec C) (st : btok_cvc_t) :
  dbind (dbind c k1) k2 st = dbind c (fun x => dbind (k1 x) k2) st.
Proof. unfold dbind. destruct (c st) as [st' [a|]]; reflexivity. Qed.

Ltac dec_simpl :=
  rewrite ?dbind_assoc;
  cbn [dbind dlift dmodify dguard dret derDecStep option_map fst snd
       c_rest c_pos
       set_authority set_holder set_pubkey set_pubkey_len set_hat_eid
       set_hat_esign set_from set_until set_sig set_sig_len cvc_zero
       authority holder pubkey pubkey_len hat_eid hat_esign from until
       sig sig_len].

Ltac side :=
  first [ reflexivity
        | assumption
        | cbn [length]; rewrite ?length_app; cbn [length]; lia ].

Lemma derStartsWith_from (val rest : list octet) :
  derStartsWith (derEnc 0x5F25 val ++ rest) 0x7F4C = false.
Proof. reflexivity. Qed.

Ltac dec_step :=
  first
    [ rewrite derTSEQDecStart_derEnc by side
    | rewrite advance_header
    | rewrite advance_app
    | rewrite advance_0
    | rewrite derTSIZEDec2_version
    | rewrite derTPSTRDec_derEnc by side
    | rewrite derOIDDec2_code by reflexivity
    | rewrite derBITDec_derEnc by side
    | rewrite derDec3_exact by side
    | rewrite derStartsWith_derEnc by reflexivity
    | rewrite derStartsWith_from
    | rewrite name_guard by assumption
    | rewrite derTSEQDecStop_at
        by (cbn [a_pos a_tag a_len];
            repeat rewrite ?length_app, ?derEnc_length; cbn [length]; lia) ];
  dec_simpl; rewrite <- ?app_assoc; cbn [app].

(** The part of the body that [BodyDec_head] reads. *)
Definition head_content (cvc : btok_cvc_t) : list octet :=
  derEnc 0x5F29 [x00] ++ derEnc 0x42 (authority cvc) ++
  pubkey_code cvc ++ derEnc 0x5F20 (holder cvc).

Lemma head_content_length (cvc : btok_cvc_t) :
  length (authority cvc) <= 12 -> length (holder cvc) <= 12 ->
  pubkey_len cvc <= 128 ->
  length (head_content cvc) <= 200.
Proof.
  intros Ha Hh Hk. unfold head_content, pubkey_code.
  assert (Lo1 : length (oid_code oid_bign_pubkey) = 12) by reflexivity.
  assert (Lver : length (derEnc 0x5F29 [x00]) = 4) by reflexivity.
  pose proof (length_firstn (pubkey_len cvc) (pubkey cvc)) as Lk.
  pose proof (@derEnc_le 0x42 (authority cvc) 12 ltac:(lia) ltac:(lia)).
  pose proof (@derEnc_le 0x5F20 (holder cvc) 12 ltac:(lia) ltac:(lia)).
  pose proof (@derEnc_le 0x03 (x00 :: firstn (pubkey_len cvc) (pubkey cvc)) 129
                ltac:(cbn [length]; lia) ltac:(lia)).
  pose proof (@derEnc_le 0x7F49
                (oid_code oid_bign_pubkey ++
                 derEnc 0x03 (x00 :: firstn (pubkey_len cvc) (pubkey cvc)))
                148 ltac:(rewrite length_app; lia) ltac:(lia)).
  rewrite !length_app. lia.
Qed.

Lemma BodyDec_head_code (cvc st : btok_cvc_t) (tail trailing : list octet) :
  names_ok cvc = true ->
  pubkey_len cvc = 64 \/ pubkey_len cvc = 96 \/ pubkey_len cvc = 128 ->
  length (pubkey cvc) = 128 ->
  length tail <= 200 ->
  BodyDec_head (mk_cursor 0 (derEnc 0x7F4E (head_content cvc ++ tail) ++ trailing))
               st =
  (set_holder
     (set_pubkey
        (set_pubkey_len (set_authority st (authority cvc)) (pubkey_len cvc))
        (Mem.memWrite (pubkey st) (firstn (pubkey_len cvc) (pubkey cvc))))
     (holder cvc),
   Some (mk_anchor 0 0x7F4E (length (head_content cvc ++ tail)),
         mk_cursor (length (derTEnc 0x7F4E) +
                    length (derLEnc (length (head_content cvc ++ tail))) +
                    length (head_content cvc))
                   (tail ++ trailing))).
Proof.
  intros Hn Hlen Lpub Htail.
  apply names_ok_inv in Hn. destruct Hn as ((Hla & Hpa) & (Hlh & Hph)).
  pose proof (@head_content_length cvc ltac:(lia) ltac:(lia) ltac:(lia)) as Lhead.
  assert (Lkey : length (firstn (pubkey_len cvc) (pubkey cvc)) = pubkey_len cvc)
    by (rewrite length_firstn; lia).
  assert (Lo1 : length (oid_code oid_bign_pubkey) = 12) by reflexivity.
  pose proof (@derEnc_le 0x03 (x00 :: firstn (pubkey_len cvc) (pubkey cvc)) 129
                ltac:(cbn [length]; lia) ltac:(lia)) as Bbit.
  destruct (bit_guard Hlen) as (Gbit & Gdiv).
  unfold BodyDec_head.
  rewrite derTSEQDecStart_derEnc by side.
  set (n := length (head_content cvc ++ tail)).
  unfold head_content, pubkey_code. dec_simpl.
  repeat dec_step. rewrite Lkey, Gbit, Gdiv. repeat dec_step.
  unfold dret. apply f_equal2; [reflexivity |]. do 3 f_equal.
  subst n. unfold head_content, pubkey_code. rewrite <- ?app_assoc.
  repeat rewrite ?length_app, ?derEnc_length; cbn [length]; lia.
Qed.

Lemma set_hat_eid_same (st : btok_cvc_t) : set_hat_eid st (hat_eid st) = st.
Proof. now destruct st. Qed.

Lemma set_hat_esign_same (st : btok_cvc_t) :
  set_hat_esign st (hat_esign st) = st.
Proof. now destruct st. Qed.

Lemma BodyDec_CertHAT_code (cvc st : btok_cvc_t) (pos : nat)
      (rest : list octet) :
  length (hat_eid cvc) = 5 -> hat_eid st = repeat x00 5 ->
  derStartsWith rest 0x7F4C = false ->
  BodyDec_CertHAT (mk_cursor pos (hat_eid_code cvc ++ rest)) st =
  (set_hat_eid st (hat_eid cvc),
   Some (mk_cursor (pos + length (hat_eid_code cvc)) rest)).
Proof.
  intros Leid Hst Hrest. unfold BodyDec_CertHAT, hat_eid_code.
  assert (Leid5 : length (firstn 5 (hat_eid cvc)) = 5)
    by (rewrite length_firstn; lia).
  assert (Lo2 : length (oid_code oid_eid_access) = 12) by reflexivity.
  pose proof (@derEnc_le 0x04 (firstn 5 (hat_eid cvc)) 5 ltac:(lia) ltac:(lia))
    as Be1.
  destruct (Mem.memIsZero (hat_eid cvc) 5) eqn:Zeid; dec_simpl; cbn [app].
  - rewrite Hrest. unfold dret. rewrite Nat.add_0_r.
    rewrite (memIsZero_repeat _ Zeid Leid), <- Hst.
    now rewrite set_hat_eid_same.
  - unfold derOCTDec2, derTOCTDec2. repeat dec_step.
    rewrite Hst, memWrite_full by (now rewrite repeat_length).
    rewrite firstn_all2 by lia.
    unfold derDecStep, dlift, advance. cbn [option_map c_pos c_rest skipn].
    apply f_equal2; [reflexivity |]. do 2 f_equal.
    repeat rewrite ?length_app, ?derEnc_length; cbn [length]; lia.
Qed.

Lemma BodyDec_CVExt_code (cvc st : btok_cvc_t) (pos : nat)
      (rest : list octet) :
  length (hat_esign cvc) = 2 -> hat_esign st = repeat x00 2 ->
  derStartsWith rest 0x65 = false ->
  BodyDec_CVExt (mk_cursor pos (hat_esign_code cvc ++ rest)) st =
  (set_hat_esign st (hat_esign cvc),
   Some (mk_cursor (pos + length (hat_esign_code cvc)) rest)).
Proof.
  intros Les Hst Hrest. unfold BodyDec_CVExt, hat_esign_code.
  assert (Les2 : length (firstn 2 (hat_esign cvc)) = 2)
    by (rewrite length_firstn; lia).
  assert (Lo3 : length (oid_code oid_esign_access) = 12) by reflexivity.
  pose proof (@derEnc_le 0x04 (firstn 2 (hat_esign cvc)) 2 ltac:(lia) ltac:(lia))
    as Bs1.
  pose proof (@derEnc_le 0x73
                (oid_code oid_esign_access ++
                 derEnc 0x04 (firstn 2 (hat_esign cvc)))
                21 ltac:(rewrite length_app; lia) ltac:(lia)) as Bs2.
  destruct (Mem.memIsZero (hat_esign cvc) 2) eqn:Zes; dec_simpl; cbn [app].
  - rewrite Hrest. unfold dret. rewrite Nat.add_0_r.
    rewrite (memIsZero_repeat _ Zes Les), <- Hst.
    now rewrite set_hat_esign_same.
  - unfold derOCTDec2, derTOCTDec2. repeat dec_step.
    rewrite Hst, memWrite_full by (now rewrite repeat_length).
    rewrite firstn_all2 by lia.
    unfold derDecStep, dlift, advance. cbn [option_map c_pos c_rest skipn].
    apply f_equal2; [reflexivity |]. do 2 f_equal.
    repeat rewrite ?length_app, ?derEnc_length; cbn [length]; lia.
Qed.

(** The part of the body after the holder. *)
Definition tail_content (cvc : btok_cvc_t) : list octet :=
  hat_eid_code cvc ++
  derEnc 0x5F25 (firstn 6 (from cvc)) ++
  derEnc 0x5F24 (firstn 6 (until cvc)) ++
  hat_esign_code cvc.

Lemma body_content_split (cvc : btok_cvc_t) :
  body_content cvc = head_content cvc ++ tail_content cvc.
Proof.
  unfold body_content, head_content, tail_content.
  now rewrite <- !app_assoc.
Qed.

Lemma hat_eid_code_length (cvc : btok_cvc_t) :
  length (hat_eid_code cvc) <= 31.
Proof.
  unfold hat_eid_code. destruct (Mem.memIsZero _ _); cbn [length]; [lia |].
  assert (Lo2 : length (oid_code oid_eid_access) = 12) by reflexivity.
  pose proof (length_firstn 5 (hat_eid cvc)).
  pose proof (@derEnc_le 0x04 (firstn 5 (hat_eid cvc)) 5 ltac:(lia) ltac:(lia)).
  apply (@derEnc_le 0x7F4C _ 24); [rewrite length_app |]; lia.
Qed.

Lemma hat_esign_code_length (cvc : btok_cvc_t) :
  length (hat_esign_code cvc) <= 35.
Proof.
  unfold hat_esign_code. destruct (Mem.memIsZero _ _); cbn [length]; [lia |].
  assert (Lo3 : length (oid_code oid_esign_access) = 12) by reflexivity.
  pose proof (length_firstn 2 (hat_esign cvc)).
  pose proof (@derEnc_le 0x04 (firstn 2 (hat_esign cvc)) 2 ltac:(lia) ltac:(lia)).
  apply (@derEnc_le 0x65 _ 28); [| lia].
  apply (@derEnc_le 0x73 _ 21); [rewrite length_app |]; lia.
Qed.

Lemma tail_content_length (cvc : btok_cvc_t) :
  length (tail_content cvc) <= 200.
Proof.
  unfold tail_content. rewrite !length_app.
  pose proof (hat_eid_code_length cvc). pose proof (hat_esign_code_length cvc).
  pose proof (length_firstn 6 (from cvc)).
  pose proof (length_firstn 6 (until cvc)).
  pose proof (@derEnc_le 0x5F25 (firstn 6 (from cvc)) 6 ltac:(lia) ltac:(lia)).
  pose proof (@derEnc_le 0x5F24 (firstn 6 (until cvc)) 6 ltac:(lia) ltac:(lia)).
  lia.
Qed.

Lemma dbind_step {A B : Type} (c : dec A) (k : A -> dec B)
      (st st' : btok_cvc_t) (a : A) :
  c st = (st', Some a) -> dbind c k st = k a st'.
Proof. intros H. unfold dbind. now rewrite H. Qed.

(** Decoding the code of a body gives back the fields of the body and
    consumes exactly the code, whatever follows it (as long as what
    follows is not taken for a CVExt block). *)
Lemma btokCVCBodyDec_code (cvc st : btok_cvc_t) (trailing : list octet) :
  names_ok cvc = true ->
  pubkey_len cvc = 64 \/ pubkey_len cvc = 96 \/ pubkey_len cvc = 128 ->
  body_layout cvc = true ->
  derStartsWith trailing 0x65 = false ->
  btokCVCBodyDec (body_code cvc ++ trailing) st =
  (decoded cvc, Some (length (body_code cvc))).
Proof.
  intros Hn Hlen Hlay Htr.
  apply body_layout_inv in Hlay.
  destruct Hlay as (Lpub & Leid & Lesign & Lfrom & Luntil).
  pose proof (tail_content_length cvc) as Ltail.
  assert (Lf6 : length (firstn 6 (from cvc)) = 6)
    by (rewrite length_firstn; lia).
  assert (Lu6 : length (firstn 6 (until cvc)) = 6)
    by (rewrite length_firstn; lia).
  assert (Lkey : length (firstn (pubkey_len cvc) (pubkey cvc)) = pubkey_len cvc)
    by (rewrite length_firstn; lia).
  unfold btokCVCBodyDec, body_code. rewrite body_content_split.
  dec_simpl.
  rewrite (@dbind_step _ _ _ _ _ _ _
             (@BodyDec_head_code cvc cvc_zero (tail_content cvc)
                                 trailing Hn Hlen Lpub Ltail)).
  set (n := length (head_content cvc ++ tail_content cvc)).
  unfold tail_content. rewrite <- ?app_assoc.
  erewrite dbind_step
    by (apply BodyDec_CertHAT_code;
        assumption || reflexivity || apply derStartsWith_from).
  dec_simpl. unfold derTOCTDec2. repeat dec_step.
  erewrite dbind_step
    by (apply BodyDec_CVExt_code; assumption || reflexivity).
  dec_simpl.
  rewrite derTSEQDecStop_at.
  2: { cbn [a_pos a_tag a_len]. subst n. unfold tail_content.
       repeat rewrite ?length_app, ?derEnc_length; cbn [length]; lia. }
  dec_simpl. unfold dret, decoded. subst n. unfold tail_content.
  rewrite memWrite_zeros by (unfold sizeof_pubkey; lia).
  rewrite !memWrite_full by (rewrite repeat_length; lia).
  rewrite (@firstn_all2 _ 6 (from cvc)), (@firstn_all2 _ 6 (until cvc)) by lia.
  rewrite Lkey.
  apply f_equal2; [reflexivity |]. f_equal.
  unfold advance. cbn [c_pos].
  repeat rewrite ?length_app, ?derEnc_length; cbn [length]; lia.
Qed.

End BodyDec.

(** ** Signing and wrapping *)

Section Wrap.

Context {collab : Collab}.

(** [load_and_hash] without its assertion. *)
Definition load_pure (curve : string) (hashed : err_t * list octet)
           (hash_id : string)
  : err_t * option (bign_params * list octet * list octet) :=
  let (code, params) := bignStdParams curve in
  if negb (is_ok code) then (code, None)
  else
    let (code, hash) := hashed in
    if negb (is_ok code) then (code, None)
    else
      let (code, oid_der) := bignOidToDER hash_id in
      if negb (is_ok code) then (code, None)
      else (ERR_OK, Some (params, oid_der, hash)).

Lemma load_and_hash_pure (curve : string) (hashed : err_t * list octet)
      (hash_id : string) :
  length (snd (bignOidToDER hash_id)) = 11 ->
  load_and_hash curve hashed hash_id = Ret (load_pure curve hashed hash_id).
Proof.
  intros H. unfold load_and_hash, load_pure.
  destruct (bignStdParams curve) as [c1 params].
  destruct (negb (is_ok c1)); [reflexivity |].
  destruct hashed as [c2 hash]. destruct (negb (is_ok c2)); [reflexivity |].
  destruct (bignOidToDER hash_id) as [c3 der]. cbn [snd] in H.
  destruct (negb (is_ok c3)); [reflexivity |].
  rewrite H. reflexivity.
Qed.

(** The three branches of [btokSign] and [btokVerify], selected by the
    length of the private key. *)
Definition level_load (privkey_len : nat) (buf : list octet)
  : err_t * option (bign_params * list octet * list octet) :=
  if privkey_len =? 32 then
    load_pure "1.2.112.0.2.0.34.101.45.3.1" (beltHash buf)
              "1.2.112.0.2.0.34.101.31.81"
  else if privkey_len =? 48 then
    load_pure "1.2.112.0.2.0.34.101.45.3.2" (bashHash 192 buf)
              "1.2.112.0.2.0.34.101.77.12"
  else
    load_pure "1.2.112.0.2.0.34.101.45.3.3" (bashHash 256 buf)
              "1.2.112.0.2.0.34.101.77.13".

(** [btokSign] without its assertions. *)
Definition sign_pure (buf privkey : list octet)
  : err_t * option (list octet) :=
  let privkey_len := length privkey in
  if negb (blobCreate (sizeof_bign_params + 16 + 2 * privkey_len))
  then (ERR_OUTOFMEMORY, None)
  else
    match level_load privkey_len buf with
    | (_, Some (params, oid_der, hash)) =>
        let t := if rngIsValid then rngStepR privkey_len else [] in
        let (code, s) := bignSign2 params oid_der hash privkey t in
        (code, Some s)
    | (code, None) => (code, None)
    end.

Definition key_len_ok (n : nat) : Prop := n = 32 \/ n = 48 \/ n = 64.

Lemma btokSign_pure (buf privkey : list octet) :
  key_len_ok (length privkey) ->
  btokSign buf privkey = Ret (sign_pure buf privkey).
Proof.
  intros Hl. unfold btokSign, sign_pure, level_load.
  replace ((length privkey =? 32) || (length privkey =? 48) ||
           (length privkey =? 64)) with true
    by (destruct Hl as [-> | [-> | ->]]; reflexivity).
  cbn [ASSERT bind].
  destruct (negb (blobCreate _)); [reflexivity |].
  rewrite !load_and_hash_pure by reflexivity.
  destruct (length privkey =? 32); [| destruct (length privkey =? 48)];
    cbn [bind];
    match goal with
    | |- context [load_pure ?c ?h ?i] =>
        destruct (load_pure c h i) as [code [[[params der] hash] |]]
    end; try reflexivity;
    now destruct (bignSign2 _ _ _ _ _).
Qed.

(** [btokVerify] without its assertions, for a key of twice the length of
    a private key. *)
Definition verify_pure (buf sig pubkey : list octet) (privkey_len : nat)
  : err_t :=
  let pubkey_len := 2 * privkey_len in
  if negb (blobCreate (sizeof_bign_params + 16 + pubkey_len / 2))
  then ERR_OUTOFMEMORY
  else
    match level_load privkey_len buf with
    | (_, Some (params, oid_der, hash)) =>
        let code := bignValPubkey params (firstn pubkey_len pubkey) in
        if negb (is_ok code) then code
        else bignVerify params oid_der hash
                        (firstn (pubkey_len - pubkey_len / 4) sig)
                        (firstn pubkey_len pubkey)
    | (code, None) => code
    end.

Lemma btokVerify_pure (buf sig pubkey : list octet) (p : nat) :
  key_len_ok p ->
  btokVerify buf sig pubkey (2 * p) = Ret (verify_pure buf sig pubkey p).
Proof.
  intros Hl. unfold btokVerify, verify_pure, level_load.
  rewrite !load_and_hash_pure by reflexivity.
  destruct Hl as [-> | [-> | ->]]; cbn [Nat.eqb Nat.mul Nat.add orb ASSERT bind];
    (destruct (negb (blobCreate _)); [reflexivity |]);
    match goal with
    | |- context [load_pure ?c ?h ?i] =>
        destruct (load_pure c h i) as [code [[[params der] hash] |]]
    end; cbn [bind]; try reflexivity;
    now destruct (negb (is_ok _)).
Qed.

(** The DER code of a certificate: the body and the signature. *)
Definition cert_code (c : btok_cvc_t) : list octet :=
  derEnc 0x7F21 (body_code c ++ derEnc 0x5F37 (firstn (sig_len c) (sig c))).

(** [btokCVCWrap] without the assertions, which never fail: the codes it
    returns, what it writes and how it leaves the record. *)
Definition wrap_pure (cert cert_len : bool) (cvc : btok_cvc_t)
           (privkey : list octet) : wrap_result :=
  let p := length privkey in
  let buf0 := if cert then Some [] else None in
  if negb (p =? 32) && negb (p =? 48) && negb (p =? 64)
  then mk_wrap ERR_BAD_INPUT buf0 None cvc []
  else
    let (code, cvc1) := Wrap_build_pubkey cvc privkey in
    if negb (is_ok code) then mk_wrap code buf0 None cvc1 []
    else if negb (is_ok (check_code cvc1))
    then mk_wrap (check_code cvc1) buf0 None cvc1 []
    else if cert then
      let (code, written) := sign_pure (body_code cvc1) privkey in
      let cvc2 :=
        match written with
        | Some s => set_sig cvc1 (Mem.memWrite (sig cvc1) s)
        | None => cvc1
        end in
      if negb (is_ok code)
      then mk_wrap code (Some ((derTEnc 0x7F21 ++ [x00]) ++ body_code cvc1))
                   None cvc2 [EvSign (body_code cvc1) privkey]
      else
        let cvcF := set_sig_len cvc2 (p + p / 2) in
        mk_wrap ERR_OK (Some (cert_code cvcF))
                (if cert_len then Some (length (cert_code cvcF)) else None)
                cvcF [EvSign (body_code cvc1) privkey]
    else
      let cvcF := set_sig_len cvc1 (p + p / 2) in
      mk_wrap ERR_OK None
              (if cert_len then Some (length (cert_code cvcF)) else None)
              cvcF [].

Ltac enc_step :=
  first
    [ rewrite derEncStep_emit
    | rewrite derTSEQEncStart_ok by reflexivity
    | erewrite derEncStep_stop
        by (rewrite <- ?app_assoc; cbn [app]; reflexivity) ];
  cbn [bind]; rewrite ?e_count_vstate.

Lemma btokCVCWrap_pure (cert cert_len : bool) (cvc : btok_cvc_t)
      (privkey : list octet) :
  btokCVCWrap cert cert_len cvc privkey =
  Ret (wrap_pure cert cert_len cvc privkey).
Proof.
  unfold btokCVCWrap, wrap_pure.
  destruct (negb (length privkey =? 32) && negb (length privkey =? 48) &&
            negb (length privkey =? 64)) eqn:Hlen; [reflexivity |].
  assert (Hkey : key_len_ok (length privkey))
    by (unfold key_len_ok; bool_to_prop; lia).
  destruct (Wrap_build_pubkey cvc privkey) as [code cvc1].
  destruct (negb (is_ok code)); [reflexivity |].
  rewrite btokCVCCheck_code. cbn [bind].
  destruct (is_ok (check_code cvc1)) eqn:Hok; cbn [negb]; [| reflexivity].
  assert (Hv : btokCVCInfoSeemsValid cvc1 = Ret true).
  { apply check_ok_seems_valid. rewrite btokCVCCheck_code.
    now apply is_ok_true in Hok as ->. }
  change (mk_enc (if cert then Some [] else None) 0) with (vstate cert []).
  rewrite e_count_vstate. repeat enc_step.
  rewrite (@btokCVCBodyEnc_code cert cvc1 Hv). cbn [bind].
  unfold Wrap_sign.
  destruct cert.
  - rewrite btokSign_pure by assumption. rewrite bind_Ret.
    destruct (sign_pure (body_code cvc1) privkey) as [scode written].
    rewrite bind_Ret. cbv beta iota.
    cbn [vstate e_buf e_count].
    destruct (is_ok scode) eqn:Hs; cbn [negb].
    + rewrite <- length_app.
      match goal with
      | |- context [mk_enc (Some ?w) (length ?w)] =>
          change (mk_enc (Some w) (length w)) with (vstate true w)
      end.
      change (derTOCTEnc 0x5F37 ?v ?n) with (Some (derEnc 0x5F37 (firstn n v))).
      repeat enc_step. cbn [vstate e_buf e_count app].
      unfold cert_code. now destruct written.
    + cbn [app]. reflexivity.
  - rewrite bind_Ret. cbv beta iota.
    cbn [negb is_ok err_eqb vstate e_buf e_count].
    rewrite <- length_app.
    match goal with
    | |- context [mk_enc None (length ?w)] =>
        change (mk_enc None (length w)) with (vstate false w)
    end.
    change (derTOCTEnc 0x5F37 ?v ?n) with (Some (derEnc 0x5F37 (firstn n v))).
    repeat enc_step. cbn [vstate e_buf e_count app].
    reflexivity.
Qed.

End Wrap.

(** ** Assertions *)

Lemma btokCVCDateLeq_assert (left right : list octet) :
  btokCVCDateLeq left right = AssertFailed <->
  btokCVCDateIsValid left && btokCVCDateIsValid right = false.
Proof.
  unfold btokCVCDateLeq.
  destruct (btokCVCDateIsValid left), (btokCVCDateIsValid right); cbn;
    split; intros H; (reflexivity || discriminate).
Qed.

(** C10: the assertions of the date comparator and of the body encoder are
    never violated.  The comparator stops at an assertion exactly when one of
    its arguments is not a valid date; none of [btokCVCInfoSeemsValid],
    [btokCVCCheck], [btokCVCCheck2] ever does, so at each of their calls both
    dates have been validated.  A record that passes [btokCVCCheck] seems
    valid, which is what the body encoder asserts, and [btokCVCWrap], which
    checks before it encodes, never stops at an assertion. *)
Theorem C10_assertions_hold :
  (forall left right : list octet,
      btokCVCDateLeq left right = AssertFailed <->
      btokCVCDateIsValid left && btokCVCDateIsValid right = false) /\
  (forall cvc : btok_cvc_t, exists b, btokCVCInfoSeemsValid cvc = Ret b) /\
  (forall (collab : Collab) (cvc : btok_cvc_t),
      exists e, btokCVCCheck cvc = Ret e) /\
  (forall (collab : Collab) (cvc cvca : btok_cvc_t),
      exists e, btokCVCCheck2 cvc cvca = Ret e) /\
  (forall (collab : Collab) (cvc : btok_cvc_t),
      btokCVCCheck cvc = Ret ERR_OK -> btokCVCInfoSeemsValid cvc = Ret true) /\
  (forall (body : bool) (cvc : btok_cvc_t),
      btokCVCInfoSeemsValid cvc = Ret true ->
      exists r, btokCVCBodyEnc body cvc = Ret r) /\
  (forall (collab : Collab) (cert cert_len : bool) (cvc : btok_cvc_t)
          (privkey : list octet),
      exists r, btokCVCWrap cert cert_len cvc privkey = Ret r).
Proof.
  split; [exact btokCVCDateLeq_assert |].
  split; [intros cvc; eexists; apply btokCVCInfoSeemsValid_code |].
  split; [intros collab cvc; eexists; apply btokCVCCheck_code |].
  split; [intros collab cvc cvca; eexists; apply btokCVCCheck2_code |].
  split; [intros collab cvc; apply check_ok_seems_valid |].
  split; [intros body cvc H; eexists; now apply btokCVCBodyEnc_code |].
  intros collab cert cert_len cvc privkey. eexists. apply btokCVCWrap_pure.
Qed.

(** ** Dry runs of wrap *)

Section DryRun.

Context {collab : Collab}.

Lemma is_ok_false (e : err_t) : is_ok e = false <-> e <> ERR_OK.
Proof.
  rewrite <- is_ok_true. destruct (is_ok e); split; congruence.
Qed.

Lemma btokPubkeyCalc_ok (privkey : list octet) (written : option (list octet)) :
  btokPubkeyCalc privkey = (ERR_OK, written) ->
  exists pub, written = Some pub.
Proof.
  unfold btokPubkeyCalc.
  destruct (negb (length privkey =? 32) && negb (length privkey =? 48) &&
            negb (length privkey =? 64)); [discriminate |].
  destruct (bignStdParams _) as [c params].
  destruct (is_ok c) eqn:Hc; cbn [negb].
  - destruct (bignCalcPubkey params privkey) as [c' pub].
    intros H. injection H as _ <-. now exists pub.
  - intros H. injection H as -> _. discriminate.
Qed.

(** What the block "build the public key" does when it succeeds. *)
Lemma Wrap_build_pubkey_ok (cvc cvc1 : btok_cvc_t) (privkey : list octet)
      (code : err_t) :
  Wrap_build_pubkey cvc privkey = (code, cvc1) -> is_ok code = true ->
  code = ERR_OK /\
  (pubkey_len cvc <> 0 -> cvc1 = cvc) /\
  (pubkey_len cvc = 0 ->
   exists pub,
     btokPubkeyCalc privkey = (ERR_OK, Some pub) /\
     cvc1 = set_pubkey
              (set_pubkey_len cvc (2 * length privkey))
              (Mem.memSetZeroFrom (Mem.memWrite (pubkey cvc) pub)
                                  (2 * length privkey) sizeof_pubkey)).
Proof.
  unfold Wrap_build_pubkey. intros H Hok.
  destruct (pubkey_len cvc =? 0) eqn:Hz; bool_to_prop.
  - destruct (btokPubkeyCalc privkey) as [c written] eqn:Hcalc.
    destruct (is_ok c) eqn:Hc; cbn [negb] in H.
    + injection H as <- <-. split; [reflexivity |].
      split; [intros Hne; contradiction |]. intros _.
      apply is_ok_true in Hc. subst c.
      destruct (btokPubkeyCalc_ok _ Hcalc) as (pub & ->).
      exists pub. split; [reflexivity |]. reflexivity.
    + injection H as <- _. congruence.
  - injection H as <- <-. split; [reflexivity |].
    split; [reflexivity | intros Hc; contradiction].
Qed.

(** The length of the signature octets of a certificate. *)
Definition wrap_sig_len (privkey : list octet) : nat :=
  length privkey + length privkey / 2.

Lemma wrap_dry_inv (cert_len : bool) (cvc : btok_cvc_t) (privkey : list octet) :
  w_code (wrap_pure false cert_len cvc privkey) = ERR_OK ->
  exists cvc1,
    key_len_ok (length privkey) /\
    Wrap_build_pubkey cvc privkey = (ERR_OK, cvc1) /\
    check_code cvc1 = ERR_OK /\
    wrap_pure false cert_len cvc privkey =
    mk_wrap ERR_OK None
            (if cert_len
             then Some (length (cert_code
                                  (set_sig_len cvc1 (wrap_sig_len privkey))))
             else None)
            (set_sig_len cvc1 (wrap_sig_len privkey)) [].
Proof.
  unfold wrap_pure, wrap_sig_len.
  destruct (negb (length privkey =? 32) && negb (length privkey =? 48) &&
            negb (length privkey =? 64)) eqn:Hlen; [discriminate |].
  assert (Hkey : key_len_ok (length privkey))
    by (unfold key_len_ok; bool_to_prop; lia).
  destruct (Wrap_build_pubkey cvc privkey) as [code cvc1] eqn:Hb.
  destruct (is_ok code) eqn:Hc; cbn [negb w_code].
  - destruct (is_ok (check_code cvc1)) eqn:Hk; cbn [negb w_code].
    + intros _. exists cvc1. apply is_ok_true in Hk.
      destruct (Wrap_build_pubkey_ok _ _ Hb Hc) as (-> & _). auto.
    + intros H. apply is_ok_false in Hk. contradiction.
  - intros H. apply is_ok_false in Hc. contradiction.
Qed.

Lemma wrap_real_inv (cert_len : bool) (cvc : btok_cvc_t) (privkey : list octet) :
  w_code (wrap_pure true cert_len cvc privkey) = ERR_OK ->
  exists cvc1 written,
    key_len_ok (length privkey) /\
    Wrap_build_pubkey cvc privkey = (ERR_OK, cvc1) /\
    check_code cvc1 = ERR_OK /\
    sign_pure (body_code cvc1) privkey = (ERR_OK, written) /\
    let cvcF :=
      set_sig_len
        match written with
        | Some s => set_sig cvc1 (Mem.memWrite (sig cvc1) s)
        | None => cvc1
        end (wrap_sig_len privkey) in
    wrap_pure true cert_len cvc privkey =
    mk_wrap ERR_OK (Some (cert_code cvcF))
            (if cert_len then Some (length (cert_code cvcF)) else None)
            cvcF [EvSign (body_code cvc1) privkey].
Proof.
  unfold wrap_pure, wrap_sig_len.
  destruct (negb (length privkey =? 32) && negb (length privkey =? 48) &&
            negb (length privkey =? 64)) eqn:Hlen; [discriminate |].
  assert (Hkey : key_len_ok (length privkey))
    by (unfold key_len_ok; bool_to_prop; lia).
  destruct (Wrap_build_pubkey cvc privkey) as [code cvc1] eqn:Hb.
  destruct (is_ok code) eqn:Hc; cbn [negb w_code].
  - destruct (is_ok (check_code cvc1)) eqn:Hk; cbn [negb w_code].
    + destruct (sign_pure (body_code cvc1) privkey) as [scode written] eqn:Hs.
      destruct (is_ok scode) eqn:Hsc; cbn [negb w_code].
      * intros _. exists cvc1, written.
        apply is_ok_true in Hk, Hsc. subst scode.
        destruct (Wrap_build_pubkey_ok _ _ Hb Hc) as (-> & _). auto.
      * intros H. apply is_ok_false in Hsc. contradiction.
    + intros H. apply is_ok_false in Hk. contradiction.
  - intros H. apply is_ok_false in Hc. contradiction.
Qed.

End DryRun.

Section DryRunClaims.

Context {collab : Collab}.

Lemma body_code_set_sig_len (c : btok_cvc_t) (n : nat) :
  body_code (set_sig_len c n) = body_code c.
Proof. reflexivity. Qed.

Lemma body_code_set_sig (c : btok_cvc_t) (s : list octet) :
  body_code (set_sig c s) = body_code c.
Proof. reflexivity. Qed.

Lemma memWrite_length (buf src : list octet) :
  length buf <= length (Mem.memWrite buf src).
Proof. unfold Mem.memWrite. rewrite length_app, length_skipn. lia. Qed.

Lemma cert_code_length (c c' : btok_cvc_t) :
  body_code c = body_code c' ->
  length (firstn (sig_len c) (sig c)) = length (firstn (sig_len c') (sig c')) ->
  length (cert_code c) = length (cert_code c').
Proof.
  intros Hb Hs. unfold cert_code.
  rewrite !derEnc_length, !length_app, !derEnc_length, Hb, Hs. reflexivity.
Qed.

Lemma key_len_sig_le (privkey : list octet) :
  key_len_ok (length privkey) -> wrap_sig_len privkey <= sizeof_sig.
Proof.
  unfold wrap_sig_len, sizeof_sig.
  intros [-> | [-> | ->]]; cbn; lia.
Qed.

(** C9: a dry run of wrap that returns [ERR_OK] calls no signer and leaves
    [sig] as it was; it sets [sig_len] to [privkey_len + privkey_len / 2];
    if [pubkey_len] was 0 it fills [pubkey] with the derived key, sets
    [pubkey_len] to twice the length of the private key and zeroes the
    unused tail of [pubkey]; the other fields stay; and a real call that
    returns [ERR_OK] leaves the record the same but for [sig]. *)
Theorem C9_dry_run_record (cert_len : bool) (cvc : btok_cvc_t)
        (privkey : list octet) (r : wrap_result) :
  btokCVCWrap false cert_len cvc privkey = Ret r -> w_code r = ERR_OK ->
  w_trace r = [] /\ sig (w_cvc r) = sig cvc /\
  sig_len (w_cvc r) = length privkey + length privkey / 2 /\
  authority (w_cvc r) = authority cvc /\ holder (w_cvc r) = holder cvc /\
  hat_eid (w_cvc r) = hat_eid cvc /\ hat_esign (w_cvc r) = hat_esign cvc /\
  from (w_cvc r) = from cvc /\ until (w_cvc r) = until cvc /\
  (pubkey_len cvc <> 0 ->
   pubkey (w_cvc r) = pubkey cvc /\ pubkey_len (w_cvc r) = pubkey_len cvc) /\
  (pubkey_len cvc = 0 ->
   exists pub,
     btokPubkeyCalc privkey = (ERR_OK, Some pub) /\
     pubkey_len (w_cvc r) = 2 * length privkey /\
     pubkey (w_cvc r) =
     firstn (2 * length privkey) (Mem.memWrite (pubkey cvc) pub) ++
     repeat x00 (sizeof_pubkey - 2 * length privkey) /\
     (length pub = 2 * length privkey ->
      pubkey (w_cvc r) =
      pub ++ repeat x00 (sizeof_pubkey - 2 * length privkey))) /\
  (forall (cert_len' : bool) (r' : wrap_result),
      btokCVCWrap true cert_len' cvc privkey = Ret r' -> w_code r' = ERR_OK ->
      w_cvc r' = set_sig (w_cvc r) (sig (w_cvc r'))).
Proof.
  rewrite btokCVCWrap_pure. intros H Hok. injection H as <-.
  destruct (wrap_dry_inv _ _ _ Hok) as (cvc1 & Hkey & Hb & Hchk & ->).
  cbn [w_trace w_cvc].
  destruct (Wrap_build_pubkey_ok _ _ Hb eq_refl) as (_ & Hnz & Hz).
  assert (Hfields :
            sig cvc1 = sig cvc /\ authority cvc1 = authority cvc /\
            holder cvc1 = holder cvc /\ hat_eid cvc1 = hat_eid cvc /\
            hat_esign cvc1 = hat_esign cvc /\ from cvc1 = from cvc /\
            until cvc1 = until cvc).
  { destruct (Nat.eq_dec (pubkey_len cvc) 0) as [Hq | Hq].
    - destruct (Hz Hq) as (pub & _ & ->). repeat split.
    - rewrite (Hnz Hq). repeat split. }
  destruct Hfields as (Hsig & Ha & Hh & He & Hs & Hf & Hu).
  split; [reflexivity |]. split; [exact Hsig |]. split; [reflexivity |].
  split; [exact Ha |]. split; [exact Hh |]. split; [exact He |].
  split; [exact Hs |]. split; [exact Hf |]. split; [exact Hu |].
  split; [| split].
  - intros Hq. now rewrite (Hnz Hq).
  - intros Hq. destruct (Hz Hq) as (pub & Hcalc & ->). exists pub.
    split; [exact Hcalc |]. split; [reflexivity |].
    split; [reflexivity |].
    intros Hl. cbn [set_sig_len set_pubkey pubkey].
    unfold Mem.memSetZeroFrom, Mem.memWrite. f_equal.
    rewrite <- Hl. apply firstn_length_app.
  - intros cl' r'. rewrite btokCVCWrap_pure. intros H Hok'.
    injection H as <-.
    destruct (wrap_real_inv _ _ _ Hok') as (cvc1' & written & _ & Hb' & _ & _ & ->).
    rewrite Hb in Hb'. injection Hb' as <-.
    cbn [w_cvc]. now destruct written.
Qed.

(** C4: a dry run of wrap never calls the signer, and when it returns
    [ERR_OK] the length it reports is the length of the certificate that a
    real call produces, from the same record as well as from the record as
    the dry run left it. *)
Theorem C4_dry_run_length :
  (forall (cert_len : bool) (cvc : btok_cvc_t) (privkey : list octet)
          (r : wrap_result),
      btokCVCWrap false cert_len cvc privkey = Ret r ->
      w_trace r = [] /\ w_cert r = None) /\
  (forall (cvc : btok_cvc_t) (privkey : list octet) (r : wrap_result),
      length (sig cvc) = sizeof_sig ->
      btokCVCWrap false true cvc privkey = Ret r -> w_code r = ERR_OK ->
      exists n,
        w_cert_len r = Some n /\
        (forall r' : wrap_result,
            btokCVCWrap true true cvc privkey = Ret r' -> w_code r' = ERR_OK ->
            w_cert_len r' = Some n /\
            exists c, w_cert r' = Some c /\ length c = n) /\
        (forall r' : wrap_result,
            btokCVCWrap true true (w_cvc r) privkey = Ret r' ->
            w_code r' = ERR_OK ->
            w_cert_len r' = Some n /\
            exists c, w_cert r' = Some c /\ length c = n)).
Proof.
  split.
  - intros cert_len cvc privkey r. rewrite btokCVCWrap_pure.
    intros H. injection H as <-. unfold wrap_pure.
    destruct (negb (length privkey =? 32) && negb (length privkey =? 48) &&
              negb (length privkey =? 64)); [now split |].
    destruct (Wrap_build_pubkey cvc privkey) as [code cvc1].
    destruct (negb (is_ok code)); [now split |].
    destruct (negb (is_ok (check_code cvc1))); now split.
  - intros cvc privkey r Hsig. rewrite btokCVCWrap_pure.
    intros H Hok. injection H as <-.
    destruct (wrap_dry_inv _ _ _ Hok) as (cvc1 & Hkey & Hb & Hchk & ->).
    cbn [w_cert_len w_cvc]. eexists. split; [reflexivity |].
    pose proof (key_len_sig_le _ Hkey) as Hle.
    destruct (Wrap_build_pubkey_ok _ _ Hb eq_refl) as (_ & Hnz & Hz).
    assert (Hsig1 : length (sig cvc1) = sizeof_sig).
    { destruct (Nat.eq_dec (pubkey_len cvc) 0) as [Hq | Hq].
      - destruct (Hz Hq) as (pub & _ & ->). exact Hsig.
      - now rewrite (Hnz Hq). }
    assert (Hreal : forall written,
               length (cert_code
                         (set_sig_len
                            match written with
                            | Some s => set_sig cvc1 (Mem.memWrite (sig cvc1) s)
                            | None => cvc1
                            end (wrap_sig_len privkey))) =
               length (cert_code (set_sig_len cvc1 (wrap_sig_len privkey)))).
    { intros written. apply cert_code_length.
      - now destruct written.
      - cbn [set_sig_len sig_len sig]. rewrite !length_firstn.
        destruct written as [s |]; cbn [set_sig sig]; [| reflexivity].
        pose proof (memWrite_length (sig cvc1) s). lia. }
    split.
    + intros r'. rewrite btokCVCWrap_pure. intros H Hok'. injection H as <-.
      destruct (wrap_real_inv _ _ _ Hok')
        as (cvc1' & written & _ & Hb' & _ & _ & ->).
      rewrite Hb in Hb'. injection Hb' as <-.
      cbn [w_cert_len w_cert]. rewrite Hreal.
      split; [reflexivity |]. eexists. split; [reflexivity | apply Hreal].
    + intros r'. rewrite btokCVCWrap_pure. intros H Hok'. injection H as <-.
      destruct (wrap_real_inv _ _ _ Hok')
        as (cvc1' & written & _ & Hb' & _ & _ & ->).
      assert (Hlen1 : pubkey_len cvc1 <> 0).
      { apply check_code_ok in Hchk. destruct Hchk as (_ & _ & Hp).
        apply btokPubkeyVal_ok_len in Hp. lia. }
      unfold Wrap_build_pubkey in Hb'. cbn [set_sig_len pubkey_len] in Hb'.
      apply Nat.eqb_neq in Hlen1. rewrite Hlen1 in Hb'.
      injection Hb' as <-.
      cbn [w_cert_len w_cert].
      assert (Hreal' :
                length (cert_code
                          (set_sig_len
                             match written with
                             | Some s =>
                                 set_sig (set_sig_len cvc1 (wrap_sig_len privkey))
                                         (Mem.memWrite
                                            (sig (set_sig_len cvc1
                                                    (wrap_sig_len privkey))) s)
                             | None => set_sig_len cvc1 (wrap_sig_len privkey)
                             end (wrap_sig_len privkey))) =
                length (cert_code (set_sig_len cvc1 (wrap_sig_len privkey)))).
      { apply cert_code_length.
        - now destruct written.
        - cbn [set_sig_len sig_len sig]. rewrite !length_firstn.
          destruct written as [s |]; cbn [set_sig set_sig_len sig];
            [| reflexivity].
          pose proof (memWrite_length (sig cvc1) s). lia. }
      rewrite Hreal'.
      split; [reflexivity |]. eexists. split; [reflexivity | apply Hreal'].
Qed.

End DryRunClaims.

(** ** Unwrapping what wrap produced *)

Section Unwrap.

Context {collab : Collab}.

(** The record that unwrapping the certificate of [c] yields: the fields of
    [c], with the unused tails of the key and of the signature zeroed. *)
Definition unwrapped (c : btok_cvc_t) : btok_cvc_t :=
  mk_cvc (authority c) (holder c)
         (firstn (pubkey_len c) (pubkey c) ++
          repeat x00 (sizeof_pubkey - pubkey_len c))
         (pubkey_len c) (hat_eid c) (hat_esign c) (from c) (until c)
         (firstn (sig_len c) (sig c) ++ repeat x00 (sizeof_sig - sig_len c))
         (sig_len c).

(** What wrap guarantees of the record it leaves behind. *)
Record wrapped_ok (c : btok_cvc_t) : Prop := {
  wo_names : names_ok c = true;
  wo_key : pubkey_len c = 64 \/ pubkey_len c = 96 \/ pubkey_len c = 128;
  wo_layout : body_layout c = true;
  wo_sig_len : sig_len c = 48 \/ sig_len c = 72 \/ sig_len c = 96;
  wo_sig : sig_len c <= length (sig c)
}.

Lemma body_code_length (c : btok_cvc_t) :
  names_ok c = true -> pubkey_len c <= 128 ->
  length (body_code c) <= 407.
Proof.
  intros Hn Hk. apply names_ok_inv in Hn. destruct Hn as ((Ha & _) & (Hh & _)).
  unfold body_code. rewrite body_content_split.
  pose proof (@head_content_length c ltac:(lia) ltac:(lia) Hk).
  pose proof (tail_content_length c).
  apply (@derEnc_le 0x7F4E _ 400); [rewrite length_app |]; lia.
Qed.

Lemma derStartsWith_sig (val rest : list octet) :
  derStartsWith (derEnc 0x5F37 val ++ rest) 0x65 = false.
Proof. reflexivity. Qed.

Lemma sig_len_by_trial_code (val rest : list octet) :
  length val = 48 \/ length val = 72 \/ length val = 96 ->
  sig_len_by_trial (derEnc 0x5F37 val ++ rest) = (false, length val).
Proof.
  intros H. unfold sig_len_by_trial.
  destruct H as [H | [H | H]].
  - rewrite (@derDec3_exact 0x5F37 val rest 48) by (reflexivity || lia).
    now rewrite H.
  - rewrite (@derDec3_other_length 0x5F37 val rest 48)
      by (reflexivity || lia).
    rewrite (@derDec3_exact 0x5F37 val rest 72) by (reflexivity || lia).
    now rewrite H.
  - rewrite (@derDec3_other_length 0x5F37 val rest 48)
      by (reflexivity || lia).
    rewrite (@derDec3_other_length 0x5F37 val rest 72)
      by (reflexivity || lia).
    rewrite (@derDec3_exact 0x5F37 val rest 96) by (reflexivity || lia).
    now rewrite H.
Qed.

Lemma unwrap_infer (st c : btok_cvc_t) :
  wrapped_ok c ->
  btokCVCUnwrap st (cert_code c) [] =
  Ret (check_code (unwrapped c), unwrapped c).
Proof.
  intros [Hn Hk Hlay HL Hsig].
  pose proof (@body_code_length c Hn ltac:(lia)) as Lbody.
  assert (Lsig : length (firstn (sig_len c) (sig c)) = sig_len c)
    by (rewrite length_firstn; lia).
  pose proof (@derEnc_le 0x5F37 (firstn (sig_len c) (sig c)) 96
                ltac:(lia) ltac:(lia)) as Bsig.
  unfold btokCVCUnwrap, cert_code. cbn [length Nat.eqb negb andb].
  rewrite <- (app_nil_r (derEnc 0x7F21 _)).
  rewrite derTSEQDecStart_derEnc
    by (reflexivity || (rewrite length_app; lia)).
  rewrite advance_header. cbn [c_rest c_pos]. rewrite <- !app_assoc.
  rewrite btokCVCBodyDec_code by (assumption || apply derStartsWith_sig).
  rewrite advance_app. cbn [c_rest c_pos].
  rewrite sig_len_by_trial_code by (rewrite Lsig; exact HL).
  rewrite Lsig. cbn [set_sig_len sig_len sig].
  unfold derTOCTDec2.
  rewrite derDec3_exact by (reflexivity || lia).
  rewrite bind_Ret. cbn [is_ok err_eqb negb].
  rewrite advance_app.
  rewrite derTSEQDecStop_at.
  2: { cbn [a_pos a_tag a_len c_pos].
       repeat rewrite ?length_app, ?derEnc_length; cbn [length]; lia. }
  rewrite btokCVCCheck_code. cbn [bind].
  unfold decoded. cbn [sig set_sig].
  rewrite memWrite_zeros by (unfold sizeof_sig; lia). rewrite Lsig.
  reflexivity.
Qed.

Lemma key_len_quarter (p : nat) :
  key_len_ok p ->
  2 * p - 2 * p / 4 = p + p / 2 /\
  negb (2 * p =? 0) && negb (2 * p =? 64) && negb (2 * p =? 96) &&
  negb (2 * p =? 128) = false /\
  (2 * p =? 0) = false.
Proof. intros [-> | [-> | ->]]; repeat split; reflexivity. Qed.

Lemma unwrap_with_key (st c : btok_cvc_t) (key : list octet) (p : nat) :
  wrapped_ok c -> key_len_ok p -> length key = 2 * p ->
  sig_len c = p + p / 2 ->
  btokCVCUnwrap st (cert_code c) key =
  Ret (let code := verify_pure (body_code c) (sig (unwrapped c)) key p in
       if negb (is_ok code) then (code, unwrapped c)
       else (check_code (unwrapped c), unwrapped c)).
Proof.
  intros [Hn Hk Hlay HL Hsig] Hp Hpub HLp.
  pose proof (@body_code_length c Hn ltac:(lia)) as Lbody.
  assert (Lsig : length (firstn (sig_len c) (sig c)) = sig_len c)
    by (rewrite length_firstn; lia).
  pose proof (@derEnc_le 0x5F37 (firstn (sig_len c) (sig c)) 96
                ltac:(lia) ltac:(lia)) as Bsig.
  destruct (key_len_quarter Hp) as (Hq & Hin & Hnz).
  unfold btokCVCUnwrap, cert_code. rewrite Hpub, Hin, Hnz.
  rewrite <- (app_nil_r (derEnc 0x7F21 _)).
  rewrite derTSEQDecStart_derEnc
    by (reflexivity || (rewrite length_app; lia)).
  rewrite advance_header. cbn [c_rest c_pos]. rewrite <- !app_assoc.
  rewrite btokCVCBodyDec_code by (assumption || apply derStartsWith_sig).
  rewrite firstn_length_app, advance_app. cbn [c_rest c_pos].
  rewrite Hq, <- HLp. cbn [set_sig_len sig_len sig negb].
  unfold derTOCTDec2.
  rewrite derDec3_exact by (reflexivity || lia).
  rewrite btokVerify_pure by assumption. rewrite bind_Ret.
  rewrite advance_app.
  rewrite derTSEQDecStop_at.
  2: { cbn [a_pos a_tag a_len c_pos].
       repeat rewrite ?length_app, ?derEnc_length; cbn [length]; lia. }
  rewrite btokCVCCheck_code. cbn [bind].
  unfold decoded. cbn [sig set_sig].
  rewrite memWrite_zeros by (unfold sizeof_sig; lia). rewrite Lsig.
  cbv zeta.
  change (mk_cvc (authority c) (holder c)
            (firstn (pubkey_len c) (pubkey c) ++
             repeat x00 (sizeof_pubkey - pubkey_len c))
            (pubkey_len c) (hat_eid c) (hat_esign c) (from c) (until c)
            (firstn (sig_len c) (sig c) ++ repeat x00 (sizeof_sig - sig_len c))
            (sig_len c)) with (unwrapped c).
  change (firstn (sig_len c) (sig c) ++ repeat x00 (sizeof_sig - sig_len c))
    with (sig (unwrapped c)).
  now destruct (negb (is_ok (verify_pure (body_code c) (sig (unwrapped c)) key p))).
Qed.

End Unwrap.

(** ** The round trip *)

Section RoundTrip.

Context {collab : Collab}.

Lemma load_pure_some (curve : string) (hashed : err_t * list octet)
      (hash_id : string) (code : err_t) (params : bign_params)
      (oid_der hash : list octet) :
  load_pure curve hashed hash_id = (code, Some (params, oid_der, hash)) ->
  exists c, bignStdParams curve = (c, params) /\ is_ok c = true.
Proof.
  unfold load_pure. destruct (bignStdParams curve) as [c params'].
  destruct (is_ok c) eqn:Hc; cbn [negb]; [| discriminate].
  destruct hashed as [c2 h]. destruct (negb (is_ok c2)); [discriminate |].
  destruct (bignOidToDER hash_id) as [c3 d].
  destruct (negb (is_ok c3)); [discriminate |].
  intros H. injection H as _ <- _ _. now exists c.
Qed.

Lemma load_pure_none_code (curve : string) (hashed : err_t * list octet)
      (hash_id : string) (code : err_t) :
  load_pure curve hashed hash_id = (code, None) -> code <> ERR_OK.
Proof.
  unfold load_pure. destruct (bignStdParams curve) as [c params'].
  destruct (is_ok c) eqn:Hc; cbn [negb].
  - destruct hashed as [c2 h]. destruct (is_ok c2) eqn:Hc2; cbn [negb].
    + destruct (bignOidToDER hash_id) as [c3 d].
      destruct (is_ok c3) eqn:Hc3; cbn [negb]; [discriminate |].
      intros H. injection H as <-. now apply is_ok_false.
    + intros H. injection H as <-. now apply is_ok_false.
  - intros H. injection H as <-. now apply is_ok_false.
Qed.

(** The parameters of the level of a private key of [p] octets. *)
Definition std_params (p : nat) : err_t * bign_params :=
  bignStdParams
    (if p =? 32 then "1.2.112.0.2.0.34.101.45.3.1"
     else if p =? 48 then "1.2.112.0.2.0.34.101.45.3.2"
     else "1.2.112.0.2.0.34.101.45.3.3").

Lemma level_load_some (p : nat) (buf : list octet) (code : err_t)
      (params : bign_params) (oid_der hash : list octet) :
  level_load p buf = (code, Some (params, oid_der, hash)) ->
  exists c, std_params p = (c, params) /\ is_ok c = true.
Proof.
  unfold level_load, std_params.
  destruct (p =? 32); [| destruct (p =? 48)]; apply load_pure_some.
Qed.

Lemma level_load_none_code (p : nat) (buf : list octet) (code : err_t) :
  level_load p buf = (code, None) -> code <> ERR_OK.
Proof.
  unfold level_load.
  destruct (p =? 32); [| destruct (p =? 48)]; apply load_pure_none_code.
Qed.

Lemma sign_pure_ok (buf privkey : list octet) (w : option (list octet)) :
  sign_pure buf privkey = (ERR_OK, w) ->
  exists code params oid_der hash s,
    blobCreate (sizeof_bign_params + 16 + 2 * length privkey) = true /\
    level_load (length privkey) buf = (code, Some (params, oid_der, hash)) /\
    bignSign2 params oid_der hash privkey
              (if rngIsValid then rngStepR (length privkey) else []) =
    (ERR_OK, s) /\
    w = Some s.
Proof.
  unfold sign_pure.
  destruct (blobCreate _) eqn:Hb; cbn [negb]; [| discriminate].
  destruct (level_load (length privkey) buf)
    as [code [[[params der] hash] |]] eqn:Hl.
  - destruct (bignSign2 _ _ _ _ _) as [c s] eqn:Hs.
    intros H. injection H as Hc Hw. subst c w.
    exists code, params, der, hash, s. auto.
  - intros H. injection H as Hc _. subst code.
    now apply level_load_none_code in Hl.
Qed.

Lemma btokPubkeyCalc_some (privkey pub : list octet) :
  btokPubkeyCalc privkey = (ERR_OK, Some pub) ->
  key_len_ok (length privkey) /\
  exists c params,
    std_params (length privkey) = (c, params) /\ is_ok c = true /\
    bignCalcPubkey params privkey = (ERR_OK, pub).
Proof.
  unfold btokPubkeyCalc, std_params.
  destruct (negb (length privkey =? 32) && negb (length privkey =? 48) &&
            negb (length privkey =? 64)) eqn:Hlen; [discriminate |].
  intros H0. split; [unfold key_len_ok; bool_to_prop; lia |]. revert H0.
  destruct (bignStdParams _) as [c params].
  destruct (is_ok c) eqn:Hc; cbn [negb]; [| discriminate].
  destruct (bignCalcPubkey params privkey) as [c' pub'] eqn:Hcalc.
  intros H0. injection H0 as Hc' Hp. subst c' pub'. now exists c, params.
Qed.

Lemma memSetZeroFrom_length (buf : list octet) (n size : nat) :
  n <= length buf -> n <= size ->
  length (Mem.memSetZeroFrom buf n size) = size.
Proof.
  intros H1 H2. unfold Mem.memSetZeroFrom.
  rewrite length_app, length_firstn, repeat_length. lia.
Qed.

(** The block "build the public key" keeps the layout of the record. *)
Lemma Wrap_build_pubkey_layout (cvc cvc1 : btok_cvc_t) (privkey : list octet) :
  key_len_ok (length privkey) ->
  Wrap_build_pubkey cvc privkey = (ERR_OK, cvc1) ->
  cvc_layout cvc = true -> cvc_layout cvc1 = true.
Proof.
  intros Hk Hb Hlay.
  destruct (Wrap_build_pubkey_ok _ _ Hb eq_refl) as (_ & Hnz & Hz).
  destruct (Nat.eq_dec (pubkey_len cvc) 0) as [Hq | Hq];
    [| now rewrite (Hnz Hq)].
  destruct (Hz Hq) as (pub & _ & ->).
  unfold cvc_layout, body_layout in *.
  cbn [set_pubkey set_pubkey_len pubkey hat_eid hat_esign from until sig].
  bool_to_prop. repeat split; try tauto.
  apply memSetZeroFrom_length.
  - pose proof (memWrite_length (pubkey cvc) pub).
    unfold sizeof_pubkey in *. destruct Hk as [-> | [-> | ->]]; lia.
  - unfold sizeof_pubkey. destruct Hk as [-> | [-> | ->]]; lia.
Qed.

Lemma check_code_unwrapped (c : btok_cvc_t) :
  pubkey_len c <= length (pubkey c) ->
  check_code (unwrapped c) = check_code c.
Proof.
  intros H. unfold check_code, names_ok, dates_ok, unwrapped, btokPubkeyVal.
  cbn [authority holder from until pubkey pubkey_len].
  replace (firstn (pubkey_len c)
             (firstn (pubkey_len c) (pubkey c) ++
              repeat x00 (sizeof_pubkey - pubkey_len c)))
    with (firstn (pubkey_len c) (pubkey c)); [reflexivity |].
  rewrite <- (firstn_length_app (firstn (pubkey_len c) (pubkey c))
                (repeat x00 (sizeof_pubkey - pubkey_len c))) at 1.
  now rewrite length_firstn, Nat.min_l.
Qed.

(** What a real call of wrap that returns [ERR_OK] has done. *)
Lemma wrap_real_facts (cert_len : bool) (cvc : btok_cvc_t)
      (privkey : list octet) :
  cvc_layout cvc = true ->
  w_code (wrap_pure true cert_len cvc privkey) = ERR_OK ->
  exists cvc1 s code params oid_der hash,
    key_len_ok (length privkey) /\
    Wrap_build_pubkey cvc privkey = (ERR_OK, cvc1) /\
    check_code cvc1 = ERR_OK /\ cvc_layout cvc1 = true /\
    blobCreate (sizeof_bign_params + 16 + 2 * length privkey) = true /\
    level_load (length privkey) (body_code cvc1) =
    (code, Some (params, oid_der, hash)) /\
    bignSign2 params oid_der hash privkey
              (if rngIsValid then rngStepR (length privkey) else []) =
    (ERR_OK, s) /\
    let cvcF := set_sig_len (set_sig cvc1 (Mem.memWrite (sig cvc1) s))
                            (wrap_sig_len privkey) in
    wrap_pure true cert_len cvc privkey =
    mk_wrap ERR_OK (Some (cert_code cvcF))
            (if cert_len then Some (length (cert_code cvcF)) else None)
            cvcF [EvSign (body_code cvc1) privkey].
Proof.
  intros Hlay Hok.
  destruct (wrap_real_inv _ _ _ Hok)
    as (cvc1 & written & Hkey & Hb & Hchk & Hs & Hr).
  destruct (sign_pure_ok _ _ Hs)
    as (code & params & der & hash & s & Hblob & Hload & Hsign & ->).
  exists cvc1, s, code, params, der, hash.
  repeat split; try assumption.
  eapply Wrap_build_pubkey_layout; eassumption.
Qed.

Lemma wrapped_ok_final (cvc1 : btok_cvc_t) (privkey s : list octet) :
  key_len_ok (length privkey) -> check_code cvc1 = ERR_OK ->
  cvc_layout cvc1 = true ->
  wrapped_ok (set_sig_len (set_sig cvc1 (Mem.memWrite (sig cvc1) s))
                          (wrap_sig_len privkey)).
Proof.
  intros Hkey Hchk Hlay.
  apply check_code_ok in Hchk. destruct Hchk as (Hn & _ & Hp).
  apply btokPubkeyVal_ok_len in Hp.
  apply cvc_layout_inv in Hlay. destruct Hlay as (Hbl & Hsl).
  split; cbn [set_sig_len set_sig sig_len sig]; try assumption.
  - unfold wrap_sig_len. destruct Hkey as [-> | [-> | ->]]; cbn; auto.
  - pose proof (memWrite_length (sig cvc1) s).
    pose proof (key_len_sig_le _ Hkey). unfold sizeof_sig in *. lia.
Qed.

(** A real call of wrap that returns [ERR_OK] leaves a record that the
    certificate it wrote encodes. *)
Lemma wrap_real_result (cert_len : bool) (cvc : btok_cvc_t)
      (privkey cert : list octet) (r : wrap_result) :
  cvc_layout cvc = true ->
  btokCVCWrap true cert_len cvc privkey = Ret r ->
  w_code r = ERR_OK -> w_cert r = Some cert ->
  key_len_ok (length privkey) /\ wrapped_ok (w_cvc r) /\
  cert = cert_code (w_cvc r) /\
  sig_len (w_cvc r) = length privkey + length privkey / 2 /\
  check_code (unwrapped (w_cvc r)) = ERR_OK.
Proof.
  intros Hlay Hwrap Hok Hcert.
  rewrite btokCVCWrap_pure in Hwrap. injection Hwrap as <-.
  destruct (wrap_real_facts _ _ _ Hlay Hok)
    as (cvc1 & s & code & params & der & hash &
        Hkey & Hb & Hchk & Hlay1 & _ & _ & _ & Hr).
  cbv zeta in Hr. rewrite Hr in Hcert |- *.
  cbn [w_cert w_cvc] in Hcert |- *. injection Hcert as <-.
  pose proof (@wrapped_ok_final cvc1 privkey s Hkey Hchk Hlay1) as Hw.
  split; [assumption | split; [assumption |]].
  split; [reflexivity | split; [reflexivity |]].
  rewrite check_code_unwrapped; [exact Hchk |].
  cbn [set_sig_len set_sig pubkey pubkey_len].
  apply cvc_layout_inv in Hlay1. destruct Hlay1 as (Hbl & _).
  apply body_layout_inv in Hbl. destruct Hbl as (Hp & _).
  apply check_code_ok in Hchk. destruct Hchk as (_ & _ & Hv).
  apply btokPubkeyVal_ok_len in Hv. lia.
Qed.

End RoundTrip.



(** ** Wrap on a checked record *)

Section WrapChecked.

Context {collab : Collab}.


End WrapChecked.

(** ** Wrap followed by unwrap *)

Section WrapUnwrap.

Context {collab : Collab} {laws : CollabLaws collab}.

Lemma firstn_memWrite (buf s : list octet) :
  firstn (length s) (Mem.memWrite buf s) = s.
Proof. unfold Mem.memWrite. apply firstn_length_app. Qed.

(** The signature that wrap stores verifies under the key derived from the
    private key. *)
Lemma wrap_verify (cvc1 : btok_cvc_t) (privkey s pub : list octet)
      (code : err_t) (params : bign_params) (oid_der hash : list octet) :
  key_len_ok (length privkey) ->
  blobCreate (sizeof_bign_params + 16 + 2 * length privkey) = true ->
  level_load (length privkey) (body_code cvc1) =
  (code, Some (params, oid_der, hash)) ->
  bignSign2 params oid_der hash privkey
            (if rngIsValid then rngStepR (length privkey) else []) =
  (ERR_OK, s) ->
  btokPubkeyCalc privkey = (ERR_OK, Some pub) ->
  let cvcF := set_sig_len (set_sig cvc1 (Mem.memWrite (sig cvc1) s))
                          (wrap_sig_len privkey) in
  verify_pure (body_code cvcF) (sig (unwrapped cvcF)) pub (length privkey) =
  ERR_OK.
Proof.
  intros Hkey Hblob Hload Hsign Hcalc cvcF.
  apply btokPubkeyCalc_some in Hcalc.
  destruct Hcalc as (_ & c & params' & Hstd & Hc & Hpub).
  pose proof Hload as Hstd'. apply level_load_some in Hstd'.
  destruct Hstd' as (c' & Hstd' & _).
  rewrite Hstd in Hstd'. injection Hstd' as _ <-.
  pose proof Hpub as Hlen. apply calc_len in Hlen.
  pose proof Hsign as Hsl. apply sign_len in Hsl.
  pose proof Hpub as Hval. apply calc_valid in Hval.
  pose proof Hkey as Hq. apply key_len_quarter in Hq. destruct Hq as (Hq & _).
  unfold verify_pure.
  replace (blobCreate (sizeof_bign_params + 16 + 2 * length privkey / 2))
    with true
    by (symmetry; eapply alloc_mono; [exact Hblob |];
        pose proof (Nat.Div0.div_le_upper_bound (2 * length privkey) 2
                      (2 * length privkey)); lia).
  cbn [negb].
  change (body_code cvcF) with (body_code cvc1). rewrite Hload.
  rewrite <- Hlen, firstn_all, Hval. cbn [is_ok negb].
  rewrite Hlen, Hq.
  replace (firstn _ (sig (unwrapped cvcF))) with s;
    [eapply sign_verify; eassumption |].
  unfold unwrapped, cvcF.
  cbn [sig sig_len set_sig set_sig_len]. unfold wrap_sig_len.
  rewrite <- Hsl, firstn_memWrite.
  symmetry. apply firstn_length_app.
Qed.



End WrapUnwrap.


(** ** The length of the signature in unwrap *)

Section SigLen.

Context {collab : Collab}.

Lemma sig_len_by_trial_cases (der : list octet) :
  sig_len_by_trial der =
  match derDec3 der 0x5F37 48, derDec3 der 0x5F37 72,
        derDec3 der 0x5F37 96 with
  | Some _, _, _ => (false, 48)
  | None, Some _, _ => (false, 72)
  | None, None, Some _ => (false, 96)
  | None, None, None => (true, 96)
  end.
Proof.
  unfold sig_len_by_trial.
  destruct (derDec3 der 0x5F37 48); cbn [is_SIZE_MAX negb]; [reflexivity |].
  destruct (derDec3 der 0x5F37 72); cbn [is_SIZE_MAX negb]; [reflexivity |].
  now destruct (derDec3 der 0x5F37 96).
Qed.

(** What unwrap returns once the length of the signature is settled. *)
Lemma unwrap_tail_sig_len (body key rest : list octet) (c : btok_cvc_t)
      (cur : cursor) (anchor : der_anchor_t) (p : nat) :
  length key = 2 * p -> p = 0 \/ key_len_ok p ->
  exists code cvc',
    match derTOCTDec2 rest 0x5F37 (sig_len c) with
    | None => Ret (ERR_BAD_FORMAT, c)
    | Some (s, t) =>
        let cvc := set_sig c (Mem.memWrite (sig c) s) in
        code <- (if negb (length key =? 0)
                 then btokVerify body (sig cvc) key (length key)
                 else Ret ERR_OK) ;;
        if negb (is_ok code) then Ret (code, cvc)
        else
          match derTSEQDecStop (advance cur t) anchor with
          | None => Ret (ERR_BAD_FORMAT, cvc)
          | Some _ => code <- btokCVCCheck cvc ;; Ret (code, cvc)
          end
    end = Ret (code, cvc') /\ sig_len cvc' = sig_len c.
Proof.
  intros Hlen Hp.
  destruct (derTOCTDec2 rest 0x5F37 (sig_len c)) as [[s t] |];
    [| now exists ERR_BAD_FORMAT, c].
  cbv zeta.
  assert (Hv : exists code,
             (if negb (length key =? 0)
              then btokVerify body (sig (set_sig c (Mem.memWrite (sig c) s)))
                              key (length key)
              else Ret ERR_OK) = Ret code).
  { destruct Hp as [-> | Hp].
    - rewrite Hlen. now exists ERR_OK.
    - rewrite Hlen, btokVerify_pure by assumption.
      destruct (negb (2 * p =? 0)); eauto. }
  destruct Hv as (code & ->). rewrite bind_Ret.
  destruct (negb (is_ok code)); [now eexists _, _ |].
  destruct (derTSEQDecStop _ _); [| now eexists _, _].
  rewrite btokCVCCheck_code, bind_Ret. now eexists _, _.
Qed.

Lemma unwrap_keyed_sig_len (st c : btok_cvc_t) (cert key : list octet)
      (a : der_anchor_t) (t n : nat) :
  length key = 64 \/ length key = 96 \/ length key = 128 ->
  derTSEQDecStart (mk_cursor 0 cert) 0x7F21 = (a, Some t) ->
  btokCVCBodyDec (skipn t cert) cvc_zero = (c, Some n) ->
  exists code cvc',
    btokCVCUnwrap st cert key = Ret (code, cvc') /\
    sig_len cvc' = length key - length key / 4.
Proof.
  intros Hk Hstart Hbody. unfold btokCVCUnwrap.
  rewrite Hstart. unfold advance. cbn [c_rest c_pos]. rewrite Hbody.
  assert (Hp : exists p, length key = 2 * p /\ key_len_ok p).
  { unfold key_len_ok.
    destruct Hk as [-> | [-> | ->]];
      [exists 32 | exists 48 | exists 64]; auto. }
  destruct Hp as (p & Hlen & Hp).
  replace (negb (length key =? 0) && negb (length key =? 64) &&
           negb (length key =? 96) && negb (length key =? 128)) with false
    by (destruct Hk as [-> | [-> | ->]]; reflexivity).
  replace (length key =? 0) with false
    by (destruct Hk as [-> | [-> | ->]]; reflexivity).
  destruct (@unwrap_tail_sig_len (firstn n (skipn t cert)) key
              (skipn n (skipn t cert))
              (set_sig_len c (length key - length key / 4))
              (mk_cursor (0 + t + n) (skipn n (skipn t cert))) a p Hlen
              (or_intror Hp))
    as (code & cvc' & Heq & Hs).
  exists code, cvc'. split; [| exact Hs].
  rewrite <- Heq. unfold advance. cbn [c_rest c_pos negb].
  replace (length key =? 0) with false
    by (destruct Hk as [-> | [-> | ->]]; reflexivity).
  reflexivity.
Qed.

Lemma unwrap_inferred_sig_len (st c : btok_cvc_t) (cert : list octet)
      (a : der_anchor_t) (t n : nat) :
  derTSEQDecStart (mk_cursor 0 cert) 0x7F21 = (a, Some t) ->
  btokCVCBodyDec (skipn t cert) cvc_zero = (c, Some n) ->
  let rest := skipn n (skipn t cert) in
  (fst (sig_len_by_trial rest) = true ->
   btokCVCUnwrap st cert [] = Ret (ERR_BAD_FORMAT, c)) /\
  (fst (sig_len_by_trial rest) = false ->
   exists code cvc',
     btokCVCUnwrap st cert [] = Ret (code, cvc') /\
     sig_len cvc' = snd (sig_len_by_trial rest)).
Proof.
  intros Hstart Hbody rest. unfold btokCVCUnwrap.
  rewrite Hstart. unfold advance. cbn [c_rest c_pos length Nat.eqb negb andb].
  rewrite Hbody. fold rest.
  destruct (sig_len_by_trial rest) as [bad L]. cbn [fst snd].
  split; intros ->; [reflexivity |].
  destruct (@unwrap_tail_sig_len (firstn n (skipn t cert)) [] rest
              (set_sig_len c L) (mk_cursor (0 + t + n) rest) a 0 eq_refl
              (or_introl eq_refl))
    as (code & cvc' & Heq & Hs).
  exists code, cvc'. split; [| exact Hs].
  rewrite <- Heq. reflexivity.
Qed.

(** C3: with a verification key of 64, 96 or 128 octets unwrap sets
    [sig_len] to the length of the key minus a quarter of it; without a key
    it tries 48, 72 and 96 in this order on the signature, takes the first
    length that decodes and returns [ERR_BAD_FORMAT] when none does; and on
    a certificate that wrap produced with a private key of [priv_len]
    octets (32, 48 or 64) the length found without a key is
    [priv_len + priv_len / 2], the value wrap stored. *)
Theorem C3_unwrap_signature_length :
  (forall (st c : btok_cvc_t) (cert key : list octet) (a : der_anchor_t)
          (t n : nat),
      length key = 64 \/ length key = 96 \/ length key = 128 ->
      derTSEQDecStart (mk_cursor 0 cert) 0x7F21 = (a, Some t) ->
      btokCVCBodyDec (skipn t cert) cvc_zero = (c, Some n) ->
      exists code cvc',
        btokCVCUnwrap st cert key = Ret (code, cvc') /\
        sig_len cvc' = length key - length key / 4) /\
  (forall der : list octet,
      sig_len_by_trial der =
      match derDec3 der 0x5F37 48, derDec3 der 0x5F37 72,
            derDec3 der 0x5F37 96 with
      | Some _, _, _ => (false, 48)
      | None, Some _, _ => (false, 72)
      | None, None, Some _ => (false, 96)
      | None, None, None => (true, 96)
      end) /\
  (forall (st c : btok_cvc_t) (cert : list octet) (a : der_anchor_t)
          (t n : nat),
      derTSEQDecStart (mk_cursor 0 cert) 0x7F21 = (a, Some t) ->
      btokCVCBodyDec (skipn t cert) cvc_zero = (c, Some n) ->
      let rest := skipn n (skipn t cert) in
      (fst (sig_len_by_trial rest) = true ->
       btokCVCUnwrap st cert [] = Ret (ERR_BAD_FORMAT, c)) /\
      (fst (sig_len_by_trial rest) = false ->
       exists code cvc',
         btokCVCUnwrap st cert [] = Ret (code, cvc') /\
         sig_len cvc' = snd (sig_len_by_trial rest))) /\
  (forall (cert_len : bool) (st cvc : btok_cvc_t) (privkey cert : list octet)
          (r : wrap_result),
      cvc_layout cvc = true ->
      btokCVCWrap true cert_len cvc privkey = Ret r ->
      w_code r = ERR_OK -> w_cert r = Some cert ->
      (length privkey = 32 \/ length privkey = 48 \/ length privkey = 64) /\
      sig_len (w_cvc r) = length privkey + length privkey / 2 /\
      exists cvc',
        btokCVCUnwrap st cert [] = Ret (ERR_OK, cvc') /\
        sig_len cvc' = length privkey + length privkey / 2).
Proof.
  split; [exact unwrap_keyed_sig_len |].
  split; [exact sig_len_by_trial_cases |].
  split; [exact unwrap_inferred_sig_len |].
  intros cert_len st cvc privkey cert r Hlay Hwrap Hok Hcert.
  destruct (wrap_real_result _ _ _ Hlay Hwrap Hok Hcert)
    as (Hkey & Hw & -> & HL & Hchk).
  split; [exact Hkey | split; [exact HL |]].
  exists (unwrapped (w_cvc r)).
  rewrite unwrap_infer by assumption. rewrite Hchk.
  split; [reflexivity | exact HL].
Qed.

End SigLen.


(** ** The toy collaborators obey the laws *)

Module ToyFacts.

Import Toy.

Lemma take_pad_length (n : nat) (l : list octet) : length (take_pad n l) = n.
Proof.
  unfold take_pad. rewrite length_firstn, length_app, repeat_length. lia.
Qed.

Lemma take_pad_prefix (n : nat) (a b : list octet) :
  n <= length a -> take_pad n (a ++ b) = take_pad n a.
Proof.
  intros H. unfold take_pad.
  rewrite <- !app_assoc, !firstn_app.
  replace (n - length a) with 0 by lia. reflexivity.
Qed.

Lemma half_double (n : nat) : (n + n) / 2 = n.
Proof. replace (n + n) with (n * 2) by lia. now apply Nat.div_mul. Qed.

Lemma quarter_double (n : nat) : (n + n) / 4 = n / 2.
Proof.
  replace 4 with (2 * 2) by reflexivity.
  now rewrite <- Nat.Div0.div_div, half_double.
Qed.

Lemma octets_eqb_refl (a : list octet) : octets_eqb a a = true.
Proof. now apply octets_eqb_eq. Qed.

Lemma laws : CollabLaws collab.
Proof.
  split; cbn -[Nat.div].
  - reflexivity.
  - intros _ priv pub H. injection H as <-. rewrite length_app. lia.
  - intros _ priv pub H. injection H as <-.
    rewrite length_app, half_double, firstn_length_app, skipn_length_app.
    now rewrite octets_eqb_refl.
  - intros _ _ hash priv _ s H. injection H as <-.
    now rewrite length_app, !take_pad_length.
  - intros _ _ hash priv _ s pub H Hp. injection H as <-. injection Hp as <-.
    rewrite length_app, half_double, quarter_double.
    rewrite take_pad_prefix
      by (pose proof (Nat.Div0.div_le_upper_bound (length priv) 2
                        (length priv)); lia).
    now rewrite octets_eqb_refl.
Qed.

(** Concrete runs: a root record wrapped with a 32-octet key, for real and
    dry, and a record whose key buffer holds other octets after the key. *)
Definition pub32 : list octet := priv32 ++ priv32.

Definition wrapped0 : wrap_result := wrap_pure true true cvc0 priv32.

Definition dry0 : wrap_result := wrap_pure false true cvc0 priv32.

Definition cert_of (r : wrap_result) : list octet :=
  match w_cert r with Some c => c | None => [] end.





End ToyFacts.

(** ** Concrete runs of the round trip *)



Lemma C3_unwrap_signature_length_witness :
  cvc_layout Toy.cvc0 = true /\
  @btokCVCWrap Toy.collab true true Toy.cvc0 Toy.priv32 =
  Ret ToyFacts.wrapped0 /\
  w_code ToyFacts.wrapped0 = ERR_OK /\
  w_cert ToyFacts.wrapped0 = Some (ToyFacts.cert_of ToyFacts.wrapped0) /\
  sig_len (w_cvc ToyFacts.wrapped0) = 48 /\
  exists cvc',
    @btokCVCUnwrap Toy.collab cvc_zero (ToyFacts.cert_of ToyFacts.wrapped0)
                   [] = Ret (ERR_OK, cvc') /\
    sig_len cvc' = 48.
Proof.
  assert (H1 : cvc_layout Toy.cvc0 = true) by reflexivity.
  assert (H2 : @btokCVCWrap Toy.collab true true Toy.cvc0 Toy.priv32 =
               Ret ToyFacts.wrapped0) by (vm_compute; reflexivity).
  assert (H3 : w_code ToyFacts.wrapped0 = ERR_OK) by (vm_compute; reflexivity).
  assert (H4 : w_cert ToyFacts.wrapped0 =
               Some (ToyFacts.cert_of ToyFacts.wrapped0))
    by (vm_compute; reflexivity).
  split; [exact H1 |]. split; [exact H2 |]. split; [exact H3 |].
  split; [exact H4 |].
  destruct (proj2 (proj2 (proj2 (@C3_unwrap_signature_length Toy.collab)))
              true cvc_zero Toy.cvc0 Toy.priv32
              (ToyFacts.cert_of ToyFacts.wrapped0) ToyFacts.wrapped0
              H1 H2 H3 H4)
    as (_ & Hs & cvc' & Hu & Hs').
  split; [exact Hs |]. exists cvc'. split; [exact Hu | exact Hs'].
Defined.

Lemma C9_dry_run_record_witness :
  @btokCVCWrap Toy.collab false true Toy.cvc0 Toy.priv32 = Ret ToyFacts.dry0 /\
  w_code ToyFacts.dry0 = ERR_OK /\
  w_trace ToyFacts.dry0 = [] /\
  sig (w_cvc ToyFacts.dry0) = sig Toy.cvc0 /\
  sig_len (w_cvc ToyFacts.dry0) = 48.
Proof.
  assert (H1 : @btokCVCWrap Toy.collab false true Toy.cvc0 Toy.priv32 =
               Ret ToyFacts.dry0) by (vm_compute; reflexivity).
  assert (H2 : w_code ToyFacts.dry0 = ERR_OK) by (vm_compute; reflexivity).
  split; [exact H1 |]. split; [exact H2 |].
  destruct (@C9_dry_run_record Toy.collab true Toy.cvc0 Toy.priv32
              ToyFacts.dry0 H1 H2) as (Ht & Hs & Hl & _).
  split; [exact Ht |]. split; [exact Hs | exact Hl].
Defined.

Lemma C4_dry_run_length_witness :
  length (sig Toy.cvc0) = sizeof_sig /\
  @btokCVCWrap Toy.collab false true Toy.cvc0 Toy.priv32 = Ret ToyFacts.dry0 /\
  w_code ToyFacts.dry0 = ERR_OK /\
  exists n,
    w_cert_len ToyFacts.dry0 = Some n /\
    w_cert_len ToyFacts.wrapped0 = Some n /\
    length (ToyFacts.cert_of ToyFacts.wrapped0) = n.
Proof.
  assert (H0 : length (sig Toy.cvc0) = sizeof_sig) by reflexivity.
  assert (H1 : @btokCVCWrap Toy.collab false true Toy.cvc0 Toy.priv32 =
               Ret ToyFacts.dry0) by (vm_compute; reflexivity).
  assert (H2 : w_code ToyFacts.dry0 = ERR_OK) by (vm_compute; reflexivity).
  assert (H3 : @btokCVCWrap Toy.collab true true Toy.cvc0 Toy.priv32 =
               Ret ToyFacts.wrapped0) by (vm_compute; reflexivity).
  assert (H4 : w_code ToyFacts.wrapped0 = ERR_OK) by (vm_compute; reflexivity).
  split; [exact H0 |]. split; [exact H1 |]. split; [exact H2 |].
  destruct (proj2 (@C4_dry_run_length Toy.collab) Toy.cvc0 Toy.priv32
              ToyFacts.dry0 H0 H1 H2) as (n & Hn & Hreal & _).
  destruct (Hreal ToyFacts.wrapped0 H3 H4) as (Hn' & c & Hc & Hlen).
  exists n. split; [exact Hn |]. split; [exact Hn' |].
  unfold ToyFacts.cert_of. rewrite Hc. exact Hlen.
Defined.

(** ** Issuing *)

Section Issue.

Context {collab : Collab}.

(** Unwrap returns [ERR_OK] only through its final check. *)
Lemma unwrap_ok_checked (st cvca : btok_cvc_t) (cert key : list octet) :
  btokCVCUnwrap st cert key = Ret (ERR_OK, cvca) ->
  check_code cvca = ERR_OK.
Proof.
  unfold btokCVCUnwrap.
  destruct (negb (length key =? 0) && negb (length key =? 64) &&
            negb (length key =? 96) && negb (length key =? 128));
    [discriminate |].
  destruct (derTSEQDecStart _ _) as [a [t |]]; [| discriminate].
  destruct (btokCVCBodyDec _ _) as [c [n |]]; [| discriminate].
  match goal with
  | |- (let (bad, cvc) := ?x in _) = _ -> _ => destruct x as [[|] c1]
  end; [discriminate |].
  destruct (derTOCTDec2 _ _ _) as [[s t'] |]; [| discriminate].
  cbv zeta.
  match goal with
  | |- bind ?v _ = _ -> _ => destruct v as [code |]
  end; cbn [bind]; [| discriminate].
  destruct (is_ok code) eqn:Hc; cbn [negb].
  - destruct (derTSEQDecStop _ _); [| discriminate].
    rewrite btokCVCCheck_code, bind_Ret.
    intros H. injection H as H <-. exact H.
  - intros H. injection H as -> _. discriminate.
Qed.

Lemma leb_Z_true (z : Z) : (z <=? 0)%Z = true <-> (z <= 0)%Z.
Proof. apply Z.leb_le. Qed.

Definition check2_code (cvc cvca : btok_cvc_t) : err_t :=
  if negb (is_ok (check_code cvc)) then check_code cvc
  else if negb (Str.strEq (authority cvc) (holder cvca)) then ERR_BAD_NAME
  else if negb (btokCVCDateIsValid (from cvca) &&
                btokCVCDateIsValid (until cvca) &&
                (Mem.memCmp (from cvca) (from cvc) 6 <=? 0)%Z &&
                (Mem.memCmp (from cvc) (until cvca) 6 <=? 0)%Z)
  then ERR_BAD_DATE else ERR_OK.

Lemma check2_code_ok (cvc cvca : btok_cvc_t) :
  check_code cvca = ERR_OK ->
  is_ok (check2_code cvc cvca) = true <->
  check_code cvc = ERR_OK /\
  Str.strEq (authority cvc) (holder cvca) = true /\
  (Mem.memCmp (from cvca) (from cvc) 6 <= 0)%Z /\
  (Mem.memCmp (from cvc) (until cvca) 6 <= 0)%Z.
Proof.
  intros Ha. apply check_code_ok in Ha. destruct Ha as (_ & Hd & _).
  unfold dates_ok in Hd. apply andb_true_iff in Hd. destruct Hd as (Hd & _).
  unfold check2_code. rewrite Hd. cbn [andb].
  rewrite <- !leb_Z_true.
  destruct (is_ok (check_code cvc)) eqn:Hc; cbn [negb].
  - apply is_ok_true in Hc. rewrite Hc.
    destruct (Str.strEq _ _); cbn [negb];
      [| split; [discriminate | intros (_ & H & _); discriminate]].
    destruct (Mem.memCmp (from cvca) (from cvc) 6 <=? 0)%Z; cbn [andb negb];
      [| split; [discriminate | intros (_ & _ & H & _); discriminate]].
    destruct (Mem.memCmp (from cvc) (until cvca) 6 <=? 0)%Z; cbn [andb negb];
      [| split; [discriminate | intros (_ & _ & _ & H); discriminate]].
    now repeat split.
  - rewrite Hc. apply is_ok_false in Hc.
    split; [discriminate | intros (H & _); contradiction].
Qed.

(** [btokCVCIss] without the assertions. *)
Lemma btokCVCIss_code (cert cert_len : bool) (cvc : btok_cvc_t)
      (certa privkeya : list octet) :
  btokCVCIss cert cert_len cvc certa privkeya =
  let untouched code :=
    Ret (mk_wrap code (if cert then Some [] else None) None cvc []) in
  if negb (blobCreate sizeof_btok_cvc_t) then untouched ERR_OUTOFMEMORY
  else
    match btokCVCUnwrap cvc_zero certa [] with
    | AssertFailed => AssertFailed
    | Ret (code, cvca) =>
        if negb (is_ok code) then untouched code
        else
          let code := btokKeypairVal privkeya (pubkey cvca) (pubkey_len cvca) in
          if negb (is_ok code) then untouched code
          else
            let code := check2_code cvc cvca in
            if negb (is_ok code) then untouched code
            else btokCVCWrap cert cert_len cvc privkeya
    end.
Proof.
  unfold btokCVCIss. cbv zeta.
  destruct (negb (blobCreate sizeof_btok_cvc_t)); [reflexivity |].
  destruct (btokCVCUnwrap cvc_zero certa []) as [[code cvca] |];
    cbn [bind]; [| reflexivity].
  destruct (negb (is_ok code)); [reflexivity |].
  destruct (negb (is_ok (btokKeypairVal _ _ _))); [reflexivity |].
  rewrite btokCVCCheck2_code, bind_Ret. reflexivity.
Qed.



End Issue.


(** ** Concrete runs of issuing *)

Module ToyIssue.

Import Toy ToyFacts.

(** The certificate of the issuer: the root record wrapped with [priv32]. *)
Definition certa : list octet := cert_of wrapped0.

Definition cvca : btok_cvc_t := w_cvc wrapped0.

(** A record to issue, under the issuer, with a key of 96 octets. *)
Definition child (holder : list octet) : btok_cvc_t :=
  mk_cvc name1 holder (priv48 ++ priv48 ++ repeat x00 32) 96
         (repeat x00 5) (repeat x00 2)
         (date 2 2 0 8 0 1) (date 2 2 1 2 3 1) (repeat x00 96) 0.

(** A holder of four characters. *)
Definition short_name : list octet := firstn 4 name2.

Definition issued : wrap_result := wrap_pure true true (child name2) priv32.

Definition refused : wrap_result :=
  mk_wrap ERR_BAD_NAME (Some []) None (child short_name) [].

End ToyIssue.



(** ** The optional blocks of the body *)

Section Optional.

Context {collab : Collab}.

Notation "x <-- c ;; k" := (dbind c (fun x => k))
  (at level 61, c at next level, right associativity).
Notation "c ;;- k" := (dbind c (fun _ => k))
  (at level 61, right associativity).

(** The block "from/until" of [btokCVCBodyDec]. *)
Definition BodyDec_dates (cur : cursor) : dec cursor :=
  r <-- dlift (derTOCTDec2 (c_rest cur) 0x5F25 6) ;;
  dmodify (fun cvc => set_from cvc (Mem.memWrite (from cvc) (fst r))) ;;-
  cur <-- derDecStep (Some (snd r)) cur ;;
  r <-- dlift (derTOCTDec2 (c_rest cur) 0x5F24 6) ;;
  dmodify (fun cvc => set_until cvc (Mem.memWrite (until cvc) (fst r))) ;;-
  derDecStep (Some (snd r)) cur.

(** [btokCVCBodyDec] block by block. *)
Lemma btokCVCBodyDec_blocks (body : list octet) (st : btok_cvc_t) :
  btokCVCBodyDec body st =
  (h <-- BodyDec_head (mk_cursor 0 body) ;;
   cur <-- BodyDec_CertHAT (snd h) ;;
   cur <-- BodyDec_dates cur ;;
   cur <-- BodyDec_CVExt cur ;;
   cur <-- derDecStep (derTSEQDecStop cur (fst h)) cur ;;
   dret (c_pos cur)) cvc_zero.
Proof.
  unfold btokCVCBodyDec, BodyDec_dates.
  unfold dbind at 1. unfold dmodify at 1.
  unfold dbind at 1. symmetry. unfold dbind at 1.
  destruct (BodyDec_head (mk_cursor 0 body) cvc_zero) as [c1 [[a cur1] |]];
    [| reflexivity].
  cbn [fst snd].
  unfold dbind at 1. symmetry. unfold dbind at 1.
  destruct (BodyDec_CertHAT cur1 c1) as [c2 [cur2 |]]; [| reflexivity].
  cbv beta iota delta [dbind dlift dmodify derDecStep option_map].
  destruct (derTOCTDec2 (c_rest cur2) 0x5F25 6) as [r |]; [| reflexivity].
  destruct (derTOCTDec2 (c_rest (advance cur2 (snd r))) 0x5F24 6) as [r' |];
    reflexivity.
Qed.

(** A decoding step keeps a property of the record. *)
Definition keeps {A : Type} (P : btok_cvc_t -> Prop) (d : dec A) : Prop :=
  forall st st' r, d st = (st', r) -> P st -> P st'.

Lemma keeps_dret {A : Type} (P : btok_cvc_t -> Prop) (a : A) :
  keeps P (dret a).
Proof. intros st st' r H. now injection H as <- _. Qed.

Lemma keeps_dlift {A : Type} (P : btok_cvc_t -> Prop) (o : option A) :
  keeps P (dlift o).
Proof. intros st st' r H. now injection H as <- _. Qed.

Lemma keeps_dguard (P : btok_cvc_t -> Prop) (b : bool) : keeps P (dguard b).
Proof. intros st st' r H. now injection H as <- _. Qed.

Lemma keeps_derDecStep (P : btok_cvc_t -> Prop) (t : option nat)
      (cur : cursor) :
  keeps P (derDecStep t cur).
Proof. apply keeps_dlift. Qed.

Lemma keeps_dmodify (P : btok_cvc_t -> Prop) (f : btok_cvc_t -> btok_cvc_t) :
  (forall c, P c -> P (f c)) -> keeps P (dmodify f).
Proof. intros Hf st st' r H. injection H as <- _. apply Hf. Qed.

Lemma keeps_dbind {A B : Type} (P : btok_cvc_t -> Prop) (c : dec A)
      (k : A -> dec B) :
  keeps P c -> (forall a, keeps P (k a)) -> keeps P (dbind c k).
Proof.
  intros Hc Hk st st' r. unfold dbind.
  destruct (c st) as [st1 [a |]] eqn:E.
  - intros H HP. eapply Hk; [exact H |]. eapply Hc; eauto.
  - intros H HP. injection H as <- _. eapply Hc; eauto.
Qed.

Ltac keeps_block :=
  repeat first
    [ apply keeps_dret | apply keeps_dlift | apply keeps_dguard
    | apply keeps_derDecStep
    | apply keeps_dmodify; intros ? ?; assumption
    | apply keeps_dbind; [| intros ?]
    | match goal with
      | |- keeps _ (let (_, _) := ?x in _) => destruct x
      | |- keeps _ (if ?b then _ else _) => destruct b
      end ].

Lemma BodyDec_head_keeps_hats (cur : cursor) (e s : list octet) :
  keeps (fun c => hat_eid c = e /\ hat_esign c = s) (BodyDec_head cur).
Proof. unfold BodyDec_head. keeps_block. Qed.

Lemma BodyDec_CertHAT_keeps_esign (cur : cursor) (s : list octet) :
  keeps (fun c => hat_esign c = s) (BodyDec_CertHAT cur).
Proof. unfold BodyDec_CertHAT. keeps_block. Qed.

Lemma BodyDec_dates_keeps_hats (cur : cursor) (e s : list octet) :
  keeps (fun c => hat_eid c = e /\ hat_esign c = s) (BodyDec_dates cur).
Proof. unfold BodyDec_dates. keeps_block. Qed.

Lemma BodyDec_CVExt_keeps_eid (cur : cursor) (e : list octet) :
  keeps (fun c => hat_eid c = e) (BodyDec_CVExt cur).
Proof. unfold BodyDec_CVExt. keeps_block. Qed.

Lemma BodyDec_CertHAT_absent (cur : cursor) (st : btok_cvc_t) :
  derStartsWith (c_rest cur) 0x7F4C = false ->
  BodyDec_CertHAT cur st = (st, Some cur).
Proof. intros H. unfold BodyDec_CertHAT. now rewrite H. Qed.

Lemma BodyDec_CVExt_absent (cur : cursor) (st : btok_cvc_t) :
  derStartsWith (c_rest cur) 0x65 = false ->
  BodyDec_CVExt cur st = (st, Some cur).
Proof. intros H. unfold BodyDec_CVExt. now rewrite H. Qed.

Ltac dec_unroll :=
  cbv beta iota delta [dbind dmodify dlift dguard dret derDecStep option_map
                         fst snd].

Lemma derTSEQDecStop_some (cur : cursor) (a : der_anchor_t) (z : nat) :
  derTSEQDecStop cur a = Some z -> z = 0.
Proof.
  unfold derTSEQDecStop.
  destruct (a_pos a + length (derTEnc (a_tag a)) +
            length (derLEnc (a_len a)) + a_len a =? c_pos cur);
    congruence.
Qed.

(** The block "CertHAT", when its tag is there: it succeeds exactly when
    its four steps do, and then stores the five octets. *)
Lemma BodyDec_CertHAT_reads (cur cur' : cursor) (st st' : btok_cvc_t) :
  derStartsWith (c_rest cur) 0x7F4C = true ->
  (BodyDec_CertHAT cur st = (st', Some cur') <->
   exists a t t1 v t2,
     derTSEQDecStart cur 0x7F4C = (a, Some t) /\
     derOIDDec2 (c_rest (advance cur t)) oid_eid_access = Some t1 /\
     derOCTDec2 (c_rest (advance (advance cur t) t1)) 5 = Some (v, t2) /\
     derTSEQDecStop (advance (advance (advance cur t) t1) t2) a = Some 0 /\
     st' = set_hat_eid st (Mem.memWrite (hat_eid st) v) /\
     cur' = advance (advance (advance (advance cur t) t1) t2) 0).
Proof.
  intros Hs. unfold BodyDec_CertHAT. rewrite Hs. split.
  - destruct (derTSEQDecStart cur 0x7F4C) as [a [t |]] eqn:E0; dec_unroll;
      [| discriminate].
    destruct (derOIDDec2 (c_rest (advance cur t)) oid_eid_access) as [t1 |]
      eqn:E1; [| discriminate].
    destruct (derOCTDec2 (c_rest (advance (advance cur t) t1)) 5)
      as [[v t2] |] eqn:E2; [| discriminate].
    destruct (derTSEQDecStop (advance (advance (advance cur t) t1) t2) a)
      as [z |] eqn:E3; [| discriminate].
    pose proof (derTSEQDecStop_some _ _ E3) as ->.
    intros H. injection H as <- <-.
    exists a, t, t1, v, t2. repeat split; assumption.
  - intros (a & t & t1 & v & t2 & E0 & E1 & E2 & E3 & -> & ->).
    rewrite E0. dec_unroll. rewrite E1, E2, E3. reflexivity.
Qed.

(** The block "CVExt", when its tag is there. *)
Lemma BodyDec_CVExt_reads (cur cur' : cursor) (st st' : btok_cvc_t) :
  derStartsWith (c_rest cur) 0x65 = true ->
  (BodyDec_CVExt cur st = (st', Some cur') <->
   exists a t b u t1 v t2,
     derTSEQDecStart cur 0x65 = (a, Some t) /\
     derTSEQDecStart (advance cur t) 0x73 = (b, Some u) /\
     derOIDDec2 (c_rest (advance (advance cur t) u)) oid_esign_access =
     Some t1 /\
     derOCTDec2 (c_rest (advance (advance (advance cur t) u) t1)) 2 =
     Some (v, t2) /\
     derTSEQDecStop
       (advance (advance (advance (advance cur t) u) t1) t2) b = Some 0 /\
     derTSEQDecStop
       (advance (advance (advance (advance (advance cur t) u) t1) t2) 0) a =
     Some 0 /\
     st' = set_hat_esign st (Mem.memWrite (hat_esign st) v) /\
     cur' =
     advance
       (advance (advance (advance (advance (advance cur t) u) t1) t2) 0) 0).
Proof.
  intros Hs. unfold BodyDec_CVExt. rewrite Hs. split.
  - destruct (derTSEQDecStart cur 0x65) as [a [t |]] eqn:E0; dec_unroll;
      [| discriminate].
    destruct (derTSEQDecStart (advance cur t) 0x73) as [b [u |]] eqn:E0';
      dec_unroll; [| discriminate].
    destruct (derOIDDec2 (c_rest (advance (advance cur t) u))
                oid_esign_access) as [t1 |] eqn:E1; [| discriminate].
    destruct (derOCTDec2 (c_rest (advance (advance (advance cur t) u) t1)) 2)
      as [[v t2] |] eqn:E2; [| discriminate].
    destruct (derTSEQDecStop
                (advance (advance (advance (advance cur t) u) t1) t2) b)
      as [z |] eqn:E3; [| discriminate].
    pose proof (derTSEQDecStop_some _ _ E3) as ->.
    destruct (derTSEQDecStop
                (advance
                   (advance (advance (advance (advance cur t) u) t1) t2) 0) a)
      as [z |] eqn:E4; [| discriminate].
    pose proof (derTSEQDecStop_some _ _ E4) as ->.
    intros H. injection H as <- <-.
    exists a, t, b, u, t1, v, t2. repeat split; assumption.
  - intros (a & t & b & u & t1 & v & t2 &
            E0 & E0' & E1 & E2 & E3 & E4 & -> & ->).
    rewrite E0. dec_unroll. rewrite E0'. dec_unroll. rewrite E1, E2, E3, E4.
    reflexivity.
Qed.

(** The stages of a successful run of the body decoder, and the optional
    fields when their blocks are absent. *)
Lemma btokCVCBodyDec_stages (body : list octet) (st c : btok_cvc_t) (n : nat) :
  btokCVCBodyDec body st = (c, Some n) ->
  exists a cur1 c1 cur2 c2 cur3 c3 cur4,
    BodyDec_head (mk_cursor 0 body) cvc_zero = (c1, Some (a, cur1)) /\
    BodyDec_CertHAT cur1 c1 = (c2, Some cur2) /\
    BodyDec_dates cur2 c2 = (c3, Some cur3) /\
    BodyDec_CVExt cur3 c3 = (c, Some cur4) /\
    derTSEQDecStop cur4 a = Some 0 /\ n = c_pos cur4 + 0 /\
    (derStartsWith (c_rest cur1) 0x7F4C = false ->
     cur2 = cur1 /\ hat_eid c = repeat x00 5) /\
    (derStartsWith (c_rest cur3) 0x65 = false ->
     cur4 = cur3 /\ hat_esign c = repeat x00 2).
Proof.
  rewrite btokCVCBodyDec_blocks. unfold dbind at 1.
  destruct (BodyDec_head (mk_cursor 0 body) cvc_zero)
    as [c1 [[a cur1] |]] eqn:Hh; [| discriminate].
  cbn [fst snd]. unfold dbind at 1.
  destruct (BodyDec_CertHAT cur1 c1) as [c2 [cur2 |]] eqn:H1; [| discriminate].
  unfold dbind at 1.
  destruct (BodyDec_dates cur2 c2) as [c3 [cur3 |]] eqn:H2; [| discriminate].
  unfold dbind at 1.
  destruct (BodyDec_CVExt cur3 c3) as [c4 [cur4 |]] eqn:H3; [| discriminate].
  cbv beta iota delta [dbind dlift dret derDecStep option_map].
  destruct (derTSEQDecStop cur4 a) as [z |] eqn:Hstop; [| discriminate].
  assert (z = 0) as ->
    by (unfold derTSEQDecStop in Hstop;
        destruct (_ =? _) in Hstop; congruence).
  intros H. injection H as <- <-.
  exists a, cur1, c1, cur2, c2, cur3, c3, cur4.
  repeat (split; [reflexivity || assumption |]).
  pose proof (@BodyDec_head_keeps_hats _ (repeat x00 5) (repeat x00 2)
                _ _ _ Hh (conj eq_refl eq_refl)) as (He1 & Hs1).
  split.
  - intros Hs. rewrite (BodyDec_CertHAT_absent _ _ Hs) in H1.
    injection H1 as <- <-. split; [reflexivity |].
    pose proof (@BodyDec_dates_keeps_hats _ (repeat x00 5) (repeat x00 2)
                  _ _ _ H2 (conj He1 Hs1)) as (He3 & _).
    exact (@BodyDec_CVExt_keeps_eid _ (repeat x00 5) _ _ _ H3 He3).
  - intros Hs. rewrite (BodyDec_CVExt_absent _ _ Hs) in H3.
    injection H3 as <- <-. split; [reflexivity |].
    pose proof (@BodyDec_CertHAT_keeps_esign _ (repeat x00 2) _ _ _ H1 Hs1)
      as Hs2.
    pose proof (@BodyDec_dates_keeps_hats _ (hat_eid c2) (repeat x00 2)
                  _ _ _ H2 (conj eq_refl Hs2)) as (_ & Hs3).
    exact Hs3.
Qed.

(** The other way round: stages that succeed make a successful run. *)
Lemma btokCVCBodyDec_from_stages (body : list octet)
      (st c1 c2 c3 c : btok_cvc_t) (a : der_anchor_t)
      (cur1 cur2 cur3 cur4 : cursor) :
  BodyDec_head (mk_cursor 0 body) cvc_zero = (c1, Some (a, cur1)) ->
  BodyDec_CertHAT cur1 c1 = (c2, Some cur2) ->
  BodyDec_dates cur2 c2 = (c3, Some cur3) ->
  BodyDec_CVExt cur3 c3 = (c, Some cur4) ->
  derTSEQDecStop cur4 a = Some 0 ->
  btokCVCBodyDec body st = (c, Some (c_pos cur4 + 0)).
Proof.
  intros Hh H1 H2 H3 Hstop.
  rewrite btokCVCBodyDec_blocks. unfold dbind at 1. rewrite Hh.
  cbn [fst snd]. unfold dbind at 1. rewrite H1.
  unfold dbind at 1. rewrite H2. unfold dbind at 1. rewrite H3.
  cbv beta iota delta [dbind dlift dret derDecStep option_map].
  rewrite Hstop. reflexivity.
Qed.
(** C7: the body encoder emits the CertHAT block (tag [0x7F4C], the
    eId-access identifier and the 5 octets of [hat_eid]) exactly when
    [hat_eid] is not all-zero, and the CVExt block (tag [0x65] around tag
    [0x73], the eSign-access identifier and the 2 octets of [hat_esign])
    exactly when [hat_esign] is not all-zero.  The body decoder enters each
    block exactly when the next tag is [0x7F4C], respectively [0x65]:
    without the tag it moves on with the cursor and the record as they are;
    with the tag the block succeeds exactly when the opening, the
    identifier, the octets and every closing decode, and then stores the
    octets and stands behind the block.  The code the encoder gives for a
    block is read back, and so is the code of a whole body, with both
    fields as they were.  A run of the decoder succeeds exactly when its
    stages do, and after it the field of an absent block is all-zero. *)
Theorem C7_optional_blocks :
  (forall (body : bool) (cvc : btok_cvc_t) (w : list octet),
      BodyEnc_CertHAT cvc (vstate body w) =
      Ret (vstate body
             (w ++ if Mem.memIsZero (hat_eid cvc) 5 then []
                   else derEnc 0x7F4C
                          (oid_code oid_eid_access ++
                           derEnc 0x04 (firstn 5 (hat_eid cvc)))))) /\
  (forall (body : bool) (cvc : btok_cvc_t) (w : list octet),
      BodyEnc_CVExt cvc (vstate body w) =
      Ret (vstate body
             (w ++ if Mem.memIsZero (hat_esign cvc) 2 then []
                   else derEnc 0x65
                          (derEnc 0x73
                             (oid_code oid_esign_access ++
                              derEnc 0x04 (firstn 2 (hat_esign cvc))))))) /\
  (forall (body : bool) (cvc : btok_cvc_t),
      btokCVCInfoSeemsValid cvc = Ret true ->
      btokCVCBodyEnc body cvc =
      Ret (if body then Some (body_code cvc) else None,
           length (body_code cvc))) /\
  (forall (cur : cursor) (st : btok_cvc_t),
      derStartsWith (c_rest cur) 0x7F4C = false ->
      BodyDec_CertHAT cur st = (st, Some cur)) /\
  (forall (cur cur' : cursor) (st st' : btok_cvc_t),
      derStartsWith (c_rest cur) 0x7F4C = true ->
      (BodyDec_CertHAT cur st = (st', Some cur') <->
       exists a t t1 v t2,
         derTSEQDecStart cur 0x7F4C = (a, Some t) /\
         derOIDDec2 (c_rest (advance cur t)) oid_eid_access = Some t1 /\
         derOCTDec2 (c_rest (advance (advance cur t) t1)) 5 = Some (v, t2) /\
         derTSEQDecStop (advance (advance (advance cur t) t1) t2) a =
         Some 0 /\
         st' = set_hat_eid st (Mem.memWrite (hat_eid st) v) /\
         cur' = advance (advance (advance (advance cur t) t1) t2) 0)) /\
  (forall (cvc st : btok_cvc_t) (pos : nat) (rest : list octet),
      length (hat_eid cvc) = 5 -> hat_eid st = repeat x00 5 ->
      derStartsWith rest 0x7F4C = false ->
      BodyDec_CertHAT
        (mk_cursor pos
           ((if Mem.memIsZero (hat_eid cvc) 5 then []
             else derEnc 0x7F4C
                    (oid_code oid_eid_access ++
                     derEnc 0x04 (firstn 5 (hat_eid cvc)))) ++ rest)) st =
      (set_hat_eid st (hat_eid cvc),
       Some (mk_cursor
               (pos +
                length (if Mem.memIsZero (hat_eid cvc) 5 then []
                        else derEnc 0x7F4C
                               (oid_code oid_eid_access ++
                                derEnc 0x04 (firstn 5 (hat_eid cvc)))))
               rest))) /\
  (forall (cur : cursor) (st : btok_cvc_t),
      derStartsWith (c_rest cur) 0x65 = false ->
      BodyDec_CVExt cur st = (st, Some cur)) /\
  (forall (cur cur' : cursor) (st st' : btok_cvc_t),
      derStartsWith (c_rest cur) 0x65 = true ->
      (BodyDec_CVExt cur st = (st', Some cur') <->
       exists a t b u t1 v t2,
         derTSEQDecStart cur 0x65 = (a, Some t) /\
         derTSEQDecStart (advance cur t) 0x73 = (b, Some u) /\
         derOIDDec2 (c_rest (advance (advance cur t) u)) oid_esign_access =
         Some t1 /\
         derOCTDec2 (c_rest (advance (advance (advance cur t) u) t1)) 2 =
         Some (v, t2) /\
         derTSEQDecStop
           (advance (advance (advance (advance cur t) u) t1) t2) b =
         Some 0 /\
         derTSEQDecStop
           (advance (advance (advance (advance (advance cur t) u) t1) t2) 0)
           a = Some 0 /\
         st' = set_hat_esign st (Mem.memWrite (hat_esign st) v) /\
         cur' =
         advance
           (advance (advance (advance (advance (advance cur t) u) t1) t2) 0)
           0)) /\
  (forall (cvc st : btok_cvc_t) (pos : nat) (rest : list octet),
      length (hat_esign cvc) = 2 -> hat_esign st = repeat x00 2 ->
      derStartsWith rest 0x65 = false ->
      BodyDec_CVExt
        (mk_cursor pos
           ((if Mem.memIsZero (hat_esign cvc) 2 then []
             else derEnc 0x65
                    (derEnc 0x73
                       (oid_code oid_esign_access ++
                        derEnc 0x04 (firstn 2 (hat_esign cvc))))) ++ rest))
        st =
      (set_hat_esign st (hat_esign cvc),
       Some (mk_cursor
               (pos +
                length (if Mem.memIsZero (hat_esign cvc) 2 then []
                        else derEnc 0x65
                               (derEnc 0x73
                                  (oid_code oid_esign_access ++
                                   derEnc 0x04 (firstn 2 (hat_esign cvc))))))
               rest))) /\
  (forall (cvc st : btok_cvc_t) (trailing : list octet),
      names_ok cvc = true ->
      pubkey_len cvc = 64 \/ pubkey_len cvc = 96 \/ pubkey_len cvc = 128 ->
      body_layout cvc = true ->
      derStartsWith trailing 0x65 = false ->
      exists c,
        btokCVCBodyDec (body_code cvc ++ trailing) st =
        (c, Some (length (body_code cvc))) /\
        hat_eid c = hat_eid cvc /\ hat_esign c = hat_esign cvc) /\
  (forall (body : list octet) (st c : btok_cvc_t) (n : nat),
      btokCVCBodyDec body st = (c, Some n) ->
      exists a cur1 c1 cur2 c2 cur3 c3 cur4,
        BodyDec_head (mk_cursor 0 body) cvc_zero = (c1, Some (a, cur1)) /\
        BodyDec_CertHAT cur1 c1 = (c2, Some cur2) /\
        BodyDec_dates cur2 c2 = (c3, Some cur3) /\
        BodyDec_CVExt cur3 c3 = (c, Some cur4) /\
        derTSEQDecStop cur4 a = Some 0 /\ n = c_pos cur4 + 0 /\
        (derStartsWith (c_rest cur1) 0x7F4C = false ->
         cur2 = cur1 /\ hat_eid c = repeat x00 5) /\
        (derStartsWith (c_rest cur3) 0x65 = false ->
         cur4 = cur3 /\ hat_esign c = repeat x00 2)) /\
  (forall (body : list octet) (st c1 c2 c3 c : btok_cvc_t) (a : der_anchor_t)
          (cur1 cur2 cur3 cur4 : cursor),
      BodyDec_head (mk_cursor 0 body) cvc_zero = (c1, Some (a, cur1)) ->
      BodyDec_CertHAT cur1 c1 = (c2, Some cur2) ->
      BodyDec_dates cur2 c2 = (c3, Some cur3) ->
      BodyDec_CVExt cur3 c3 = (c, Some cur4) ->
      derTSEQDecStop cur4 a = Some 0 ->
      btokCVCBodyDec body st = (c, Some (c_pos cur4 + 0))).
Proof.
  split; [exact BodyEnc_CertHAT_code |].
  split; [exact BodyEnc_CVExt_code |].
  split; [exact btokCVCBodyEnc_code |].
  split; [exact BodyDec_CertHAT_absent |].
  split; [exact BodyDec_CertHAT_reads |].
  split; [exact BodyDec_CertHAT_code |].
  split; [exact BodyDec_CVExt_absent |].
  split; [exact BodyDec_CVExt_reads |].
  split; [exact BodyDec_CVExt_code |].
  split; [| split;
             [exact btokCVCBodyDec_stages | exact btokCVCBodyDec_from_stages]].
  intros cvc st trailing Hn Hlen Hlay Htr.
  exists (decoded cvc).
  split; [now apply btokCVCBodyDec_code |].
  split; reflexivity.
Qed.

End Optional.



(** ** What the body decoder refuses *)

Section Rejects.

Context {collab : Collab}.

(** The cursor after steps of the given sizes. *)
Definition after (cur : cursor) (ts : list nat) : cursor :=
  fold_left advance ts cur.

Ltac dec_run :=
  cbv beta iota delta [dbind dmodify dlift dguard dret derDecStep option_map
                         fst snd].

Lemma derTSIZEDec2_other (der : list octet) (tag : N) (v n : nat) :
  derTSIZEDec der tag = Some (v, n) -> v <> 0 ->
  derTSIZEDec2 der tag 0 = None.
Proof.
  intros H Hv. unfold derTSIZEDec2. rewrite H.
  now apply Nat.eqb_neq in Hv as ->.
Qed.

Lemma BodyDec_version_rejected (body : list octet) (st : btok_cvc_t)
      (a : der_anchor_t) (t v n : nat) :
  derTSEQDecStart (mk_cursor 0 body) 0x7F4E = (a, Some t) ->
  derTSIZEDec (c_rest (after (mk_cursor 0 body) [t])) 0x5F29 = Some (v, n) ->
  v <> 0 ->
  btokCVCBodyDec body st = (cvc_zero, None).
Proof.
  intros H0 H1 Hv. unfold btokCVCBodyDec, BodyDec_head.
  cbn [after fold_left] in H1.
  rewrite H0. dec_run. now rewrite (derTSIZEDec2_other _ _ H1 Hv).
Qed.

Lemma name_guard_out (l : nat) :
  l < 8 \/ 12 < l -> negb ((l <? 8) || (12 <? l)) = false.
Proof.
  intros H. apply negb_false_iff, orb_true_iff.
  destruct H; [left; now apply Nat.ltb_lt | right; now apply Nat.ltb_lt].
Qed.

Lemma name_guard_in (l : nat) :
  8 <= l <= 12 -> negb ((l <? 8) || (12 <? l)) = true.
Proof.
  intros H. apply negb_true_iff, orb_false_iff.
  split; apply Nat.ltb_ge; lia.
Qed.

Lemma BodyDec_authority_rejected (body : list octet) (st : btok_cvc_t)
      (a : der_anchor_t) (t t1 l t2 : nat) (s : list octet) :
  derTSEQDecStart (mk_cursor 0 body) 0x7F4E = (a, Some t) ->
  derTSIZEDec2 (c_rest (after (mk_cursor 0 body) [t])) 0x5F29 0 = Some t1 ->
  derTPSTRDec (c_rest (after (mk_cursor 0 body) [t; t1])) 0x42 =
  Some (s, l, t2) ->
  l < 8 \/ 12 < l ->
  btokCVCBodyDec body st = (cvc_zero, None).
Proof.
  intros H0 H1 H2 Hl. unfold btokCVCBodyDec, BodyDec_head.
  cbn [after fold_left] in H1, H2.
  rewrite H0. dec_run. rewrite H1. dec_run. rewrite H2. dec_run.
  now rewrite (name_guard_out Hl).
Qed.

Lemma bits_guard_out (l : nat) :
  l <> 512 -> l <> 768 -> l <> 1024 ->
  negb (negb (l =? 512) && negb (l =? 768) && negb (l =? 1024)) = false.
Proof.
  intros H1 H2 H3.
  apply Nat.eqb_neq in H1 as ->. apply Nat.eqb_neq in H2 as ->.
  now apply Nat.eqb_neq in H3 as ->.
Qed.

Lemma bits_guard_in (l : nat) :
  l = 512 \/ l = 768 \/ l = 1024 ->
  negb (negb (l =? 512) && negb (l =? 768) && negb (l =? 1024)) = true.
Proof. intros [-> | [-> | ->]]; reflexivity. Qed.

Lemma BodyDec_pubkey_rejected (body : list octet) (st : btok_cvc_t)
      (a b : der_anchor_t) (t t1 l t2 t3 t4 lb t5 : nat)
      (s bits : list octet) :
  derTSEQDecStart (mk_cursor 0 body) 0x7F4E = (a, Some t) ->
  derTSIZEDec2 (c_rest (after (mk_cursor 0 body) [t])) 0x5F29 0 = Some t1 ->
  derTPSTRDec (c_rest (after (mk_cursor 0 body) [t; t1])) 0x42 =
  Some (s, l, t2) ->
  8 <= l <= 12 ->
  derTSEQDecStart (after (mk_cursor 0 body) [t; t1; t2]) 0x7F49 =
  (b, Some t3) ->
  derOIDDec2 (c_rest (after (mk_cursor 0 body) [t; t1; t2; t3]))
             oid_bign_pubkey = Some t4 ->
  derBITDec (c_rest (after (mk_cursor 0 body) [t; t1; t2; t3; t4])) =
  Some (bits, lb, t5) ->
  lb <> 512 -> lb <> 768 -> lb <> 1024 ->
  btokCVCBodyDec body st = (set_authority cvc_zero s, None).
Proof.
  intros H0 H1 H2 Hl H3 H4 H5 Hb1 Hb2 Hb3.
  unfold btokCVCBodyDec, BodyDec_head.
  cbn [after fold_left] in H1, H2, H3, H4, H5.
  rewrite H0. dec_run. rewrite H1. dec_run. rewrite H2. dec_run.
  rewrite (name_guard_in Hl). dec_run.
  rewrite H3. dec_run. rewrite H4. dec_run. rewrite H5. dec_run.
  now rewrite (bits_guard_out Hb1 Hb2 Hb3).
Qed.

Lemma BodyDec_holder_rejected (body : list octet) (st : btok_cvc_t)
      (a b : der_anchor_t) (t t1 l t2 t3 t4 lb t5 z l' t6 : nat)
      (s bits s' : list octet) :
  derTSEQDecStart (mk_cursor 0 body) 0x7F4E = (a, Some t) ->
  derTSIZEDec2 (c_rest (after (mk_cursor 0 body) [t])) 0x5F29 0 = Some t1 ->
  derTPSTRDec (c_rest (after (mk_cursor 0 body) [t; t1])) 0x42 =
  Some (s, l, t2) ->
  8 <= l <= 12 ->
  derTSEQDecStart (after (mk_cursor 0 body) [t; t1; t2]) 0x7F49 =
  (b, Some t3) ->
  derOIDDec2 (c_rest (after (mk_cursor 0 body) [t; t1; t2; t3]))
             oid_bign_pubkey = Some t4 ->
  derBITDec (c_rest (after (mk_cursor 0 body) [t; t1; t2; t3; t4])) =
  Some (bits, lb, t5) ->
  lb = 512 \/ lb = 768 \/ lb = 1024 ->
  derTSEQDecStop (after (mk_cursor 0 body) [t; t1; t2; t3; t4; t5]) b =
  Some z ->
  derTPSTRDec (c_rest (after (mk_cursor 0 body) [t; t1; t2; t3; t4; t5; z]))
              0x5F20 = Some (s', l', t6) ->
  l' < 8 \/ 12 < l' ->
  snd (btokCVCBodyDec body st) = None.
Proof.
  intros H0 H1 H2 Hl H3 H4 H5 Hb H6 H7 Hl'.
  unfold btokCVCBodyDec, BodyDec_head.
  cbn [after fold_left] in H1, H2, H3, H4, H5, H6, H7.
  rewrite H0. dec_run. rewrite H1. dec_run. rewrite H2. dec_run.
  rewrite (name_guard_in Hl). dec_run.
  rewrite H3. dec_run. rewrite H4. dec_run. rewrite H5. dec_run.
  rewrite (bits_guard_in Hb). dec_run.
  rewrite H6. dec_run. rewrite H7. dec_run.
  now rewrite (name_guard_out Hl').
Qed.

(** Unwrap answers a body that does not decode with [ERR_BAD_FORMAT]. *)
Lemma unwrap_body_rejected (st c : btok_cvc_t) (cert key : list octet)
      (a : der_anchor_t) (t : nat) :
  length key = 0 \/ length key = 64 \/ length key = 96 \/ length key = 128 ->
  derTSEQDecStart (mk_cursor 0 cert) 0x7F21 = (a, Some t) ->
  btokCVCBodyDec (skipn t cert) cvc_zero = (c, None) ->
  btokCVCUnwrap st cert key = Ret (ERR_BAD_FORMAT, c).
Proof.
  intros Hk Hstart Hbody. unfold btokCVCUnwrap.
  replace (negb (length key =? 0) && negb (length key =? 64) &&
           negb (length key =? 96) && negb (length key =? 128)) with false
    by (destruct Hk as [-> | [-> | [-> | ->]]]; reflexivity).
  rewrite Hstart. unfold advance. cbn [c_rest c_pos]. now rewrite Hbody.
Qed.

(** On success the body decoder returns the length of the header of the
    body plus the length the header announces, which is where its cursor
    stands. *)
Lemma btokCVCBodyDec_consumed (body : list octet) (st c : btok_cvc_t)
      (n : nat) :
  btokCVCBodyDec body st = (c, Some n) ->
  exists a t cur,
    derTSEQDecStart (mk_cursor 0 body) 0x7F4E = (a, Some t) /\
    derTSEQDecStop cur a = Some 0 /\
    n = c_pos cur + 0 /\
    n = length (derTEnc 0x7F4E) + length (derLEnc (a_len a)) + a_len a.
Proof.
  intros H.
  destruct (btokCVCBodyDec_stages _ _ H)
    as (a & cur1 & c1 & cur2 & c2 & cur3 & c3 & cur4 &
        Hh & _ & _ & _ & Hstop & Hn & _).
  assert (Ha : exists t, derTSEQDecStart (mk_cursor 0 body) 0x7F4E =
                         (a, Some t)).
  { revert Hh. unfold BodyDec_head.
    destruct (derTSEQDecStart (mk_cursor 0 body) 0x7F4E) as [a' [t |]];
      dec_run; [| discriminate].
    intros Hh. exists t.
    repeat match type of Hh with
           | context [match ?o with Some _ => _ | None => _ end] =>
               destruct o; try discriminate
           | context [let (_, _) := ?p in _] => destruct p
           | context [if ?b then _ else _] => destruct b; try discriminate
           end.
    now injection Hh as _ <- _. }
  destruct Ha as (t & Ha). exists a, t, cur4.
  split; [exact Ha |]. split; [exact Hstop |]. split; [exact Hn |].
  unfold derTSEQDecStop in Hstop.
  destruct (_ =? _) eqn:E in Hstop; [| discriminate].
  apply Nat.eqb_eq in E.
  unfold derTSEQDecStart in Ha. cbn [c_rest c_pos] in Ha.
  destruct (derTIsValid 0x7F4E && derTIsConstructed 0x7F4E);
    [| discriminate].
  destruct (derTDec2 body 0x7F4E); [| discriminate].
  destruct (derLDec _) as [[len l] |]; [| discriminate].
  injection Ha as <- _. cbn [a_pos a_tag a_len] in E |- *. lia.
Qed.

(** C8: the body decoder fails when the version under tag [0x5F29] is not
    0, when the authority or the holder has a length outside 8..12, and when
    the bit length of the public key is none of 512, 768, 1024; unwrap then
    returns [ERR_BAD_FORMAT]; and on success the decoder returns the number
    of octets of the body it went through, which is the length of the code
    when the body is the code of a record. *)
Theorem C8_decoder_rejects :
  (forall (body : list octet) (st : btok_cvc_t) (a : der_anchor_t)
          (t v n : nat),
      derTSEQDecStart (mk_cursor 0 body) 0x7F4E = (a, Some t) ->
      derTSIZEDec (c_rest (after (mk_cursor 0 body) [t])) 0x5F29 =
      Some (v, n) ->
      v <> 0 ->
      btokCVCBodyDec body st = (cvc_zero, None)) /\
  (forall (body : list octet) (st : btok_cvc_t) (a : der_anchor_t)
          (t t1 l t2 : nat) (s : list octet),
      derTSEQDecStart (mk_cursor 0 body) 0x7F4E = (a, Some t) ->
      derTSIZEDec2 (c_rest (after (mk_cursor 0 body) [t])) 0x5F29 0 =
      Some t1 ->
      derTPSTRDec (c_rest (after (mk_cursor 0 body) [t; t1])) 0x42 =
      Some (s, l, t2) ->
      l < 8 \/ 12 < l ->
      btokCVCBodyDec body st = (cvc_zero, None)) /\
  (forall (body : list octet) (st : btok_cvc_t) (a b : der_anchor_t)
          (t t1 l t2 t3 t4 lb t5 : nat) (s bits : list octet),
      derTSEQDecStart (mk_cursor 0 body) 0x7F4E = (a, Some t) ->
      derTSIZEDec2 (c_rest (after (mk_cursor 0 body) [t])) 0x5F29 0 =
      Some t1 ->
      derTPSTRDec (c_rest (after (mk_cursor 0 body) [t; t1])) 0x42 =
      Some (s, l, t2) ->
      8 <= l <= 12 ->
      derTSEQDecStart (after (mk_cursor 0 body) [t; t1; t2]) 0x7F49 =
      (b, Some t3) ->
      derOIDDec2 (c_rest (after (mk_cursor 0 body) [t; t1; t2; t3]))
                 oid_bign_pubkey = Some t4 ->
      derBITDec (c_rest (after (mk_cursor 0 body) [t; t1; t2; t3; t4])) =
      Some (bits, lb, t5) ->
      lb <> 512 -> lb <> 768 -> lb <> 1024 ->
      btokCVCBodyDec body st = (set_authority cvc_zero s, None)) /\
  (forall (body : list octet) (st : btok_cvc_t) (a b : der_anchor_t)
          (t t1 l t2 t3 t4 lb t5 z l' t6 : nat) (s bits s' : list octet),
      derTSEQDecStart (mk_cursor 0 body) 0x7F4E = (a, Some t) ->
      derTSIZEDec2 (c_rest (after (mk_cursor 0 body) [t])) 0x5F29 0 =
      Some t1 ->
      derTPSTRDec (c_rest (after (mk_cursor 0 body) [t; t1])) 0x42 =
      Some (s, l, t2) ->
      8 <= l <= 12 ->
      derTSEQDecStart (after (mk_cursor 0 body) [t; t1; t2]) 0x7F49 =
      (b, Some t3) ->
      derOIDDec2 (c_rest (after (mk_cursor 0 body) [t; t1; t2; t3]))
                 oid_bign_pubkey = Some t4 ->
      derBITDec (c_rest (after (mk_cursor 0 body) [t; t1; t2; t3; t4])) =
      Some (bits, lb, t5) ->
      lb = 512 \/ lb = 768 \/ lb = 1024 ->
      derTSEQDecStop (after (mk_cursor 0 body) [t; t1; t2; t3; t4; t5]) b =
      Some z ->
      derTPSTRDec
        (c_rest (after (mk_cursor 0 body) [t; t1; t2; t3; t4; t5; z]))
        0x5F20 = Some (s', l', t6) ->
      l' < 8 \/ 12 < l' ->
      snd (btokCVCBodyDec body st) = None) /\
  (forall (st c : btok_cvc_t) (cert key : list octet) (a : der_anchor_t)
          (t : nat),
      length key = 0 \/ length key = 64 \/ length key = 96 \/
      length key = 128 ->
      derTSEQDecStart (mk_cursor 0 cert) 0x7F21 = (a, Some t) ->
      btokCVCBodyDec (skipn t cert) cvc_zero = (c, None) ->
      btokCVCUnwrap st cert key = Ret (ERR_BAD_FORMAT, c)) /\
  (forall (body : list octet) (st c : btok_cvc_t) (n : nat),
      btokCVCBodyDec body st = (c, Some n) ->
      exists a t cur,
        derTSEQDecStart (mk_cursor 0 body) 0x7F4E = (a, Some t) /\
        derTSEQDecStop cur a = Some 0 /\
        n = c_pos cur + 0 /\
        n = length (derTEnc 0x7F4E) + length (derLEnc (a_len a)) + a_len a) /\
  (forall (cvc st : btok_cvc_t) (trailing : list octet),
      names_ok cvc = true ->
      pubkey_len cvc = 64 \/ pubkey_len cvc = 96 \/ pubkey_len cvc = 128 ->
      body_layout cvc = true ->
      derStartsWith trailing 0x65 = false ->
      btokCVCBodyDec (body_code cvc ++ trailing) st =
      (decoded cvc, Some (length (body_code cvc)))).
Proof.
  split; [exact BodyDec_version_rejected |].
  split; [exact BodyDec_authority_rejected |].
  split; [exact BodyDec_pubkey_rejected |].
  split; [exact BodyDec_holder_rejected |].
  split; [exact unwrap_body_rejected |].
  split; [exact btokCVCBodyDec_consumed |].
  exact btokCVCBodyDec_code.
Qed.

End Rejects.



(** ** A concrete run of the decoder on a body of version 1 *)

Module ToyReject.

Definition body_v1 : list octet :=
  derEnc 0x7F4E (derEnc 0x5F29 [x01] ++ derEnc 0x42 Toy.name1).

Definition cert_v1 : list octet := derEnc 0x7F21 body_v1.

End ToyReject.

Lemma C8_decoder_rejects_witness :
  derTSEQDecStart (mk_cursor 0 ToyReject.body_v1) 0x7F4E =
  (mk_anchor 0 0x7F4E 14, Some 3) /\
  derTSIZEDec (c_rest (after (mk_cursor 0 ToyReject.body_v1) [3])) 0x5F29 =
  Some (1, 4) /\
  btokCVCBodyDec ToyReject.body_v1 Toy.cvc0 = (cvc_zero, None) /\
  @btokCVCUnwrap Toy.collab Toy.cvc0 ToyReject.cert_v1 [] =
  Ret (ERR_BAD_FORMAT, cvc_zero).
Proof.
  assert (H0 : derTSEQDecStart (mk_cursor 0 ToyReject.body_v1) 0x7F4E =
               (mk_anchor 0 0x7F4E 14, Some 3)) by (vm_compute; reflexivity).
  assert (H1 : derTSIZEDec
                 (c_rest (after (mk_cursor 0 ToyReject.body_v1) [3])) 0x5F29 =
               Some (1, 4)) by (vm_compute; reflexivity).
  assert (H2 : derTSEQDecStart (mk_cursor 0 ToyReject.cert_v1) 0x7F21 =
               (mk_anchor 0 0x7F21 17, Some 3)) by (vm_compute; reflexivity).
  assert (H3 : skipn 3 ToyReject.cert_v1 = ToyReject.body_v1)
    by (vm_compute; reflexivity).
  destruct (@C8_decoder_rejects Toy.collab) as (Hv & _ & _ & _ & Hu & _).
  pose proof (Hv ToyReject.body_v1 Toy.cvc0 _ 3 1 4 H0 H1
                ltac:(discriminate)) as Hd.
  split; [exact H0 |]. split; [exact H1 |]. split; [exact Hd |].
  apply (Hu Toy.cvc0 cvc_zero ToyReject.cert_v1 [] _ 3
            (or_introl eq_refl) H2).
  rewrite H3. exact (Hv ToyReject.body_v1 cvc_zero _ 3 1 4 H0 H1
                        ltac:(discriminate)).
Defined.

(** ** Signing, verifying and the levels of keys *)

Section Levels.

Context {collab : Collab} {laws : CollabLaws collab}.

Lemma std_params_for (p : nat) :
  key_len_ok p -> params_for (2 * p) = std_params p.
Proof. intros [-> | [-> | ->]]; reflexivity. Qed.

(** X1: a signature that [btokSign] returns with [ERR_OK] has the length
    of its level and passes [btokVerify] on the same octets under the key
    that [btokPubkeyCalc] derives from the private key. *)
Theorem btokSign_then_btokVerify (buf privkey pub s : list octet) :
  btokSign buf privkey = Ret (ERR_OK, Some s) ->
  btokPubkeyCalc privkey = (ERR_OK, Some pub) ->
  length s = length privkey + length privkey / 2 /\
  length pub = 2 * length privkey /\
  btokVerify buf s pub (length pub) = Ret ERR_OK.
Proof.
  intros Hsign Hcalc.
  apply btokPubkeyCalc_some in Hcalc.
  destruct Hcalc as (Hkey & c & params' & Hstd & Hc & Hpub).
  rewrite btokSign_pure in Hsign by assumption. injection Hsign as Hsign.
  apply sign_pure_ok in Hsign.
  destruct Hsign as (code & params & der & hash & s' & Hblob & Hload & Hs & E).
  injection E as <-.
  pose proof Hload as Hstd'. apply level_load_some in Hstd'.
  destruct Hstd' as (c' & Hstd' & _).
  rewrite Hstd in Hstd'. injection Hstd' as _ <-.
  pose proof Hpub as Hlen. apply calc_len in Hlen.
  pose proof Hs as Hsl. apply sign_len in Hsl.
  pose proof Hpub as Hval. apply calc_valid in Hval.
  pose proof Hkey as Hq. apply key_len_quarter in Hq. destruct Hq as (Hq & _).
  split; [exact Hsl | split; [exact Hlen |]].
  rewrite Hlen, btokVerify_pure by assumption. f_equal.
  unfold verify_pure.
  replace (blobCreate (sizeof_bign_params + 16 + 2 * length privkey / 2))
    with true
    by (symmetry; eapply alloc_mono; [exact Hblob |];
        pose proof (Nat.Div0.div_le_upper_bound (2 * length privkey) 2
                      (2 * length privkey)); lia).
  cbn [negb]. rewrite Hload.
  rewrite <- Hlen, firstn_all, Hval. cbn [is_ok negb].
  rewrite Hlen, Hq, <- Hsl, firstn_all.
  eapply sign_verify; eassumption.
Qed.

(** X2: the key that [btokPubkeyCalc] derives has twice the length of the
    private key and passes [btokPubkeyVal]: the two functions select the
    same standard parameters for the same level. *)
Theorem btokPubkeyCalc_then_btokPubkeyVal (privkey pub : list octet) :
  btokPubkeyCalc privkey = (ERR_OK, Some pub) ->
  (length privkey = 32 \/ length privkey = 48 \/ length privkey = 64) /\
  length pub = 2 * length privkey /\
  btokPubkeyVal pub (length pub) = ERR_OK.
Proof.
  intros Hcalc. apply btokPubkeyCalc_some in Hcalc.
  destruct Hcalc as (Hkey & c & params & Hstd & Hc & Hpub).
  pose proof Hpub as Hlen. apply calc_len in Hlen.
  split; [exact Hkey | split; [exact Hlen |]].
  rewrite Hlen, btokPubkeyVal_good_len
    by (destruct Hkey as [-> | [-> | ->]]; auto).
  rewrite std_params_for, Hstd by assumption. cbn [fst snd].
  rewrite Hc. cbn [negb].
  rewrite <- Hlen, firstn_all. eapply calc_valid; eassumption.
Qed.

End Levels.

(** ** What a failing wrap leaves behind *)

Section WrapFrame.

Context {collab : Collab}.

(** Building the public key touches [pubkey] and [pubkey_len] only, and
    nothing when [pubkey_len] is not 0. *)
Lemma Wrap_build_pubkey_frame (cvc cvc1 : btok_cvc_t) (privkey : list octet)
      (code : err_t) :
  Wrap_build_pubkey cvc privkey = (code, cvc1) ->
  authority cvc1 = authority cvc /\ holder cvc1 = holder cvc /\
  hat_eid cvc1 = hat_eid cvc /\ hat_esign cvc1 = hat_esign cvc /\
  from cvc1 = from cvc /\ until cvc1 = until cvc /\
  sig cvc1 = sig cvc /\ sig_len cvc1 = sig_len cvc /\
  (pubkey_len cvc <> 0 -> cvc1 = cvc /\ code = ERR_OK) /\
  (code <> ERR_OK -> pubkey_len cvc1 = pubkey_len cvc) /\
  (pubkey_len cvc = 0 -> fst (btokPubkeyCalc privkey) = ERR_OK ->
   code = ERR_OK /\ pubkey_len cvc1 = 2 * length privkey).
Proof.
  unfold Wrap_build_pubkey.
  destruct (pubkey_len cvc =? 0) eqn:Hz.
  - apply Nat.eqb_eq in Hz.
    destruct (btokPubkeyCalc privkey) as [c [pub |]];
      destruct (negb (is_ok c)) eqn:Hc; intros H; injection H as <- <-;
      cbn [authority holder hat_eid hat_esign from until sig sig_len
           pubkey_len set_pubkey set_pubkey_len fst];
      repeat split; try reflexivity; try (intros; congruence);
      try (intros H; exfalso; now apply H);
      try (intros _ ->; discriminate);
      try (intros; subst c; discriminate).
  - apply Nat.eqb_neq in Hz. intros H. injection H as <- <-.
    repeat split; intros; congruence.
Qed.

(** X3: when [btokCVCWrap] returns an error it stores no length and leaves
    the names, the access templates, the dates and [sig_len] of the record
    as they were; [pubkey] and [pubkey_len] too unless [pubkey_len] was 0,
    and [sig] too when no buffer was given; when [pubkey_len] was 0 and the
    key could be derived, the record keeps the new [pubkey_len] although
    the call failed; a private key of a wrong length gives [ERR_BAD_INPUT]
    with the record untouched and the signer not called. *)
Theorem btokCVCWrap_failure_frame (cert cert_len : bool) (cvc : btok_cvc_t)
        (privkey : list octet) (r : wrap_result) :
  btokCVCWrap cert cert_len cvc privkey = Ret r -> w_code r <> ERR_OK ->
  w_cert_len r = None /\
  authority (w_cvc r) = authority cvc /\ holder (w_cvc r) = holder cvc /\
  hat_eid (w_cvc r) = hat_eid cvc /\ hat_esign (w_cvc r) = hat_esign cvc /\
  from (w_cvc r) = from cvc /\ until (w_cvc r) = until cvc /\
  sig_len (w_cvc r) = sig_len cvc /\
  (pubkey_len cvc <> 0 ->
   pubkey (w_cvc r) = pubkey cvc /\ pubkey_len (w_cvc r) = pubkey_len cvc) /\
  (cert = false -> sig (w_cvc r) = sig cvc /\ w_trace r = []) /\
  (pubkey_len cvc = 0 -> fst (btokPubkeyCalc privkey) = ERR_OK ->
   pubkey_len (w_cvc r) = 2 * length privkey) /\
  (length privkey <> 32 -> length privkey <> 48 -> length privkey <> 64 ->
   w_code r = ERR_BAD_INPUT /\ w_cvc r = cvc /\ w_trace r = []).
Proof.
  rewrite btokCVCWrap_pure. intros H Hbad. injection H as <-.
  revert Hbad. unfold wrap_pure.
  destruct (negb (length privkey =? 32) && negb (length privkey =? 48) &&
            negb (length privkey =? 64)) eqn:Hlen.
  { intros _. cbn [w_code w_cert_len w_cvc w_trace].
    repeat split; try reflexivity.
    intros _ H0. unfold btokPubkeyCalc in H0. rewrite Hlen in H0.
    discriminate. }
  assert (Hk : ~ (length privkey <> 32 /\ length privkey <> 48 /\
                  length privkey <> 64)).
  { intros (H1 & H2 & H3). apply Nat.eqb_neq in H1, H2, H3.
    rewrite H1, H2, H3 in Hlen. discriminate. }
  destruct (Wrap_build_pubkey cvc privkey) as [code cvc1] eqn:Hb.
  apply Wrap_build_pubkey_frame in Hb.
  destruct Hb
    as (Ha & Hh & He & Hs & Hf & Hu & Hsig & Hsl & Hnz & Hfail & Hmat).
  assert (Hkey : pubkey_len cvc <> 0 ->
                 pubkey cvc1 = pubkey cvc /\ pubkey_len cvc1 = pubkey_len cvc)
    by (intros Hq; destruct (Hnz Hq) as (-> & _); now split).
  assert (Hm : pubkey_len cvc = 0 -> fst (btokPubkeyCalc privkey) = ERR_OK ->
               pubkey_len cvc1 = 2 * length privkey)
    by (intros Hq H0; now destruct (Hmat Hq H0)).
  assert (Hrest :
            forall c2, authority c2 = authority cvc1 -> holder c2 = holder cvc1 ->
              hat_eid c2 = hat_eid cvc1 -> hat_esign c2 = hat_esign cvc1 ->
              from c2 = from cvc1 -> until c2 = until cvc1 ->
              sig_len c2 = sig_len cvc1 -> pubkey c2 = pubkey cvc1 ->
              pubkey_len c2 = pubkey_len cvc1 ->
              authority c2 = authority cvc /\ holder c2 = holder cvc /\
              hat_eid c2 = hat_eid cvc /\ hat_esign c2 = hat_esign cvc /\
              from c2 = from cvc /\ until c2 = until cvc /\
              sig_len c2 = sig_len cvc /\
              (pubkey_len cvc <> 0 ->
               pubkey c2 = pubkey cvc /\ pubkey_len c2 = pubkey_len cvc) /\
              (pubkey_len cvc = 0 ->
               fst (btokPubkeyCalc privkey) = ERR_OK ->
               pubkey_len c2 = 2 * length privkey)).
  { intros c2 E1 E2 E3 E4 E5 E6 E7 E8 E9.
    rewrite E1, E2, E3, E4, E5, E6, E7, E8, E9.
    repeat (split; [assumption |]). exact Hm. }
  assert (Hlast : length privkey <> 32 -> length privkey <> 48 ->
                  length privkey <> 64 -> False) by (intros; apply Hk; auto).
  destruct (negb (is_ok code)) eqn:Hc.
  { intros _. cbn [w_code w_cert_len w_cvc w_trace].
    destruct (Hrest cvc1) as (R1 & R2 & R3 & R4 & R5 & R6 & R7 & R8 & R9);
      try reflexivity.
    repeat (split; [reflexivity || assumption |]).
    split; [intros _; split; [assumption | reflexivity] |].
    split; [assumption |]. intros H1 H2 H3. destruct (Hlast H1 H2 H3). }
  destruct (negb (is_ok (check_code cvc1))) eqn:Hchk.
  { intros _. cbn [w_code w_cert_len w_cvc w_trace].
    destruct (Hrest cvc1) as (R1 & R2 & R3 & R4 & R5 & R6 & R7 & R8 & R9);
      try reflexivity.
    repeat (split; [reflexivity || assumption |]).
    split; [intros _; split; [assumption | reflexivity] |].
    split; [assumption |]. intros H1 H2 H3. destruct (Hlast H1 H2 H3). }
  destruct cert.
  - destruct (sign_pure (body_code cvc1) privkey) as [scode written].
    destruct (negb (is_ok scode)) eqn:Hsc.
    + intros _. cbn [w_code w_cert_len w_cvc w_trace].
      destruct (Hrest match written with
                      | Some s => set_sig cvc1 (Mem.memWrite (sig cvc1) s)
                      | None => cvc1
                      end)
        as (R1 & R2 & R3 & R4 & R5 & R6 & R7 & R8 & R9);
        try (destruct written; reflexivity).
      repeat (split; [reflexivity || assumption |]).
      split; [discriminate |].
      split; [assumption |]. intros H1 H2 H3. destruct (Hlast H1 H2 H3).
    + cbn [w_code]. intros H. now contradiction H.
  - cbn [w_code]. intros H. now contradiction H.
Qed.

End WrapFrame.

(** ** What wrap signs *)

Section WrapSigns.

Context {collab : Collab}.

(** X4: a call of [btokCVCWrap] with a buffer that returns [ERR_OK] has
    called the signer once, on the octets that [btokCVCBodyEnc] gives for
    the record it leaves; the certificate is the element [0x7F21] holding
    these octets and the element [0x5F37] with the first [sig_len] octets
    of [sig], which start with what the signer returned; the length stored
    is the length of the certificate. *)
Theorem btokCVCWrap_signs_body (cert_len : bool) (cvc : btok_cvc_t)
        (privkey c : list octet) (r : wrap_result) :
  btokCVCWrap true cert_len cvc privkey = Ret r ->
  w_code r = ERR_OK -> w_cert r = Some c ->
  exists body s,
    btokCVCBodyEnc true (w_cvc r) = Ret (Some body, length body) /\
    w_trace r = [EvSign body privkey] /\
    btokSign body privkey = Ret (ERR_OK, Some s) /\
    firstn (length s) (sig (w_cvc r)) = s /\
    c = derEnc 0x7F21
          (body ++
           derEnc 0x5F37 (firstn (sig_len (w_cvc r)) (sig (w_cvc r)))) /\
    w_cert_len r = (if cert_len then Some (length c) else None).
Proof.
  rewrite btokCVCWrap_pure. intros H Hok Hc. injection H as <-.
  destruct (wrap_real_inv _ _ _ Hok)
    as (cvc1 & written & Hkey & Hb & Hchk & Hs & Hr).
  pose proof Hs as Hs'. apply sign_pure_ok in Hs'.
  destruct Hs' as (code & params & der & hash & s & _ & _ & _ & ->).
  cbv zeta in Hr. rewrite Hr in Hc |- *.
  cbn [w_cert w_cvc w_trace w_cert_len] in Hc |- *. injection Hc as <-.
  exists (body_code cvc1), s.
  split.
  { rewrite (@btokCVCBodyEnc_code true); [reflexivity |].
    apply check_ok_seems_valid. rewrite btokCVCCheck_code. now f_equal. }
  split; [reflexivity |].
  split; [rewrite btokSign_pure by assumption; now f_equal |].
  split; [apply firstn_memWrite |].
  split; reflexivity.
Qed.

End WrapSigns.

(** ** The sizes of the fields after decoding *)

Section Fits.

Context {collab : Collab}.

(** Every field within its array: the names with their terminating zero
    in 13 octets, the key in 128, the access templates in 5 and 2, the dates
    in 6, the signature in 96. *)
Definition fits (c : btok_cvc_t) : Prop :=
  length (authority c) <= 12 /\ length (holder c) <= 12 /\
  length (pubkey c) = sizeof_pubkey /\ pubkey_len c <= sizeof_pubkey /\
  length (hat_eid c) = 5 /\ length (hat_esign c) = 2 /\
  length (from c) = 6 /\ length (until c) = 6 /\
  length (sig c) = sizeof_sig /\ sig_len c <= sizeof_sig.

Lemma fits_zero : fits cvc_zero.
Proof. unfold fits, sizeof_pubkey, sizeof_sig. cbn. lia. Qed.

Lemma memWrite_fits (buf src : list octet) (n : nat) :
  length buf = n -> length src <= n -> length (Mem.memWrite buf src) = n.
Proof.
  intros Hb Hs. unfold Mem.memWrite. rewrite length_app, length_skipn. lia.
Qed.

Lemma derDec3_length (der : list octet) (tag : N) (len t : nat)
      (v : list octet) :
  derDec3 der tag len = Some (v, t) -> length v = len.
Proof.
  unfold derDec3. destruct (derDec2 der tag) as [[val t'] |]; [| discriminate].
  destruct (length val =? len) eqn:E; [| discriminate].
  intros H. injection H as <- _. now apply Nat.eqb_eq.
Qed.

Lemma derTPSTRDec_length (der : list octet) (tag : N) (l t : nat)
      (s : list octet) :
  derTPSTRDec der tag = Some (s, l, t) -> length s = l.
Proof.
  unfold derTPSTRDec. destruct (derDec2 der tag) as [[val t'] |];
    [| discriminate].
  destruct (Str.strIsPrintable val); [| discriminate].
  intros H. now injection H as <- <- _.
Qed.

Lemma derBITDec_length (der : list octet) (lb t : nat) (v : list octet) :
  derBITDec der = Some (v, lb, t) ->
  lb = 512 \/ lb = 768 \/ lb = 1024 ->
  length v = lb / 8 /\ lb / 8 <= sizeof_pubkey.
Proof.
  unfold derBITDec. destruct (derDec2 der 0x03) as [[[| u val] t'] |];
    try discriminate.
  destruct ((7 <? oct u) || _) eqn:E; [discriminate |].
  apply orb_false_iff in E. destruct E as (E & _). apply Nat.ltb_ge in E.
  intros H. injection H as <- <- _. unfold sizeof_pubkey.
  intros [Hl | [Hl | Hl]]; rewrite Hl;
    change (512 / 8) with 64; change (768 / 8) with 96;
    change (1024 / 8) with 128; lia.
Qed.

Lemma keeps_lift_bind {A B : Type} (P : btok_cvc_t -> Prop) (o : option A)
      (k : A -> dec B) :
  (forall a, o = Some a -> keeps P (k a)) -> keeps P (dbind (dlift o) k).
Proof.
  intros Hk st st' r. unfold dbind, dlift. destruct o as [a |].
  - intros H HP. eapply Hk; eauto.
  - intros H HP. now injection H as <- _.
Qed.

Lemma keeps_guard_bind {B : Type} (P : btok_cvc_t -> Prop) (b : bool)
      (k : dec B) :
  (b = true -> keeps P k) -> keeps P (dbind (dguard b) (fun _ => k)).
Proof.
  intros Hk st st' r. unfold dbind, dguard. destruct b.
  - intros H HP. eapply Hk; eauto.
  - intros H HP. now injection H as <- _.
Qed.

Lemma keeps_modify_bind {B : Type} (P : btok_cvc_t -> Prop)
      (f : btok_cvc_t -> btok_cvc_t) (k : dec B) :
  (forall c, P c -> P (f c)) -> keeps P k ->
  keeps P (dbind (dmodify f) (fun _ => k)).
Proof.
  intros Hf Hk st st' r. unfold dbind, dmodify.
  intros H HP. eapply Hk; eauto.
Qed.

Lemma keeps_step_bind {B : Type} (P : btok_cvc_t -> Prop) (t : option nat)
      (cur : cursor) (k : cursor -> dec B) :
  (forall cur', keeps P (k cur')) -> keeps P (dbind (derDecStep t cur) k).
Proof. intros Hk. apply keeps_dbind; [apply keeps_derDecStep | exact Hk]. Qed.

Ltac fits_field :=
  intros ? (? & ? & ? & ? & ? & ? & ? & ? & ? & ?);
  unfold fits, sizeof_pubkey, sizeof_sig in *;
  cbn [authority holder pubkey pubkey_len hat_eid hat_esign from until sig
       sig_len set_authority set_holder set_pubkey set_pubkey_len
       set_hat_eid set_hat_esign set_from set_until set_sig set_sig_len];
  rewrite ?(@memWrite_fits _ _ 128), ?(@memWrite_fits _ _ 5),
    ?(@memWrite_fits _ _ 2), ?(@memWrite_fits _ _ 6),
    ?(@memWrite_fits _ _ 96) by lia;
  lia.

Lemma name_guard_le (l : nat) :
  negb ((l <? 8) || (12 <? l)) = true -> l <= 12.
Proof.
  intros H. apply negb_true_iff, orb_false_iff in H.
  destruct H as (_ & H). now apply Nat.ltb_ge in H.
Qed.

Lemma bits_guard_set (l : nat) :
  negb (negb (l =? 512) && negb (l =? 768) && negb (l =? 1024)) = true ->
  l = 512 \/ l = 768 \/ l = 1024.
Proof.
  destruct (l =? 512) eqn:E1; [apply Nat.eqb_eq in E1; auto |].
  destruct (l =? 768) eqn:E2; [apply Nat.eqb_eq in E2; auto |].
  destruct (l =? 1024) eqn:E3; [apply Nat.eqb_eq in E3; auto |].
  discriminate.
Qed.

Lemma BodyDec_head_fits (cur : cursor) : keeps fits (BodyDec_head cur).
Proof.
  unfold BodyDec_head.
  destruct (derTSEQDecStart cur 0x7F4E) as [CertBody t].
  apply keeps_step_bind; intros cur1.
  apply keeps_step_bind; intros cur2.
  apply keeps_lift_bind; intros [[s l] t2] Ha.
  apply keeps_guard_bind; intros Hg. cbn [fst snd] in Hg.
  apply keeps_lift_bind; intros [[s' l'] t2'] Ha'.
  rewrite Ha in Ha'. injection Ha' as <- <- <-.
  apply derTPSTRDec_length in Ha. apply name_guard_le in Hg.
  apply keeps_modify_bind; [cbn [fst snd]; fits_field |].
  apply keeps_step_bind; intros cur3.
  destruct (derTSEQDecStart cur3 0x7F49) as [PubKey t3].
  apply keeps_step_bind; intros cur4.
  apply keeps_step_bind; intros cur5.
  apply keeps_lift_bind; intros [[bits lb] t5] Hb.
  apply keeps_guard_bind; intros Hgb. cbn [fst snd] in Hgb.
  apply bits_guard_set in Hgb.
  destruct (derBITDec_length _ Hb Hgb) as (Lbits & Lb).
  apply keeps_modify_bind; [cbn [fst snd]; fits_field |].
  apply keeps_lift_bind; intros [[bits' lb'] t5'] Hb'.
  rewrite Hb in Hb'. injection Hb' as <- <- <-.
  apply keeps_modify_bind; [cbn [fst snd]; fits_field |].
  apply keeps_step_bind; intros cur6.
  apply keeps_step_bind; intros cur7.
  apply keeps_lift_bind; intros [[h lh] t6] Hh.
  apply keeps_guard_bind; intros Hgh. cbn [fst snd] in Hgh.
  apply keeps_lift_bind; intros [[h' lh'] t6'] Hh'.
  rewrite Hh in Hh'. injection Hh' as <- <- <-.
  apply derTPSTRDec_length in Hh. apply name_guard_le in Hgh.
  apply keeps_modify_bind; [cbn [fst snd]; fits_field |].
  apply keeps_step_bind; intros cur8.
  apply keeps_dret.
Qed.

Lemma BodyDec_CertHAT_fits (cur : cursor) : keeps fits (BodyDec_CertHAT cur).
Proof.
  unfold BodyDec_CertHAT.
  destruct (derStartsWith (c_rest cur) 0x7F4C); [| apply keeps_dret].
  destruct (derTSEQDecStart cur 0x7F4C) as [CertHAT t].
  apply keeps_step_bind; intros cur1.
  apply keeps_step_bind; intros cur2.
  apply keeps_lift_bind; intros [v t2] Hv.
  apply derDec3_length in Hv.
  apply keeps_modify_bind; [cbn [fst snd]; fits_field |].
  apply keeps_step_bind; intros cur3.
  apply keeps_derDecStep.
Qed.

Lemma BodyDec_dates_fits (cur : cursor) : keeps fits (BodyDec_dates cur).
Proof.
  unfold BodyDec_dates.
  apply keeps_lift_bind; intros [v t] Hv. apply derDec3_length in Hv.
  apply keeps_modify_bind; [cbn [fst snd]; fits_field |].
  apply keeps_step_bind; intros cur1.
  apply keeps_lift_bind; intros [v' t'] Hv'. apply derDec3_length in Hv'.
  apply keeps_modify_bind; [cbn [fst snd]; fits_field |].
  apply keeps_derDecStep.
Qed.

Lemma BodyDec_CVExt_fits (cur : cursor) : keeps fits (BodyDec_CVExt cur).
Proof.
  unfold BodyDec_CVExt.
  destruct (derStartsWith (c_rest cur) 0x65); [| apply keeps_dret].
  destruct (derTSEQDecStart cur 0x65) as [CVExt t].
  apply keeps_step_bind; intros cur1.
  destruct (derTSEQDecStart cur1 0x73) as [DDT u].
  apply keeps_step_bind; intros cur2.
  apply keeps_step_bind; intros cur3.
  apply keeps_lift_bind; intros [v t2] Hv.
  apply derDec3_length in Hv.
  apply keeps_modify_bind; [cbn [fst snd]; fits_field |].
  apply keeps_step_bind; intros cur4.
  apply keeps_step_bind; intros cur5.
  apply keeps_derDecStep.
Qed.

Lemma btokCVCBodyDec_fits (body : list octet) (st : btok_cvc_t) :
  fits (fst (btokCVCBodyDec body st)).
Proof.
  rewrite btokCVCBodyDec_blocks.
  assert (K : keeps fits
                (dbind (BodyDec_head (mk_cursor 0 body))
                   (fun h =>
                      dbind (BodyDec_CertHAT (snd h))
                        (fun cur =>
                           dbind (BodyDec_dates cur)
                             (fun cur =>
                                dbind (BodyDec_CVExt cur)
                                  (fun cur =>
                                     dbind (derDecStep
                                              (derTSEQDecStop cur (fst h)) cur)
                                       (fun cur => dret (c_pos cur)))))))).
  { apply keeps_dbind; [apply BodyDec_head_fits | intros h].
    apply keeps_dbind; [apply BodyDec_CertHAT_fits | intros cur1].
    apply keeps_dbind; [apply BodyDec_dates_fits | intros cur2].
    apply keeps_dbind; [apply BodyDec_CVExt_fits | intros cur3].
    apply keeps_step_bind; intros cur4. apply keeps_dret. }
  match goal with
  | |- fits (fst (?d cvc_zero)) =>
      destruct (d cvc_zero) as [c r] eqn:E
  end.
  exact (K _ _ _ E fits_zero).
Qed.

Lemma sig_len_by_trial_le (der : list octet) :
  snd (sig_len_by_trial der) <= sizeof_sig.
Proof.
  unfold sig_len_by_trial, sizeof_sig.
  destruct (negb (is_SIZE_MAX (derDec3 der 0x5F37 48))); [cbn; lia |].
  destruct (negb (is_SIZE_MAX (derDec3 der 0x5F37 72))); cbn; lia.
Qed.

(** X5: the body decoder and [btokCVCUnwrap] keep every field of the
    record within its array, whatever the input: names of at most 12
    characters, [pubkey_len] at most 128, [sig_len] at most 96, and the
    arrays at their sizes; with a key of a length other than 0, 64, 96, 128
    [btokCVCUnwrap] returns [ERR_BAD_INPUT] and the record as it was. *)
Theorem decoded_record_fits :
  (forall (body : list octet) (st : btok_cvc_t),
      fits (fst (btokCVCBodyDec body st))) /\
  (forall (st c : btok_cvc_t) (cert key : list octet) (code : err_t),
      length key = 0 \/ length key = 64 \/ length key = 96 \/
      length key = 128 ->
      btokCVCUnwrap st cert key = Ret (code, c) -> fits c) /\
  (forall (st : btok_cvc_t) (cert key : list octet),
      length key <> 0 -> length key <> 64 -> length key <> 96 ->
      length key <> 128 ->
      btokCVCUnwrap st cert key = Ret (ERR_BAD_INPUT, st)).
Proof.
  split; [exact btokCVCBodyDec_fits |]. split.
  - intros st c cert key code Hk. unfold btokCVCUnwrap.
    replace (negb (length key =? 0) && negb (length key =? 64) &&
             negb (length key =? 96) && negb (length key =? 128)) with false
      by (destruct Hk as [-> | [-> | [-> | ->]]]; reflexivity).
    destruct (derTSEQDecStart _ _) as [a [t |]];
      [| intros H; injection H as _ <-; apply fits_zero].
    pose proof (btokCVCBodyDec_fits (c_rest (advance (mk_cursor 0 cert) t))
                  cvc_zero) as Hf.
    destruct (btokCVCBodyDec _ _) as [c0 [n |]]; cbn [fst] in Hf;
      [| intros H; now injection H as _ <-].
    set (rest := c_rest (advance (advance (mk_cursor 0 cert) t) n)).
    assert (Hf1 : forall L, L <= sizeof_sig -> fits (set_sig_len c0 L)).
    { intros L HL. revert Hf. unfold fits, sizeof_sig in *.
      cbn [authority holder pubkey pubkey_len hat_eid hat_esign from until
           sig sig_len set_sig_len]. intuition. }
    assert (Hfit :
              exists c1, fits c1 /\
                (let (bad, cvc) :=
                   if length key =? 0
                   then
                     let (bad, sig_len) := sig_len_by_trial rest in
                     if bad then (true, c0)
                     else (false, set_sig_len c0 sig_len)
                   else (false, set_sig_len c0 (length key - length key / 4))
                 in (bad, cvc)) =
                (fst (let (bad, cvc) :=
                   if length key =? 0
                   then
                     let (bad, sig_len) := sig_len_by_trial rest in
                     if bad then (true, c0)
                     else (false, set_sig_len c0 sig_len)
                   else (false, set_sig_len c0 (length key - length key / 4))
                 in (bad, cvc)), c1)).
    { destruct (length key =? 0) eqn:Hz.
      - pose proof (sig_len_by_trial_le rest) as HL.
        destruct (sig_len_by_trial rest) as [[|] L]; cbn [snd] in HL.
        + now exists c0.
        + exists (set_sig_len c0 L). split; [now apply Hf1 | reflexivity].
      - exists (set_sig_len c0 (length key - length key / 4)).
        split; [| reflexivity]. apply Hf1. unfold sizeof_sig.
        destruct Hk as [E | [E | [E | E]]]; rewrite E; cbn; lia. }
    destruct Hfit as (c1 & Hc1 & E).
    match type of E with
    | (let (bad, cvc) := ?x in _) = _ => destruct x as [bad c1']
    end.
    cbn [fst] in E. injection E as <-.
    destruct bad; [intros H; now injection H as _ <- |].
    destruct (derTOCTDec2 rest 0x5F37 (sig_len c1')) as [[s t'] |] eqn:Hs;
      [| intros H; now injection H as _ <-].
    apply derDec3_length in Hs.
    assert (Hc2 : fits (set_sig c1' (Mem.memWrite (sig c1') s))).
    { destruct Hc1 as (? & ? & ? & ? & ? & ? & ? & ? & ? & ?).
      unfold fits, sizeof_pubkey, sizeof_sig in *.
      cbn [authority holder pubkey pubkey_len hat_eid hat_esign from until
           sig sig_len set_sig].
      rewrite (@memWrite_fits _ _ 96) by lia. lia. }
    cbv zeta.
    match goal with
    | |- bind ?v _ = _ -> _ => destruct v as [vcode |]
    end; cbn [bind]; [| discriminate].
    destruct (negb (is_ok vcode)); [intros H; now injection H as _ <- |].
    destruct (derTSEQDecStop _ _); [| intros H; now injection H as _ <-].
    rewrite btokCVCCheck_code, bind_Ret. intros H. now injection H as _ <-.
  - intros st cert key H0 H1 H2 H3. unfold btokCVCUnwrap.
    apply Nat.eqb_neq in H0, H1, H2, H3. now rewrite H0, H1, H2, H3.
Qed.

End Fits.

(** ** What a successful unwrap has established *)

Section UnwrapPost.

Context {collab : Collab}.

Lemma derTSEQDecStop_zero (cur : cursor) (a : der_anchor_t) (z : nat) :
  derTSEQDecStop cur a = Some z -> derTSEQDecStop cur a = Some 0.
Proof.
  unfold derTSEQDecStop.
  destruct (a_pos a + length (derTEnc (a_tag a)) +
            length (derLEnc (a_len a)) + a_len a =? c_pos cur);
    [reflexivity | discriminate].
Qed.

(** X6: when [btokCVCUnwrap] returns [ERR_OK] the record it leaves passes
    [btokCVCCheck], its [sig_len] is 48, 72 or 96 and the certificate ends
    where its header says; with a key, [sig_len] is the length of the key
    minus a quarter of it and [btokVerify] has returned [ERR_OK] for the
    octets of the body, the signature of the record and that key. *)
Theorem btokCVCUnwrap_ok (st c : btok_cvc_t) (cert key : list octet) :
  btokCVCUnwrap st cert key = Ret (ERR_OK, c) ->
  btokCVCCheck c = Ret ERR_OK /\
  (sig_len c = 48 \/ sig_len c = 72 \/ sig_len c = 96) /\
  exists a t n s t',
    derTSEQDecStart (mk_cursor 0 cert) 0x7F21 = (a, Some t) /\
    snd (btokCVCBodyDec (skipn t cert) cvc_zero) = Some n /\
    derTOCTDec2 (skipn n (skipn t cert)) 0x5F37 (sig_len c) = Some (s, t') /\
    firstn (sig_len c) (sig c) = s /\
    derTSEQDecStop (after (mk_cursor 0 cert) [t; n; t']) a = Some 0 /\
    (length key <> 0 ->
     sig_len c = length key - length key / 4 /\
     btokVerify (firstn n (skipn t cert)) (sig c) key (length key) =
     Ret ERR_OK).
Proof.
  unfold btokCVCUnwrap.
  destruct (negb (length key =? 0) && negb (length key =? 64) &&
            negb (length key =? 96) && negb (length key =? 128)) eqn:Hk;
    [discriminate |].
  destruct (derTSEQDecStart _ _) as [a [t |]] eqn:Hstart; [| discriminate].
  unfold advance. cbn [c_rest c_pos].
  destruct (btokCVCBodyDec (skipn t cert) cvc_zero) as [c0 [n |]] eqn:Hbody;
    [| discriminate].
  set (rest := skipn n (skipn t cert)).
  assert (HL : forall bad c1,
             (if length key =? 0
              then
                let (bad, sig_len) := sig_len_by_trial rest in
                if bad then (true, c0) else (false, set_sig_len c0 sig_len)
              else (false, set_sig_len c0 (length key - length key / 4))) =
             (bad, c1) -> bad = false ->
             (sig_len c1 = 48 \/ sig_len c1 = 72 \/ sig_len c1 = 96) /\
             (length key <> 0 -> sig_len c1 = length key - length key / 4)).
  { intros bad c1. destruct (length key =? 0) eqn:Hz.
    - apply Nat.eqb_eq in Hz. unfold sig_len_by_trial.
      destruct (negb (is_SIZE_MAX (derDec3 rest 0x5F37 48)));
        [| destruct (negb (is_SIZE_MAX (derDec3 rest 0x5F37 72)));
           [| destruct (is_SIZE_MAX (derDec3 rest 0x5F37 96))]];
        intros H; injection H as <- <-; try discriminate; intros _;
        (split; [cbn; auto | intros Hq; now contradiction Hq]).
    - intros H _. injection H as _ <-. cbn [sig_len set_sig_len].
      split; [| reflexivity].
      rewrite ?Hz in Hk. cbn [negb andb] in Hk.
      destruct (length key =? 64) eqn:E1;
        [apply Nat.eqb_eq in E1; rewrite E1; auto |].
      destruct (length key =? 96) eqn:E2;
        [apply Nat.eqb_eq in E2; rewrite E2; auto |].
      destruct (length key =? 128) eqn:E3;
        [apply Nat.eqb_eq in E3; rewrite E3; auto | discriminate]. }
  match goal with
  | |- (let (bad, cvc) := ?x in _) = _ -> _ =>
      destruct x as [bad c1] eqn:Hsel
  end.
  destruct bad; [discriminate |].
  destruct (HL _ _ eq_refl eq_refl) as (HL1 & HL2). clear HL.
  destruct (derTOCTDec2 rest 0x5F37 (sig_len c1)) as [[s t'] |] eqn:Hs;
    [| discriminate].
  cbv zeta. cbn [sig set_sig].
  destruct (negb (length key =? 0)) eqn:Hz.
  - destruct (btokVerify _ _ key (length key)) as [vcode |] eqn:Hv;
      cbn [bind]; [| discriminate].
    destruct (is_ok vcode) eqn:Hvc; cbn [negb];
      [| intros H; injection H as -> _; discriminate].
    apply is_ok_true in Hvc. subst vcode.
    destruct (derTSEQDecStop _ _) as [z |] eqn:Hstop; [| discriminate].
    rewrite btokCVCCheck_code, bind_Ret. intros H. injection H as Hc <-.
    split; [rewrite btokCVCCheck_code; now f_equal |].
    split; [exact HL1 |].
    exists a, t, n, s, t'.
    split; [reflexivity |]. split; [now rewrite Hbody |].
    split; [exact Hs |].
    split; [cbn [sig sig_len set_sig]; apply derDec3_length in Hs;
            rewrite <- Hs; apply firstn_memWrite |].
    split; [apply derTSEQDecStop_zero in Hstop; exact Hstop |].
    intros Hq. split; [now apply HL2 | exact Hv].
  - cbn [bind is_ok negb].
    destruct (derTSEQDecStop _ _) as [z |] eqn:Hstop; [| discriminate].
    rewrite btokCVCCheck_code, bind_Ret. intros H. injection H as Hc <-.
    split; [rewrite btokCVCCheck_code; now f_equal |].
    split; [exact HL1 |].
    exists a, t, n, s, t'.
    split; [reflexivity |]. split; [now rewrite Hbody |].
    split; [exact Hs |].
    split; [cbn [sig sig_len set_sig]; apply derDec3_length in Hs;
            rewrite <- Hs; apply firstn_memWrite |].
    split; [apply derTSEQDecStop_zero in Hstop; exact Hstop |].
    intros Hq. apply negb_false_iff, Nat.eqb_eq in Hz. now contradiction Hq.
Qed.

End UnwrapPost.

(** ** A key of another level *)

Section OtherLevel.

Context {collab : Collab}.

Lemma unwrap_other_key (st c : btok_cvc_t) (key : list octet) (p : nat) :
  wrapped_ok c -> key_len_ok p -> length key = 2 * p ->
  sig_len c <> p + p / 2 ->
  btokCVCUnwrap st (cert_code c) key =
  Ret (ERR_BAD_FORMAT, set_sig_len (decoded c) (p + p / 2)).
Proof.
  intros [Hn Hk Hlay HL Hsig] Hp Hpub HLp.
  pose proof (@body_code_length c Hn ltac:(lia)) as Lbody.
  assert (Lsig : length (firstn (sig_len c) (sig c)) = sig_len c)
    by (rewrite length_firstn; lia).
  pose proof (@derEnc_le 0x5F37 (firstn (sig_len c) (sig c)) 96
                ltac:(lia) ltac:(lia)) as Bsig.
  destruct (key_len_quarter Hp) as (Hq & Hin & Hnz).
  unfold btokCVCUnwrap, cert_code. rewrite Hpub, Hin, Hnz.
  rewrite <- (app_nil_r (derEnc 0x7F21 _)).
  rewrite derTSEQDecStart_derEnc
    by (reflexivity || (rewrite length_app; lia)).
  rewrite advance_header. cbn [c_rest c_pos]. rewrite <- !app_assoc.
  rewrite btokCVCBodyDec_code by (assumption || apply derStartsWith_sig).
  rewrite advance_app. cbn [c_rest c_pos].
  rewrite Hq. cbn [set_sig_len sig_len sig negb].
  unfold derTOCTDec2.
  rewrite derDec3_other_length by (reflexivity || lia).
  reflexivity.
Qed.

(** X7: unwrapping a certificate written by [btokCVCWrap] with a key of
    another level than the private key that signed it returns
    [ERR_BAD_FORMAT]: the signature does not have the length that the key
    demands, and the verifier is not reached. *)
Theorem btokCVCUnwrap_other_level (cert_len : bool) (st cvc : btok_cvc_t)
        (privkey cert key : list octet) (r : wrap_result) :
  cvc_layout cvc = true ->
  btokCVCWrap true cert_len cvc privkey = Ret r ->
  w_code r = ERR_OK -> w_cert r = Some cert ->
  length key = 64 \/ length key = 96 \/ length key = 128 ->
  length key <> 2 * length privkey ->
  exists c',
    btokCVCUnwrap st cert key = Ret (ERR_BAD_FORMAT, c') /\
    sig_len c' = length key - length key / 4 /\
    sig c' = repeat x00 sizeof_sig.
Proof.
  intros Hlay Hwrap Hok Hcert Hk Hne.
  destruct (wrap_real_result _ _ _ Hlay Hwrap Hok Hcert)
    as (Hkey & Hw & -> & HL & _).
  assert (Hp : exists p, length key = 2 * p /\ key_len_ok p).
  { unfold key_len_ok.
    destruct Hk as [-> | [-> | ->]];
      [exists 32 | exists 48 | exists 64]; auto. }
  destruct Hp as (p & Hlen & Hp).
  exists (set_sig_len (decoded (w_cvc r)) (p + p / 2)).
  split.
  - apply unwrap_other_key; try assumption.
    rewrite HL. intros E.
    apply Hne. rewrite Hlen.
    destruct Hkey as [E1 | [E1 | E1]], Hp as [E2 | [E2 | E2]];
      rewrite E1, E2 in *; cbn in E; (reflexivity || discriminate).
  - cbn [sig_len sig set_sig_len decoded]. split; [| reflexivity].
    apply key_len_quarter in Hp. destruct Hp as (Hq & _).
    now rewrite Hlen, Hq.
Qed.

End OtherLevel.

(** ** The chain from issuer to certificate *)

Section Chain.

Context {collab : Collab} {laws : CollabLaws collab}.

(** The core of the round trip: what a successful wrap writes unwraps
    under the key derived from the private key. *)
Lemma wrap_unwrap_keyed (cert_len : bool) (st cvc : btok_cvc_t)
      (privkey pub cert : list octet) (r : wrap_result) :
  cvc_layout cvc = true ->
  btokCVCWrap true cert_len cvc privkey = Ret r ->
  w_code r = ERR_OK -> w_cert r = Some cert ->
  btokPubkeyCalc privkey = (ERR_OK, Some pub) ->
  btokCVCUnwrap st cert pub = Ret (ERR_OK, unwrapped (w_cvc r)).
Proof.
  intros Hlay Hwrap Hok Hcert Hcalc.
  destruct (wrap_real_result _ _ _ Hlay Hwrap Hok Hcert)
    as (Hkey & Hw & -> & HL & Hchk).
  assert (Hlen : length pub = 2 * length privkey).
  { pose proof Hcalc as H0. apply btokPubkeyCalc_some in H0.
    destruct H0 as (_ & c & params & _ & _ & Hpub).
    now apply calc_len in Hpub. }
  assert (Hver : verify_pure (body_code (w_cvc r)) (sig (unwrapped (w_cvc r)))
                             pub (length privkey) = ERR_OK).
  { rewrite btokCVCWrap_pure in Hwrap. injection Hwrap as <-.
    destruct (wrap_real_facts _ _ _ Hlay Hok)
      as (cvc1 & s & code & params & der & hash &
          _ & _ & _ & _ & Hblob & Hload & Hsign & Hr).
    cbv zeta in Hr. rewrite Hr. cbn [w_cvc].
    eapply wrap_verify; eassumption. }
  rewrite (@unwrap_with_key _ st (w_cvc r) pub (length privkey));
    try assumption.
  cbv zeta. rewrite Hver, Hchk. reflexivity.
Qed.

Lemma btokKeypairVal_ok (privkey pubkey : list octet) (n : nat) :
  btokKeypairVal privkey pubkey n = ERR_OK ->
  key_len_ok (length privkey) /\ n = 2 * length privkey /\
  exists c params,
    std_params (length privkey) = (c, params) /\ is_ok c = true /\
    bignValKeypair params privkey (firstn n pubkey) = ERR_OK.
Proof.
  unfold btokKeypairVal, std_params.
  destruct (negb (length privkey =? 32) && negb (length privkey =? 48) &&
            negb (length privkey =? 64)) eqn:Hlen; [discriminate |].
  destruct (n =? 2 * length privkey) eqn:Hn; cbn [negb]; [| discriminate].
  apply Nat.eqb_eq in Hn.
  destruct (bignStdParams _) as [c params].
  destruct (is_ok c) eqn:Hc; cbn [negb];
    [| intros ->; discriminate].
  intros H. split; [| split; [exact Hn |]].
  - unfold key_len_ok.
    destruct (length privkey =? 32) eqn:E1;
      [apply Nat.eqb_eq in E1; auto |].
    destruct (length privkey =? 48) eqn:E2;
      [apply Nat.eqb_eq in E2; auto |].
    destruct (length privkey =? 64) eqn:E3;
      [apply Nat.eqb_eq in E3; auto | discriminate].
  - now exists c, params.
Qed.

Lemma btokPubkeyCalc_from (privkey pub : list octet) (c : err_t)
      (params : bign_params) :
  key_len_ok (length privkey) ->
  std_params (length privkey) = (c, params) -> is_ok c = true ->
  bignCalcPubkey params privkey = (ERR_OK, pub) ->
  btokPubkeyCalc privkey = (ERR_OK, Some pub).
Proof.
  intros Hk Hstd Hc Hpub. unfold btokPubkeyCalc.
  replace (negb (length privkey =? 32) && negb (length privkey =? 48) &&
           negb (length privkey =? 64)) with false
    by (destruct Hk as [-> | [-> | ->]]; reflexivity).
  unfold std_params in Hstd. rewrite Hstd, Hc. cbn [negb].
  now rewrite Hpub.
Qed.

(** X8: a certificate that [btokCVCIss] writes unwraps to [ERR_OK] under
    the public key of the certificate of the issuer, its authority is the
    holder of the issuer and its signature has the length that this key
    demands, provided a key pair that [bignValKeypair] accepts is made of
    a private key and the public key derived from it. *)
Theorem btokCVCIss_then_btokCVCUnwrap (cert_len : bool)
        (st cvc cvca : btok_cvc_t) (certa privkeya cert : list octet)
        (r : wrap_result) :
  (forall params priv pub,
      bignValKeypair params priv pub = ERR_OK ->
      bignCalcPubkey params priv = (ERR_OK, pub)) ->
  cvc_layout cvc = true ->
  btokCVCIss true cert_len cvc certa privkeya = Ret r ->
  w_code r = ERR_OK -> w_cert r = Some cert ->
  btokCVCUnwrap cvc_zero certa [] = Ret (ERR_OK, cvca) ->
  btokCVCUnwrap st cert (firstn (pubkey_len cvca) (pubkey cvca)) =
  Ret (ERR_OK, unwrapped (w_cvc r)) /\
  authority (w_cvc r) = holder cvca /\
  sig_len (w_cvc r) = pubkey_len cvca - pubkey_len cvca / 4.
Proof.
  intros Hpair Hlay Hiss Hok Hcert Hua.
  rewrite btokCVCIss_code in Hiss. cbv zeta in Hiss.
  destruct (negb (blobCreate sizeof_btok_cvc_t));
    [injection Hiss as <-; discriminate |].
  rewrite Hua in Hiss. cbn [is_ok err_eqb negb] in Hiss.
  destruct (is_ok (btokKeypairVal privkeya (pubkey cvca) (pubkey_len cvca)))
    eqn:Hk; cbn [negb] in Hiss;
    [| injection Hiss as <-; cbn in Hok; rewrite Hok in Hk; discriminate].
  apply is_ok_true, btokKeypairVal_ok in Hk.
  destruct Hk as (Hkey & Hn & c & params & Hstd & Hc & Hval).
  destruct (is_ok (check2_code cvc cvca)) eqn:H2; cbn [negb] in Hiss;
    [| injection Hiss as <-; cbn in Hok; rewrite Hok in H2; discriminate].
  apply check2_code_ok in H2; [| now apply unwrap_ok_checked in Hua].
  destruct H2 as (_ & Hs & _).
  apply Hpair in Hval.
  pose proof (btokPubkeyCalc_from _ Hkey Hstd Hc Hval) as Hcalc.
  split; [eapply wrap_unwrap_keyed; eassumption |].
  destruct (wrap_real_result _ _ _ Hlay Hiss Hok Hcert)
    as (_ & _ & _ & HL & _).
  rewrite btokCVCWrap_pure in Hiss. injection Hiss as <-.
  split.
  - apply octets_eqb_eq in Hs. rewrite <- Hs.
    destruct (wrap_real_facts _ _ _ Hlay Hok)
      as (cvc1 & s & code & params' & der & hash &
          _ & Hb & _ & _ & _ & _ & _ & Hr).
    cbv zeta in Hr. rewrite Hr. cbn [w_cvc authority set_sig_len set_sig].
    apply Wrap_build_pubkey_frame in Hb. now destruct Hb as (-> & _).
  - rewrite HL, Hn. apply key_len_quarter in Hkey.
    destruct Hkey as (Hq & _). now rewrite Hq.
Qed.

End Chain.

(** ** What issuing leaves of the record *)

Section IssueFrame.

Context {collab : Collab}.

(** What any call of wrap leaves of the record. *)
Lemma wrap_pure_frame (cert cert_len : bool) (cvc : btok_cvc_t)
      (privkey : list octet) :
  let r := wrap_pure cert cert_len cvc privkey in
  authority (w_cvc r) = authority cvc /\ holder (w_cvc r) = holder cvc /\
  hat_eid (w_cvc r) = hat_eid cvc /\ hat_esign (w_cvc r) = hat_esign cvc /\
  from (w_cvc r) = from cvc /\ until (w_cvc r) = until cvc /\
  (pubkey_len cvc <> 0 ->
   pubkey (w_cvc r) = pubkey cvc /\ pubkey_len (w_cvc r) = pubkey_len cvc) /\
  (cert = false -> sig (w_cvc r) = sig cvc /\ w_trace r = []) /\
  (w_code r <> ERR_OK ->
   sig_len (w_cvc r) = sig_len cvc /\ w_cert_len r = None).
Proof.
  unfold wrap_pure.
  destruct (negb (length privkey =? 32) && negb (length privkey =? 48) &&
            negb (length privkey =? 64)).
  { cbn. repeat split; reflexivity. }
  destruct (Wrap_build_pubkey cvc privkey) as [code cvc1] eqn:Hb.
  apply Wrap_build_pubkey_frame in Hb.
  destruct Hb
    as (Ha & Hh & He & Hs & Hf & Hu & Hsig & Hsl & Hnz & _ & _).
  assert (Hkey : pubkey_len cvc <> 0 ->
                 pubkey cvc1 = pubkey cvc /\ pubkey_len cvc1 = pubkey_len cvc)
    by (intros Hq; destruct (Hnz Hq) as (-> & _); now split).
  destruct (negb (is_ok code)).
  { cbn [w_code w_cert_len w_cvc w_trace].
    repeat (split; [assumption |]).
    split; [intros _; now split | intros _; now split]. }
  destruct (negb (is_ok (check_code cvc1))).
  { cbn [w_code w_cert_len w_cvc w_trace].
    repeat (split; [assumption |]).
    split; [intros _; now split | intros _; now split]. }
  destruct cert.
  - destruct (sign_pure (body_code cvc1) privkey) as [scode written].
    destruct (negb (is_ok scode)).
    + cbn [w_code w_cert_len w_cvc w_trace].
      destruct written;
        cbn [authority holder hat_eid hat_esign from until pubkey pubkey_len
             sig sig_len set_sig];
        repeat (split; [assumption |]);
        (split; [discriminate | intros _; now split]).
    + cbn [w_code w_cert_len w_cvc w_trace].
      destruct written;
        cbn [authority holder hat_eid hat_esign from until pubkey pubkey_len
             sig sig_len set_sig set_sig_len];
        repeat (split; [assumption |]);
        (split; [discriminate | intros H; now contradiction H]).
  - cbn [w_code w_cert_len w_cvc w_trace].
    cbn [authority holder hat_eid hat_esign from until pubkey pubkey_len
         sig sig_len set_sig set_sig_len].
    repeat (split; [assumption |]).
    split; [intros _; now split | intros H; now contradiction H].
Qed.

(** X9: [btokCVCIss] never changes the names, the key, the access
    templates or the dates of the record to issue, whatever it returns;
    [sig] and [sig_len] change only through the final wrap, which is
    reached, and the signer called, only after the certificate of the
    issuer has unwrapped, the keys have paired and [btokCVCCheck2] has
    passed; on an error [sig_len] stays and no length is stored. *)
Theorem btokCVCIss_frame (cert cert_len : bool) (cvc : btok_cvc_t)
        (certa privkeya : list octet) (r : wrap_result) :
  btokCVCIss cert cert_len cvc certa privkeya = Ret r ->
  authority (w_cvc r) = authority cvc /\ holder (w_cvc r) = holder cvc /\
  pubkey (w_cvc r) = pubkey cvc /\ pubkey_len (w_cvc r) = pubkey_len cvc /\
  hat_eid (w_cvc r) = hat_eid cvc /\ hat_esign (w_cvc r) = hat_esign cvc /\
  from (w_cvc r) = from cvc /\ until (w_cvc r) = until cvc /\
  (w_code r <> ERR_OK ->
   sig_len (w_cvc r) = sig_len cvc /\ w_cert_len r = None) /\
  (cert = false -> sig (w_cvc r) = sig cvc /\ w_trace r = []) /\
  (w_cvc r <> cvc \/ w_trace r <> [] ->
   exists cvca,
     btokCVCUnwrap cvc_zero certa [] = Ret (ERR_OK, cvca) /\
     btokKeypairVal privkeya (pubkey cvca) (pubkey_len cvca) = ERR_OK /\
     btokCVCCheck2 cvc cvca = Ret ERR_OK).
Proof.
  rewrite btokCVCIss_code. cbv zeta.
  assert (Hun : forall code,
             Ret (mk_wrap code (if cert then Some [] else None) None cvc []) =
             Ret r ->
             authority (w_cvc r) = authority cvc /\
             holder (w_cvc r) = holder cvc /\
             pubkey (w_cvc r) = pubkey cvc /\
             pubkey_len (w_cvc r) = pubkey_len cvc /\
             hat_eid (w_cvc r) = hat_eid cvc /\
             hat_esign (w_cvc r) = hat_esign cvc /\
             from (w_cvc r) = from cvc /\ until (w_cvc r) = until cvc /\
             (w_code r <> ERR_OK ->
              sig_len (w_cvc r) = sig_len cvc /\ w_cert_len r = None) /\
             (cert = false -> sig (w_cvc r) = sig cvc /\ w_trace r = []) /\
             (w_cvc r <> cvc \/ w_trace r <> [] ->
              exists cvca,
                btokCVCUnwrap cvc_zero certa [] = Ret (ERR_OK, cvca) /\
                btokKeypairVal privkeya (pubkey cvca) (pubkey_len cvca) =
                ERR_OK /\
                btokCVCCheck2 cvc cvca = Ret ERR_OK)).
  { intros code H. injection H as <-. cbn [w_cvc w_code w_cert_len w_trace].
    repeat (split; [reflexivity |]).
    split; [intros _; now split |]. split; [intros _; now split |].
    intros [H | H]; now contradiction H. }
  destruct (negb (blobCreate sizeof_btok_cvc_t)); [apply Hun |].
  destruct (btokCVCUnwrap cvc_zero certa []) as [[code cvca] |] eqn:Hua;
    [| discriminate].
  destruct (is_ok code) eqn:Hc; cbn [negb]; [| apply Hun].
  apply is_ok_true in Hc. subst code.
  destruct (is_ok (btokKeypairVal _ _ _)) eqn:Hk; cbn [negb]; [| apply Hun].
  apply is_ok_true in Hk.
  destruct (is_ok (check2_code cvc cvca)) eqn:H2; cbn [negb]; [| apply Hun].
  clear Hun. rewrite btokCVCWrap_pure. intros H. injection H as <-.
  pose proof H2 as Hchk.
  apply check2_code_ok in Hchk; [| now apply unwrap_ok_checked in Hua].
  destruct Hchk as (Hchk & _).
  apply check_code_ok in Hchk. destruct Hchk as (_ & _ & Hp).
  apply btokPubkeyVal_ok_len in Hp.
  destruct (wrap_pure_frame cert cert_len cvc privkeya)
    as (Ha & Hh & He & Hs & Hf & Hu & Hkey & Hsig & Hfail).
  destruct Hkey as (Hk1 & Hk2); [lia |].
  repeat (split; [assumption |]).
  intros _. exists cvca. split; [reflexivity |]. split; [exact Hk |].
  rewrite btokCVCCheck2_code. f_equal. apply is_ok_true in H2. exact H2.
Qed.

End IssueFrame.

(** ** What the check against the issuer reads *)

Section Check2.

Context {collab : Collab}.

(** X10: [btokCVCCheck2] returns the error of [btokCVCCheck] on the record
    when there is one; otherwise it returns [ERR_OK] exactly when the
    authority is the holder of the issuer, both dates of the issuer are
    valid and [from] of the record is not before [from] nor after [until]
    of the issuer.  Of the issuer it reads the holder and the two dates
    only, and [until] of the record counts only through [btokCVCCheck]: it
    is not compared with the dates of the issuer. *)
Theorem btokCVCCheck2_reads (cvc cvca : btok_cvc_t) :
  (forall e, btokCVCCheck cvc = Ret e -> e <> ERR_OK ->
             btokCVCCheck2 cvc cvca = Ret e) /\
  (btokCVCCheck2 cvc cvca = Ret ERR_OK <->
   btokCVCCheck cvc = Ret ERR_OK /\
   Str.strEq (authority cvc) (holder cvca) = true /\
   btokCVCDateIsValid (from cvca) = true /\
   btokCVCDateIsValid (until cvca) = true /\
   (Mem.memCmp (from cvca) (from cvc) 6 <= 0)%Z /\
   (Mem.memCmp (from cvc) (until cvca) 6 <= 0)%Z) /\
  (forall cvca' : btok_cvc_t,
      holder cvca' = holder cvca -> from cvca' = from cvca ->
      until cvca' = until cvca ->
      btokCVCCheck2 cvc cvca' = btokCVCCheck2 cvc cvca) /\
  (forall u : list octet,
      btokCVCCheck cvc = Ret ERR_OK ->
      btokCVCCheck (set_until cvc u) = Ret ERR_OK ->
      btokCVCCheck2 (set_until cvc u) cvca = btokCVCCheck2 cvc cvca).
Proof.
  split; [| split; [| split]].
  - intros e He Hne. rewrite btokCVCCheck2_code.
    rewrite btokCVCCheck_code in He. injection He as ->.
    apply is_ok_false in Hne. now rewrite Hne.
  - rewrite btokCVCCheck2_code, btokCVCCheck_code.
    rewrite <- !leb_Z_true.
    destruct (is_ok (check_code cvc)) eqn:Hc; cbn [negb].
    + apply is_ok_true in Hc. rewrite Hc.
      destruct (Str.strEq _ _); cbn [negb];
        [| split; [discriminate | intros (_ & H & _); discriminate]].
      destruct (btokCVCDateIsValid (from cvca)); cbn [andb negb];
        [| split; [discriminate | intros (_ & _ & H & _); discriminate]].
      destruct (btokCVCDateIsValid (until cvca)); cbn [andb negb];
        [| split; [discriminate | intros (_ & _ & _ & H & _); discriminate]].
      destruct (Mem.memCmp (from cvca) (from cvc) 6 <=? 0)%Z;
        cbn [andb negb];
        [| split; [discriminate
                  | intros (_ & _ & _ & _ & H & _); discriminate]].
      destruct (Mem.memCmp (from cvc) (until cvca) 6 <=? 0)%Z;
        cbn [andb negb];
        [| split; [discriminate
                  | intros (_ & _ & _ & _ & _ & H); discriminate]].
      now repeat split.
    + split.
      * intros H. injection H as H. rewrite H in Hc. discriminate.
      * intros (H & _). injection H as H. rewrite H in Hc. discriminate.
  - intros cvca' Hh Hf Hu. rewrite !btokCVCCheck2_code.
    now rewrite Hh, Hf, Hu.
  - intros u H1 H2. rewrite !btokCVCCheck2_code.
    rewrite btokCVCCheck_code in H1, H2.
    injection H1 as H1. injection H2 as H2. rewrite H1, H2. reflexivity.
Qed.

End Check2.

(** ** Concrete runs for the properties above *)

Module ToyExtra.

Import Toy ToyFacts.

Definition msg : list octet := map octet_of_nat [77; 83; 71].

Definition sig_of_msg : list octet :=
  take_pad 32 (repeat (octet_of_nat (xor_fold msg)) 32) ++ take_pad 16 priv32.

(** A record without a key yet and with a holder of four characters. *)
Definition nokey_bad : btok_cvc_t :=
  mk_cvc name1 (firstn 4 name2) (repeat x00 128) 0
         (repeat x00 5) (repeat x00 2)
         (date 2 2 0 7 0 7) (date 2 3 0 7 0 7) (repeat x00 96) 0.

Definition failed : wrap_result := wrap_pure false true nokey_bad priv32.

Definition pub48 : list octet := priv48 ++ priv48.

Lemma keypair_calc (params : bign_params) (priv pub : list octet) :
  bignValKeypair params priv pub = ERR_OK ->
  bignCalcPubkey params priv = (ERR_OK, pub).
Proof.
  cbn. destruct (octets_eqb (priv ++ priv) pub) eqn:E; [| discriminate].
  intros _. apply octets_eqb_eq in E. now rewrite E.
Qed.

End ToyExtra.

Lemma btokSign_then_btokVerify_witness :
  @btokSign Toy.collab ToyExtra.msg Toy.priv32 =
  Ret (ERR_OK, Some ToyExtra.sig_of_msg) /\
  @btokPubkeyCalc Toy.collab Toy.priv32 = (ERR_OK, Some ToyFacts.pub32) /\
  length ToyExtra.sig_of_msg = 48 /\
  @btokVerify Toy.collab ToyExtra.msg ToyExtra.sig_of_msg ToyFacts.pub32 64 =
  Ret ERR_OK.
Proof.
  assert (H1 : @btokSign Toy.collab ToyExtra.msg Toy.priv32 =
               Ret (ERR_OK, Some ToyExtra.sig_of_msg))
    by (vm_compute; reflexivity).
  assert (H2 : @btokPubkeyCalc Toy.collab Toy.priv32 =
               (ERR_OK, Some ToyFacts.pub32)) by (vm_compute; reflexivity).
  split; [exact H1 |]. split; [exact H2 |].
  destruct (@btokSign_then_btokVerify Toy.collab ToyFacts.laws ToyExtra.msg
              Toy.priv32 ToyFacts.pub32 ToyExtra.sig_of_msg H1 H2)
    as (Hs & _ & Hv).
  split; [exact Hs | exact Hv].
Defined.

Lemma btokPubkeyCalc_then_btokPubkeyVal_witness :
  @btokPubkeyCalc Toy.collab Toy.priv32 = (ERR_OK, Some ToyFacts.pub32) /\
  length ToyFacts.pub32 = 64 /\
  @btokPubkeyVal Toy.collab ToyFacts.pub32 (length ToyFacts.pub32) = ERR_OK.
Proof.
  assert (H : @btokPubkeyCalc Toy.collab Toy.priv32 =
              (ERR_OK, Some ToyFacts.pub32)) by (vm_compute; reflexivity).
  split; [exact H |].
  destruct (@btokPubkeyCalc_then_btokPubkeyVal Toy.collab ToyFacts.laws
              Toy.priv32 ToyFacts.pub32 H) as (_ & Hl & Hv).
  split; [exact Hl | exact Hv].
Defined.

Lemma btokCVCWrap_failure_frame_witness :
  @btokCVCWrap Toy.collab false true ToyExtra.nokey_bad Toy.priv32 =
  Ret ToyExtra.failed /\
  w_code ToyExtra.failed = ERR_BAD_NAME /\
  w_cert_len ToyExtra.failed = None /\
  sig_len (w_cvc ToyExtra.failed) = 0 /\
  pubkey_len (w_cvc ToyExtra.failed) = 64.
Proof.
  assert (H1 : @btokCVCWrap Toy.collab false true ToyExtra.nokey_bad
                 Toy.priv32 = Ret ToyExtra.failed)
    by (vm_compute; reflexivity).
  assert (H2 : w_code ToyExtra.failed = ERR_BAD_NAME)
    by (vm_compute; reflexivity).
  assert (H3 : w_code ToyExtra.failed <> ERR_OK)
    by (rewrite H2; discriminate).
  split; [exact H1 |]. split; [exact H2 |].
  destruct (@btokCVCWrap_failure_frame Toy.collab false true
              ToyExtra.nokey_bad Toy.priv32 ToyExtra.failed H1 H3)
    as (Hl & _ & _ & _ & _ & _ & _ & Hs & _ & _ & Hm & _).
  split; [exact Hl |]. split; [exact Hs |].
  apply Hm; vm_compute; reflexivity.
Defined.

Lemma btokCVCWrap_signs_body_witness :
  @btokCVCWrap Toy.collab true true Toy.cvc0 Toy.priv32 =
  Ret ToyFacts.wrapped0 /\
  w_code ToyFacts.wrapped0 = ERR_OK /\
  w_cert ToyFacts.wrapped0 = Some (ToyFacts.cert_of ToyFacts.wrapped0) /\
  exists body,
    w_trace ToyFacts.wrapped0 = [EvSign body Toy.priv32] /\
    ToyFacts.cert_of ToyFacts.wrapped0 =
    derEnc 0x7F21
      (body ++
       derEnc 0x5F37 (firstn 48 (sig (w_cvc ToyFacts.wrapped0)))).
Proof.
  assert (H1 : @btokCVCWrap Toy.collab true true Toy.cvc0 Toy.priv32 =
               Ret ToyFacts.wrapped0) by (vm_compute; reflexivity).
  assert (H2 : w_code ToyFacts.wrapped0 = ERR_OK) by (vm_compute; reflexivity).
  assert (H3 : w_cert ToyFacts.wrapped0 =
               Some (ToyFacts.cert_of ToyFacts.wrapped0))
    by (vm_compute; reflexivity).
  split; [exact H1 |]. split; [exact H2 |]. split; [exact H3 |].
  destruct (@btokCVCWrap_signs_body Toy.collab true Toy.cvc0 Toy.priv32
              (ToyFacts.cert_of ToyFacts.wrapped0) ToyFacts.wrapped0
              H1 H2 H3) as (body & s & _ & Ht & _ & _ & Hc & _).
  exists body. split; [exact Ht | exact Hc].
Defined.

Lemma btokCVCUnwrap_ok_witness :
  @btokCVCUnwrap Toy.collab cvc_zero (ToyFacts.cert_of ToyFacts.wrapped0)
                 ToyFacts.pub32 = Ret (ERR_OK, w_cvc ToyFacts.wrapped0) /\
  @btokCVCCheck Toy.collab (w_cvc ToyFacts.wrapped0) = Ret ERR_OK /\
  (sig_len (w_cvc ToyFacts.wrapped0) = 48 \/
   sig_len (w_cvc ToyFacts.wrapped0) = 72 \/
   sig_len (w_cvc ToyFacts.wrapped0) = 96).
Proof.
  assert (H : @btokCVCUnwrap Toy.collab cvc_zero
                (ToyFacts.cert_of ToyFacts.wrapped0) ToyFacts.pub32 =
              Ret (ERR_OK, w_cvc ToyFacts.wrapped0))
    by (vm_compute; reflexivity).
  split; [exact H |].
  destruct (@btokCVCUnwrap_ok Toy.collab cvc_zero (w_cvc ToyFacts.wrapped0)
              (ToyFacts.cert_of ToyFacts.wrapped0) ToyFacts.pub32 H)
    as (Hc & Hs & _).
  split; [exact Hc | exact Hs].
Defined.

Lemma btokCVCUnwrap_other_level_witness :
  cvc_layout Toy.cvc0 = true /\
  @btokCVCWrap Toy.collab true true Toy.cvc0 Toy.priv32 =
  Ret ToyFacts.wrapped0 /\
  w_code ToyFacts.wrapped0 = ERR_OK /\
  w_cert ToyFacts.wrapped0 = Some (ToyFacts.cert_of ToyFacts.wrapped0) /\
  length ToyExtra.pub48 = 96 /\
  exists c',
    @btokCVCUnwrap Toy.collab cvc_zero (ToyFacts.cert_of ToyFacts.wrapped0)
                   ToyExtra.pub48 = Ret (ERR_BAD_FORMAT, c') /\
    sig_len c' = 72.
Proof.
  assert (H0 : cvc_layout Toy.cvc0 = true) by reflexivity.
  assert (H1 : @btokCVCWrap Toy.collab true true Toy.cvc0 Toy.priv32 =
               Ret ToyFacts.wrapped0) by (vm_compute; reflexivity).
  assert (H2 : w_code ToyFacts.wrapped0 = ERR_OK) by (vm_compute; reflexivity).
  assert (H3 : w_cert ToyFacts.wrapped0 =
               Some (ToyFacts.cert_of ToyFacts.wrapped0))
    by (vm_compute; reflexivity).
  assert (H4 : length ToyExtra.pub48 = 96) by reflexivity.
  split; [exact H0 |]. split; [exact H1 |]. split; [exact H2 |].
  split; [exact H3 |]. split; [exact H4 |].
  destruct (@btokCVCUnwrap_other_level Toy.collab true cvc_zero Toy.cvc0
              Toy.priv32 (ToyFacts.cert_of ToyFacts.wrapped0) ToyExtra.pub48
              ToyFacts.wrapped0 H0 H1 H2 H3
              (or_intror (or_introl H4)))
    as (c' & Hu & Hs & _).
  { rewrite H4. vm_compute. discriminate. }
  exists c'. split; [exact Hu |]. rewrite Hs, H4. reflexivity.
Defined.

Lemma btokCVCIss_then_btokCVCUnwrap_witness :
  cvc_layout (ToyIssue.child Toy.name2) = true /\
  @btokCVCIss Toy.collab true true (ToyIssue.child Toy.name2) ToyIssue.certa
              Toy.priv32 = Ret ToyIssue.issued /\
  w_code ToyIssue.issued = ERR_OK /\
  w_cert ToyIssue.issued = Some (ToyFacts.cert_of ToyIssue.issued) /\
  @btokCVCUnwrap Toy.collab cvc_zero ToyIssue.certa [] =
  Ret (ERR_OK, ToyIssue.cvca) /\
  @btokCVCUnwrap Toy.collab cvc_zero (ToyFacts.cert_of ToyIssue.issued)
                 (firstn (pubkey_len ToyIssue.cvca) (pubkey ToyIssue.cvca)) =
  Ret (ERR_OK, unwrapped (w_cvc ToyIssue.issued)) /\
  sig_len (w_cvc ToyIssue.issued) = 48.
Proof.
  assert (H0 : cvc_layout (ToyIssue.child Toy.name2) = true) by reflexivity.
  assert (H1 : @btokCVCIss Toy.collab true true (ToyIssue.child Toy.name2)
                 ToyIssue.certa Toy.priv32 = Ret ToyIssue.issued)
    by (vm_compute; reflexivity).
  assert (H2 : w_code ToyIssue.issued = ERR_OK) by (vm_compute; reflexivity).
  assert (H3 : w_cert ToyIssue.issued =
               Some (ToyFacts.cert_of ToyIssue.issued))
    by (vm_compute; reflexivity).
  assert (H4 : @btokCVCUnwrap Toy.collab cvc_zero ToyIssue.certa [] =
               Ret (ERR_OK, ToyIssue.cvca)) by (vm_compute; reflexivity).
  split; [exact H0 |]. split; [exact H1 |]. split; [exact H2 |].
  split; [exact H3 |]. split; [exact H4 |].
  destruct (@btokCVCIss_then_btokCVCUnwrap Toy.collab ToyFacts.laws true
              cvc_zero (ToyIssue.child Toy.name2) ToyIssue.cvca ToyIssue.certa
              Toy.priv32 (ToyFacts.cert_of ToyIssue.issued) ToyIssue.issued
              ToyExtra.keypair_calc H0 H1 H2 H3 H4) as (Hu & _ & Hs).
  split; [exact Hu |]. rewrite Hs. vm_compute. reflexivity.
Defined.

Lemma btokCVCIss_frame_witness :
  @btokCVCIss Toy.collab true true (ToyIssue.child ToyIssue.short_name)
              ToyIssue.certa Toy.priv32 = Ret ToyIssue.refused /\
  pubkey (w_cvc ToyIssue.refused) =
  pubkey (ToyIssue.child ToyIssue.short_name) /\
  w_cert_len ToyIssue.refused = None.
Proof.
  assert (H1 : @btokCVCIss Toy.collab true true
                 (ToyIssue.child ToyIssue.short_name) ToyIssue.certa
                 Toy.priv32 = Ret ToyIssue.refused)
    by (vm_compute; reflexivity).
  split; [exact H1 |].
  destruct (@btokCVCIss_frame Toy.collab true true
              (ToyIssue.child ToyIssue.short_name) ToyIssue.certa Toy.priv32
              ToyIssue.refused H1)
    as (_ & _ & Hp & _ & _ & _ & _ & _ & Hf & _).
  split; [exact Hp |].
  apply Hf. vm_compute. discriminate.
Defined.

(** ** With and without a key *)

Section KeyedThenPlain.

Context {collab : Collab}.

Lemma derDec3_same_length (der : list octet) (tag : N) (l1 l2 : nat)
      (r1 r2 : list octet * nat) :
  derDec3 der tag l1 = Some r1 -> derDec3 der tag l2 = Some r2 -> l1 = l2.
Proof.
  unfold derDec3. destruct (derDec2 der tag) as [[val t] |]; [| discriminate].
  destruct (length val =? l1) eqn:E1; [| discriminate].
  destruct (length val =? l2) eqn:E2; [| discriminate].
  intros _ _. apply Nat.eqb_eq in E1, E2. congruence.
Qed.

Lemma sig_len_by_trial_found (der : list octet) (L : nat)
      (r : list octet * nat) :
  derDec3 der 0x5F37 L = Some r -> L = 48 \/ L = 72 \/ L = 96 ->
  sig_len_by_trial der = (false, L).
Proof.
  intros Hd HL. unfold sig_len_by_trial.
  destruct (derDec3 der 0x5F37 48) as [r1 |] eqn:E1; cbn [is_SIZE_MAX negb].
  { now rewrite (derDec3_same_length _ _ _ _ E1 Hd). }
  destruct (derDec3 der 0x5F37 72) as [r2 |] eqn:E2; cbn [is_SIZE_MAX negb].
  { now rewrite (derDec3_same_length _ _ _ _ E2 Hd). }
  destruct HL as [-> | [-> | ->]]; [congruence | congruence |].
  now rewrite Hd.
Qed.

(** X13: a certificate that [btokCVCUnwrap] accepts under a key it also
    accepts without a key, and with the same record: the length of the
    signature found by trial is the one the key demands. *)
Theorem btokCVCUnwrap_keyed_then_plain (st st' c : btok_cvc_t)
        (cert key : list octet) :
  btokCVCUnwrap st cert key = Ret (ERR_OK, c) ->
  btokCVCUnwrap st' cert [] = Ret (ERR_OK, c).
Proof.
  unfold btokCVCUnwrap. cbn [length Nat.eqb negb andb].
  destruct (negb (length key =? 0) && negb (length key =? 64) &&
            negb (length key =? 96) && negb (length key =? 128)) eqn:Hk;
    [discriminate |].
  destruct (derTSEQDecStart _ _) as [a [t |]]; [| discriminate].
  destruct (btokCVCBodyDec _ _) as [c0 [n |]]; [| discriminate].
  set (rest := c_rest (advance (advance (mk_cursor 0 cert) t) n)).
  destruct (length key =? 0) eqn:Hz.
  - (* no key on the left either *)
    cbn [negb]. exact (fun H => H).
  - assert (HL : length key - length key / 4 = 48 \/
                 length key - length key / 4 = 72 \/
                 length key - length key / 4 = 96).
    { cbn [negb andb] in Hk.
      destruct (length key =? 64) eqn:E1;
        [apply Nat.eqb_eq in E1; rewrite E1; auto |].
      destruct (length key =? 96) eqn:E2;
        [apply Nat.eqb_eq in E2; rewrite E2; auto |].
      destruct (length key =? 128) eqn:E3;
        [apply Nat.eqb_eq in E3; rewrite E3; auto | discriminate]. }
    cbn [sig_len set_sig_len negb].
    destruct (derTOCTDec2 rest 0x5F37 (length key - length key / 4))
      as [[s t'] |] eqn:Hs; [| discriminate].
    rewrite (sig_len_by_trial_found _ Hs HL).
    cbn [sig_len set_sig_len]. rewrite Hs. cbv zeta.
    destruct (btokVerify _ _ key (length key)) as [vcode |];
      cbn [bind]; [| discriminate].
    destruct (is_ok vcode) eqn:Hv; cbn [negb is_ok err_eqb];
      [exact (fun H => H) |].
    intros H. injection H as -> _. discriminate.
Qed.

End KeyedThenPlain.

Lemma btokCVCUnwrap_keyed_then_plain_witness :
  @btokCVCUnwrap Toy.collab cvc_zero (ToyFacts.cert_of ToyFacts.wrapped0)
                 ToyFacts.pub32 = Ret (ERR_OK, w_cvc ToyFacts.wrapped0) /\
  @btokCVCUnwrap Toy.collab Toy.cvc0 (ToyFacts.cert_of ToyFacts.wrapped0) [] =
  Ret (ERR_OK, w_cvc ToyFacts.wrapped0).
Proof.
  assert (H : @btokCVCUnwrap Toy.collab cvc_zero
                (ToyFacts.cert_of ToyFacts.wrapped0) ToyFacts.pub32 =
              Ret (ERR_OK, w_cvc ToyFacts.wrapped0))
    by (vm_compute; reflexivity).
  split; [exact H |].
  exact (@btokCVCUnwrap_keyed_then_plain Toy.collab cvc_zero Toy.cvc0
           (w_cvc ToyFacts.wrapped0) (ToyFacts.cert_of ToyFacts.wrapped0)
           ToyFacts.pub32 H).
Defined.

(** ** The size of a certificate *)

Section Size.

Context {collab : Collab}.

Lemma derEnc_bound (tag : N) (val : list octet) (t l n : nat) :
  length (derTEnc tag) = t -> length val <= n ->
  (l = 1 /\ n < 128) \/ (l = 2 /\ n < 256) \/ (l = 3 /\ n < 256 * 256) ->
  length (derEnc tag val) <= t + l + n.
Proof.
  intros Ht Hv Hn. rewrite derEnc_length, Ht.
  assert (Hl : length val < 256 * 256) by lia.
  destruct (derLEnc_cases Hl) as [(H & ->) | [(H & ->) | (H & ->)]];
    cbn [length]; lia.
Qed.

Lemma cert_code_bound (c : btok_cvc_t) :
  length (authority c) <= 12 -> length (holder c) <= 12 ->
  pubkey_len c <= 128 -> sig_len c <= 96 ->
  length (cert_code c) <= 349.
Proof.
  intros Ha Hh Hk Hs.
  assert (Lo1 : length (oid_code oid_bign_pubkey) = 12) by reflexivity.
  assert (Lo2 : length (oid_code oid_eid_access) = 12) by reflexivity.
  assert (Lo3 : length (oid_code oid_esign_access) = 12) by reflexivity.
  pose proof (length_firstn (pubkey_len c) (pubkey c)) as Lk.
  pose proof (length_firstn 5 (hat_eid c)) as Le.
  pose proof (length_firstn 2 (hat_esign c)) as Ls.
  pose proof (length_firstn 6 (from c)) as Lf.
  pose proof (length_firstn 6 (until c)) as Lu.
  pose proof (length_firstn (sig_len c) (sig c)) as Lsig.
  assert (Bv : length (derEnc 0x5F29 [x00]) = 4) by reflexivity.
  pose proof (@derEnc_bound 0x42 (authority c) 1 1 12 eq_refl Ha ltac:(lia))
    as Ba.
  pose proof (@derEnc_bound 0x5F20 (holder c) 2 1 12 eq_refl Hh ltac:(lia))
    as Bh.
  pose proof (@derEnc_bound 0x03 (x00 :: firstn (pubkey_len c) (pubkey c))
                1 2 129 eq_refl ltac:(cbn [length]; lia) ltac:(lia)) as Bb.
  pose proof (@derEnc_bound 0x7F49
                (oid_code oid_bign_pubkey ++
                 derEnc 0x03 (x00 :: firstn (pubkey_len c) (pubkey c)))
                2 2 144 eq_refl
                ltac:(rewrite length_app; lia)
                ltac:(lia)) as Bp.
  fold (pubkey_code c) in Bp.
  assert (Be : length (hat_eid_code c) <= 22).
  { unfold hat_eid_code. destruct (Mem.memIsZero _ _); cbn [length]; [lia |].
    pose proof (@derEnc_bound 0x04 (firstn 5 (hat_eid c)) 1 1 5 eq_refl
                  ltac:(lia) ltac:(lia)) as B1.
    pose proof (@derEnc_bound 0x7F4C
                  (oid_code oid_eid_access ++
                   derEnc 0x04 (firstn 5 (hat_eid c))) 2 1 19 eq_refl
                  ltac:(rewrite length_app; lia)
                  ltac:(lia)) as B2.
    lia. }
  assert (Bs : length (hat_esign_code c) <= 20).
  { unfold hat_esign_code. destruct (Mem.memIsZero _ _); cbn [length]; [lia |].
    pose proof (@derEnc_bound 0x04 (firstn 2 (hat_esign c)) 1 1 2 eq_refl
                  ltac:(lia) ltac:(lia)) as B1.
    pose proof (@derEnc_bound 0x73
                  (oid_code oid_esign_access ++
                   derEnc 0x04 (firstn 2 (hat_esign c))) 1 1 16 eq_refl
                  ltac:(rewrite length_app; lia)
                  ltac:(lia)) as B2.
    pose proof (@derEnc_bound 0x65
                  (derEnc 0x73
                     (oid_code oid_esign_access ++
                      derEnc 0x04 (firstn 2 (hat_esign c)))) 1 1 18 eq_refl
                  ltac:(lia) ltac:(lia))
      as B3.
    lia. }
  pose proof (@derEnc_bound 0x5F25 (firstn 6 (from c)) 2 1 6 eq_refl
                ltac:(lia) ltac:(lia)) as Bf.
  pose proof (@derEnc_bound 0x5F24 (firstn 6 (until c)) 2 1 6 eq_refl
                ltac:(lia) ltac:(lia)) as Bu.
  pose proof (@derEnc_bound 0x7F4E (body_content c) 2 2 241 eq_refl
                ltac:(unfold body_content; rewrite !length_app; lia)
                ltac:(lia)) as Bbody.
  fold (body_code c) in Bbody.
  pose proof (@derEnc_bound 0x5F37 (firstn (sig_len c) (sig c)) 2 1 96 eq_refl
                ltac:(lia) ltac:(lia)) as Bsig.
  pose proof (@derEnc_bound 0x7F21
                (body_code c ++ derEnc 0x5F37 (firstn (sig_len c) (sig c)))
                2 3 344 eq_refl ltac:(rewrite length_app; lia) ltac:(lia))
    as Bcert.
  unfold cert_code. lia.
Qed.

Lemma Some_nat_le (a x b : nat) : a <= b -> Some a = Some x -> x <= b.
Proof. intros H E. injection E as <-. exact H. Qed.

Lemma Some_length_le (a x : list octet) (b : nat) :
  length a <= b -> Some a = Some x -> length x <= b.
Proof. intros H E. injection E as <-. exact H. Qed.

(** X12: a certificate that [btokCVCWrap] writes, and the length it stores
    with or without a buffer, never exceeds 349 octets. *)
Theorem btokCVCWrap_length_bound (cert cert_len : bool) (cvc : btok_cvc_t)
        (privkey : list octet) (r : wrap_result) :
  btokCVCWrap cert cert_len cvc privkey = Ret r -> w_code r = ERR_OK ->
  (forall n, w_cert_len r = Some n -> n <= 349) /\
  (forall c, w_cert r = Some c -> length c <= 349) /\
  (cert_len = true -> exists n, w_cert_len r = Some n).
Proof.
  rewrite btokCVCWrap_pure. intros H Hok. injection H as <-.
  assert (B : forall cvc1 s,
             key_len_ok (length privkey) -> check_code cvc1 = ERR_OK ->
             sig_len s = wrap_sig_len privkey ->
             authority s = authority cvc1 -> holder s = holder cvc1 ->
             pubkey_len s = pubkey_len cvc1 ->
             length (cert_code s) <= 349).
  { intros cvc1 s Hkey Hchk Hs Ha Hh Hp.
    apply check_code_ok in Hchk. destruct Hchk as (Hn & _ & Hv).
    apply names_ok_inv in Hn. destruct Hn as ((Hna & _) & (Hnh & _)).
    apply btokPubkeyVal_ok_len in Hv.
    pose proof (key_len_sig_le _ Hkey) as Hl. unfold sizeof_sig in Hl.
    apply cert_code_bound; rewrite ?Ha, ?Hh, ?Hp, ?Hs; lia. }
  destruct cert.
  - destruct (wrap_real_inv _ _ _ Hok)
      as (cvc1 & written & Hkey & _ & Hchk & _ & Hr).
    cbv zeta in Hr. rewrite Hr. cbn [w_cert_len w_cert].
    match goal with
    | |- context [cert_code ?s] =>
        assert (Hb : length (cert_code s) <= 349)
          by (apply (B cvc1);
              [exact Hkey | exact Hchk | destruct written; reflexivity ..])
    end.
    split; [| split].
    + intros n. destruct cert_len; [| discriminate].
      intros H. eapply Some_nat_le; [exact Hb | exact H].
    + intros c H. eapply Some_length_le; [exact Hb | exact H].
    + intros ->. eexists. reflexivity.
  - destruct (wrap_dry_inv _ _ _ Hok) as (cvc1 & Hkey & _ & Hchk & Hr).
    rewrite Hr. cbn [w_cert_len w_cert].
    assert (Hb : length (cert_code (set_sig_len cvc1 (wrap_sig_len privkey)))
                 <= 349)
      by (apply (B cvc1); [exact Hkey | exact Hchk | reflexivity ..]).
    split; [| split].
    + intros n. destruct cert_len; [| discriminate].
      intros H. eapply Some_nat_le; [exact Hb | exact H].
    + discriminate.
    + intros ->. eexists. reflexivity.
Qed.

End Size.

Module ToySize.

Import Toy.

Definition name12 : list octet := name1 ++ firstn 4 name2.

(** A root record with the longest names and both access templates. *)
Definition cvc_max : btok_cvc_t :=
  mk_cvc name12 name12 (repeat x00 128) 0
         (map octet_of_nat [1; 2; 3; 4; 5]) (map octet_of_nat [170; 187])
         (date 2 2 0 7 0 7) (date 2 3 0 7 0 7) (repeat x00 96) 0.

Definition wrapped_max : wrap_result := wrap_pure true true cvc_max priv64.

End ToySize.

Lemma btokCVCWrap_length_bound_witness :
  @btokCVCWrap Toy.collab true true ToySize.cvc_max Toy.priv64 =
  Ret ToySize.wrapped_max /\
  w_code ToySize.wrapped_max = ERR_OK /\
  w_cert_len ToySize.wrapped_max = Some 349 /\
  349 <= 349.
Proof.
  assert (H1 : @btokCVCWrap Toy.collab true true ToySize.cvc_max Toy.priv64 =
               Ret ToySize.wrapped_max) by (vm_compute; reflexivity).
  assert (H2 : w_code ToySize.wrapped_max = ERR_OK)
    by (vm_compute; reflexivity).
  assert (H3 : w_cert_len ToySize.wrapped_max = Some 349)
    by (vm_compute; reflexivity).
  split; [exact H1 |]. split; [exact H2 |]. split; [exact H3 |].
  destruct (@btokCVCWrap_length_bound Toy.collab true true ToySize.cvc_max
              Toy.priv64 ToySize.wrapped_max H1 H2) as (Hn & _).
  exact (Hn 349 H3).
Defined.

(** ** The registry of commands (cmd_main.c) *)

Module Cmd.

Section Registry.

(** [cmd_main_i], the type of an entry point, and the value of
    [ERR_CMD_EXISTS], which bee2/core/err.h defines. *)
Variable cmd_main_i : Type.
Variable ERR_CMD_EXISTS_code : N.

Definition ERR_CMD_EXISTS : err_t := ERR_OTHER ERR_CMD_EXISTS_code.

(** A [const char*] is an address.  The memory gives the string that starts
    at an address, up to its terminating zero; it belongs to the callers,
    who may change it between two calls. *)
Definition ptr : Type := N.
Definition memory : Type := ptr -> list octet.

(** [cmd_entry_t]: the two pointers as they were passed, and the entry
    point. *)
Record cmd_entry_t : Type := mk_entry {
  name : ptr;
  descr : ptr;
  fn : cmd_main_i
}.

(** [COUNT_OF(_cmds)] *)
Definition COUNT_OF_cmds : nat := 32.

(** The static state: the first [_count] entries of [_cmds]. *)
Definition registry : Type := list cmd_entry_t.

(** The loop of [cmdReg]: [strEq] reads, in the memory of the call, the
    string under the stored pointer and the string under the argument. *)
Fixpoint registered (m : memory) (cmds : registry) (nm : ptr) : bool :=
  match cmds with
  | [] => false
  | e :: rest =>
      if Str.strEq (m (name e)) (m nm) then true else registered m rest nm
  end.

(** [cmdReg], called when the memory is [m]. *)
Definition cmdReg (m : memory) (nm dsc : ptr) (f : cmd_main_i)
           (cmds : registry) : err_t * registry :=
  if registered m cmds nm then (ERR_CMD_EXISTS, cmds)
  else if length cmds =? COUNT_OF_cmds then (ERR_OUTOFMEMORY, cmds)
  else (ERR_OK, cmds ++ [mk_entry nm dsc f]).

(** One call of [cmdReg]: its arguments and the memory at that time. *)
Record call : Type := mk_call {
  at_mem : memory;
  arg_name : ptr;
  arg_descr : ptr;
  arg_fn : cmd_main_i
}.

(** A series of calls of [cmdReg], whatever each returns. *)
Definition cmdRegAll (calls : list call) (cmds : registry) : registry :=
  fold_left
    (fun acc c =>
       snd (cmdReg (at_mem c) (arg_name c) (arg_descr c) (arg_fn c) acc))
    calls cmds.

(** The names of the registry as the memory [m] shows them. *)
Definition names (m : memory) (cmds : registry) : list (list octet) :=
  map (fun e => m (name e)) cmds.

Lemma cmdRegAll_cons (c : call) (calls : list call) (cmds : registry) :
  cmdRegAll (c :: calls) cmds =
  cmdRegAll calls
    (snd (cmdReg (at_mem c) (arg_name c) (arg_descr c) (arg_fn c) cmds)).
Proof. reflexivity. Qed.

Lemma registered_In (m : memory) (cmds : registry) (nm : ptr) :
  registered m cmds nm = true <-> In (m nm) (names m cmds).
Proof.
  unfold names.
  induction cmds as [| e rest IH]; cbn [registered map In];
    [split; [discriminate | tauto] |].
  unfold Str.strEq. destruct (octets_eqb (m (name e)) (m nm)) eqn:E.
  - apply octets_eqb_eq in E. split; auto.
  - rewrite IH. split; [auto | intros [H | H]; [| exact H]].
    apply octets_eqb_eq in H. rewrite H in E. discriminate.
Qed.

Lemma cmdReg_length (m : memory) (nm dsc : ptr) (f : cmd_main_i)
      (cmds : registry) :
  length cmds <= COUNT_OF_cmds ->
  length (snd (cmdReg m nm dsc f cmds)) <= COUNT_OF_cmds.
Proof.
  intros Hl. unfold cmdReg.
  destruct (registered m cmds nm); [exact Hl |].
  destruct (length cmds =? COUNT_OF_cmds) eqn:Hc; [exact Hl |].
  apply Nat.eqb_neq in Hc. cbn [snd]. rewrite length_app. cbn [length]. lia.
Qed.

Lemma cmdRegAll_length (calls : list call) (cmds : registry) :
  length cmds <= COUNT_OF_cmds ->
  length (cmdRegAll calls cmds) <= COUNT_OF_cmds.
Proof.
  revert cmds. induction calls as [| c calls IH]; intros cmds H; [exact H |].
  rewrite cmdRegAll_cons. apply IH. now apply cmdReg_length.
Qed.

Lemma cmdReg_prefix (m : memory) (nm dsc : ptr) (f : cmd_main_i)
      (cmds : registry) :
  exists more, snd (cmdReg m nm dsc f cmds) = cmds ++ more.
Proof.
  unfold cmdReg.
  destruct (registered m cmds nm); [exists []; now rewrite app_nil_r |].
  destruct (length cmds =? COUNT_OF_cmds);
    [exists []; now rewrite app_nil_r |].
  now exists [mk_entry nm dsc f].
Qed.

Lemma cmdRegAll_prefix (calls : list call) (cmds : registry) :
  exists more, cmdRegAll calls cmds = cmds ++ more.
Proof.
  revert cmds. induction calls as [| c calls IH]; intros cmds;
    [exists []; now rewrite app_nil_r |].
  rewrite cmdRegAll_cons.
  destruct (cmdReg_prefix (at_mem c) (arg_name c) (arg_descr c) (arg_fn c)
                          cmds) as (m1 & ->).
  destruct (IH (cmds ++ m1)) as (m2 & ->).
  exists (m1 ++ m2). now rewrite app_assoc.
Qed.

(** Names that no call finds changed: in the memory [h] the registry never
    holds a name twice. *)
Lemma cmdRegAll_NoDup (h : memory) (P : ptr -> Prop) (calls : list call)
      (cmds : registry) :
  (forall c, In c calls ->
             P (arg_name c) /\ forall p, P p -> at_mem c p = h p) ->
  Forall (fun e => P (name e)) cmds ->
  NoDup (names h cmds) ->
  NoDup (names h (cmdRegAll calls cmds)).
Proof.
  revert cmds. induction calls as [| c calls IH]; intros cmds Hc HP Hn;
    [exact Hn |].
  rewrite cmdRegAll_cons.
  destruct (Hc c (or_introl eq_refl)) as (Pc & Hm).
  assert (Hnames : names (at_mem c) cmds = names h cmds).
  { unfold names. apply map_ext_in. intros e He.
    rewrite Forall_forall in HP. apply Hm, HP, He. }
  apply IH.
  - intros c' Hc'. apply Hc. now right.
  - unfold cmdReg.
    destruct (registered _ cmds _); [exact HP |].
    destruct (length cmds =? COUNT_OF_cmds); [exact HP |].
    cbn [snd]. apply Forall_app. split; [exact HP |].
    constructor; [exact Pc | constructor].
  - unfold cmdReg.
    destruct (registered (at_mem c) cmds (arg_name c)) eqn:Hr; [exact Hn |].
    destruct (length cmds =? COUNT_OF_cmds); [exact Hn |].
    cbn [snd]. unfold names. rewrite map_app. cbn [map name].
    apply NoDup_app; [exact Hn | constructor; [intros [] | constructor] |].
    intros x Hx [<- | []].
    rewrite <- (Hm _ Pc) in Hx. fold (names h cmds) in Hx.
    rewrite <- Hnames in Hx.
    apply registered_In in Hx. rewrite Hx in Hr. discriminate.
Qed.

(** X11: [cmdReg] stores the pointers it is given and compares strings in
    the memory of each call.  It returns [ERR_CMD_EXISTS] exactly when a
    stored pointer leads to the string of the argument, otherwise
    [ERR_OUTOFMEMORY] exactly when the 32 places are taken, and changes
    nothing in both cases; otherwise it returns [ERR_OK] and adds the
    pointers last.  Hence, from the empty registry, any series of calls
    leaves at most 32 commands; a command once registered stays at its
    place, and a later call is refused whenever the string of its argument
    is then the string under the stored pointer, as for the same pointer;
    when no call finds the names of the series changed, the names are
    pairwise distinct.  A caller that changes a registered name makes room
    for it again: the second call below is accepted also when its string
    is the one the first call registered. *)
Theorem cmdReg_registry :
  (forall (m : memory) (nm dsc : ptr) (f : cmd_main_i) (cmds : registry),
      (In (m nm) (names m cmds) ->
       cmdReg m nm dsc f cmds = (ERR_CMD_EXISTS, cmds)) /\
      (~ In (m nm) (names m cmds) -> length cmds = COUNT_OF_cmds ->
       cmdReg m nm dsc f cmds = (ERR_OUTOFMEMORY, cmds)) /\
      (~ In (m nm) (names m cmds) -> length cmds <> COUNT_OF_cmds ->
       cmdReg m nm dsc f cmds = (ERR_OK, cmds ++ [mk_entry nm dsc f]))) /\
  (forall calls : list call,
      length (cmdRegAll calls []) <= COUNT_OF_cmds) /\
  (forall (m : memory) (nm dsc : ptr) (f : cmd_main_i)
          (cmds cmds' : registry) (calls : list call),
      cmdReg m nm dsc f cmds = (ERR_OK, cmds') ->
      nth_error (cmdRegAll calls cmds') (length cmds) =
      Some (mk_entry nm dsc f) /\
      forall (m' : memory) (nm' dsc' : ptr) (f' : cmd_main_i),
        m' nm' = m' nm ->
        cmdReg m' nm' dsc' f' (cmdRegAll calls cmds') =
        (ERR_CMD_EXISTS, cmdRegAll calls cmds')) /\
  (forall (h : memory) (calls : list call),
      (forall c c', In c calls -> In c' calls ->
                    at_mem c (arg_name c') = h (arg_name c')) ->
      NoDup (names h (cmdRegAll calls []))) /\
  (forall (m m' : memory) (p q dsc dsc' : ptr) (f f' : cmd_main_i),
      m' p <> m' q ->
      cmdReg m' q dsc' f' (snd (cmdReg m p dsc f [])) =
      (ERR_OK, [mk_entry p dsc f; mk_entry q dsc' f'])).
Proof.
  assert (One : forall (m : memory) (nm dsc : ptr) (f : cmd_main_i)
                       (cmds : registry),
             (In (m nm) (names m cmds) ->
              cmdReg m nm dsc f cmds = (ERR_CMD_EXISTS, cmds)) /\
             (~ In (m nm) (names m cmds) -> length cmds = COUNT_OF_cmds ->
              cmdReg m nm dsc f cmds = (ERR_OUTOFMEMORY, cmds)) /\
             (~ In (m nm) (names m cmds) -> length cmds <> COUNT_OF_cmds ->
              cmdReg m nm dsc f cmds = (ERR_OK, cmds ++ [mk_entry nm dsc f]))).
  { intros m nm dsc f cmds. unfold cmdReg. split; [| split].
    - intros H. apply registered_In in H. now rewrite H.
    - intros H Hl. rewrite <- registered_In in H.
      apply not_true_is_false in H. rewrite H.
      apply Nat.eqb_eq in Hl. now rewrite Hl.
    - intros H Hl. rewrite <- registered_In in H.
      apply not_true_is_false in H. rewrite H.
      apply Nat.eqb_neq in Hl. now rewrite Hl. }
  split; [exact One |]. split; [| split; [| split]].
  - intros calls. apply cmdRegAll_length. cbn. lia.
  - intros m nm dsc f cmds cmds' calls H.
    assert (E : cmds' = cmds ++ [mk_entry nm dsc f]).
    { revert H. unfold cmdReg.
      destruct (registered m cmds nm); [discriminate |].
      destruct (length cmds =? COUNT_OF_cmds); [discriminate |].
      intros H. now injection H as <-. }
    destruct (cmdRegAll_prefix calls cmds') as (more & Hm).
    assert (Hnth : nth_error (cmdRegAll calls cmds') (length cmds) =
                   Some (mk_entry nm dsc f)).
    { rewrite Hm, E, <- app_assoc. rewrite nth_error_app2 by lia.
      now rewrite Nat.sub_diag. }
    split; [exact Hnth |].
    intros m' nm' dsc' f' Hsame.
    apply One. rewrite Hsame. apply nth_error_In in Hnth.
    unfold names.
    exact (in_map (fun e => m' (name e)) _ _ Hnth).
  - intros h calls Hst.
    apply (@cmdRegAll_NoDup h
             (fun p => exists c, In c calls /\ arg_name c = p)).
    + intros c Hc. split; [now exists c |].
      intros p (c' & Hc' & <-). now apply Hst.
    + constructor.
    + constructor.
  - intros m m' p q dsc dsc' f f' Hne.
    replace (snd (cmdReg m p dsc f [])) with [mk_entry p dsc f]
      by reflexivity.
    apply (One m' q dsc' f' [mk_entry p dsc f]).
    + cbn. intros [H | []]. now apply Hne.
    + cbn. unfold COUNT_OF_cmds. lia.
Qed.

End Registry.

End Cmd.
